(** * Eco-Logro: the volume pipeline, shallowly embedded

    The program is a browser application written in JavaScript.  Its
    numbers are modelled as exact rationals ([Q]): every comparison and
    every arithmetic step of the source is kept, rounding of IEEE doubles
    and the values [NaN]/[Infinity] are outside the model.  Numeric
    equality ([===] on numbers) is [Qeq], written [==].

    Objects become records, [this.x = e] becomes a record update, methods
    become functions that take the object and return the new object next
    to their result.  [Date.now()] is an argument ([now]) of the method
    that reads it; one handler invocation reads one instant. *)

From Stdlib Require Import QArith Qminmax Qround Lqa ZArith List String Bool.
From stdpp Require Import gmap strings.
Import ListNotations.

Local Open Scope Q_scope.
Local Open Scope string_scope.

(** ** JavaScript numerics *)

Module JS.

(** [Math.min] / [Math.max] on two numbers. *)
Definition Math_min (a b : Q) : Q := Qmin a b.
Definition Math_max (a b : Q) : Q := Qmax a b.

(** [Math.floor] and [Math.round] (round half up) yield integers. *)
Definition Math_floor (x : Q) : Z := Qfloor x.
Definition Math_round (x : Q) : Z := Qfloor (x + (1 # 2)).

(** [a < b], [a <= b], [a === b] on numbers, as booleans. *)
Definition ltb (a b : Q) : bool := if Qlt_le_dec a b then true else false.
Definition leb (a b : Q) : bool := Qle_bool a b.
Definition eqb (a b : Q) : bool := Qeq_bool a b.
Definition gtb (a b : Q) : bool := ltb b a.
Definition geb (a b : Q) : bool := leb b a.

(** Sum of an array, [arr.reduce((sum, v) => sum + v, 0)]. *)
Definition sum (l : list Q) : Q := fold_left Qplus l 0.

(** [Math.sqrt] on the square of a rational, where it is exact.  It
    stands for [Math.sqrt] when an example is run. *)
Definition sqrtOfSquare (q : Q) : Q :=
  Z.sqrt (Qnum (Qred q)) # Pos.sqrt (Qden (Qred q)).

(** Names that every object literal inherits from [Object.prototype]:
    [o[k]] finds them when [k] is not an own property of [o]. *)
Definition objectPrototypeKeys : list string :=
  [ "constructor"; "__proto__"; "hasOwnProperty"; "isPrototypeOf";
    "propertyIsEnumerable"; "toLocaleString"; "toString"; "valueOf";
    "__defineGetter__"; "__defineSetter__";
    "__lookupGetter__"; "__lookupSetter__" ].

(** Result of the property read [o[k]] on an object literal whose own
    properties all hold values of type [A]. *)
Inductive Lookup (A : Type) : Type :=
| Own (a : A)                 (* own property *)
| Inherited (k : string)      (* member of [Object.prototype], truthy *)
| Undefined.
Arguments Own {A} a.
Arguments Inherited {A} k.
Arguments Undefined {A}.

Definition getProperty {A} (o : gmap string A) (k : string) : Lookup A :=
  match o !! k with
  | Some a => Own a
  | None => if bool_decide (k ∈ objectPrototypeKeys) then Inherited k
            else Undefined
  end.

(** [x || y] on the results of two property reads: own objects and
    inherited members are truthy, [undefined] is not. *)
Definition or_else {A} (x y : Lookup A) : Lookup A :=
  match x with
  | Undefined => y
  | _ => x
  end.

End JS.

(** ** AudioAnalyzer (src/app.js) *)

Module AudioAnalyzer.

(** [dataArray] is [null] until [initialize] succeeds, then a
    [Uint8Array] of [bufferLength] frequency bins. *)
Record t := mk {
  dataArray : option (list Z);
  smoothingTimeConstant : Q;
  isInitialized : bool;
  isAnalyzing : bool
}.

Definition constructor : t :=
  {| dataArray := None; smoothingTimeConstant := 8 # 10;
     isInitialized := false; isAnalyzing := false |}.

Definition bufferLength (data : list Z) : Q :=
  inject_Z (Z.of_nat (length data)).

Definition setSmoothingTimeConstant (value : Q) (a : t) : t :=
  {| dataArray := dataArray a;
     smoothingTimeConstant := JS.Math_max 0 (JS.Math_min (99 # 100) value);
     isInitialized := isInitialized a;
     isAnalyzing := isAnalyzing a |}.

(** [initialize], when the microphone is granted: the buffer gets
    [frequencyBinCount] zeroed bins. *)
Definition initialize (frequencyBinCount : nat) (a : t) : t :=
  {| dataArray := Some (repeat 0%Z frequencyBinCount);
     smoothingTimeConstant := smoothingTimeConstant a;
     isInitialized := true;
     isAnalyzing := isAnalyzing a |}.

(** The write [this.isAnalyzing = true] of [startAnalysis].  The
    method then calls [analyze], which runs the registered callback:
    the whole method is [EcoLogroApp.startAnalysis] below. *)
Definition with_isAnalyzing (b : bool) (a : t) : t :=
  {| dataArray := dataArray a;
     smoothingTimeConstant := smoothingTimeConstant a;
     isInitialized := isInitialized a;
     isAnalyzing := b |}.

(** [this.analyser.getByteFrequencyData(this.dataArray)]: the platform
    writes the current bins into the buffer. *)
Definition getByteFrequencyData (bins : list Z) (a : t) : t :=
  {| dataArray := Some bins;
     smoothingTimeConstant := smoothingTimeConstant a;
     isInitialized := isInitialized a;
     isAnalyzing := isAnalyzing a |}.

(** [getCurrentVolume] *)
Definition getCurrentVolume (a : t) : Q :=
  match dataArray a with
  | None => 0
  | Some data =>
      let sum := fold_left (fun sum b => sum + inject_Z b) data 0 in
      let average := sum / bufferLength data in
      JS.Math_min 100 (average / 255 * 100)
  end.

(** The loop of [getRMSVolume]: sum of the squared normalised bins. *)
Definition squareSum (data : list Z) : Q :=
  fold_left (fun sum b => let normalized := inject_Z b / 255 in
                          sum + normalized * normalized) data 0.

(** Noise gate of [getRMSVolume], from the line
    [let volume = Math.min(100, rms * 250)] on. *)
Definition gate (rms : Q) : Q :=
  let volume := JS.Math_min 100 (rms * 250) in
  if JS.ltb volume 8 then 0 else volume.

Section WithSqrt.
(** [Math.sqrt] has no rational model; it is a parameter. *)
Variable Math_sqrt : Q -> Q.

Definition rmsOf (data : list Z) : Q :=
  Math_sqrt (squareSum data / bufferLength data).

Definition getRMSVolume (a : t) : Q :=
  match dataArray a with
  | None => 0
  | Some data => gate (rmsOf data)
  end.
End WithSqrt.

(** [stopAnalysis]; the pending animation frame is cancelled with it. *)
Definition stopAnalysis (a : t) : t :=
  {| dataArray := dataArray a;
     smoothingTimeConstant := smoothingTimeConstant a;
     isInitialized := isInitialized a;
     isAnalyzing := false |}.

End AudioAnalyzer.

(** ** StateManager (services/StateManager.js) *)

Module States.
Definition SILENT : string := "SILENT".
Definition LOW : string := "LOW".
Definition OPTIMAL : string := "OPTIMAL".
Definition WARNING : string := "WARNING".
Definition DANGER : string := "DANGER".

(** The enumeration object [States]. *)
Definition all : list string := [SILENT; LOW; OPTIMAL; WARNING; DANGER].
End States.

Module StateManager.

(** [this.config].  The constructor sets the four numeric keys; the
    spread in [updateConfiguration] also copies whatever other keys the
    caller passes: [persistenceDuration] and [studentName] from the
    panel, and [lastUpdated] too when the object comes from the
    storage. *)
Record Config := mkConfig {
  lowerThreshold : Q;
  upperThreshold : Q;
  sensitivity : Q;
  dampening : Q;
  persistenceDuration : option Q;
  cfgStudentName : option string;
  cfgLastUpdated : option Q
}.

(** A partial configuration: an absent key is [None]. *)
Record NewConfig := mkNewConfig {
  newLowerThreshold : option Q;
  newUpperThreshold : option Q;
  newSensitivity : option Q;
  newDampening : option Q;
  newPersistenceDuration : option Q;
  newStudentName : option string;
  newLastUpdated : option Q
}.

Definition Listener := nat.

Record t := mk {
  currentState : string;
  previousState : option string;
  lastVolume : Q;
  studentName : string;
  stateChangeListeners : list Listener;
  config : Config;
  volumeHistory : list Q
}.

(** [this.historyMaxLength = 5], assigned once by the constructor. *)
Definition historyMaxLength : nat := 5.

Definition constructor : t :=
  {| currentState := States.SILENT;
     previousState := None;
     lastVolume := 0;
     studentName := "";
     stateChangeListeners := [];
     config := {| lowerThreshold := 25; upperThreshold := 75;
                  sensitivity := 85; dampening := 20;
                  persistenceDuration := None; cfgStudentName := None;
                  cfgLastUpdated := None |};
     volumeHistory := [] |}.

Definition with_config (c : Config) (sm : t) : t :=
  {| currentState := currentState sm; previousState := previousState sm;
     lastVolume := lastVolume sm; studentName := studentName sm;
     stateChangeListeners := stateChangeListeners sm;
     config := c; volumeHistory := volumeHistory sm |}.

Definition with_volumeHistory (h : list Q) (sm : t) : t :=
  {| currentState := currentState sm; previousState := previousState sm;
     lastVolume := lastVolume sm; studentName := studentName sm;
     stateChangeListeners := stateChangeListeners sm;
     config := config sm; volumeHistory := h |}.

(** [applySensitivity] *)
Definition applySensitivity (volume : Q) (sm : t) : Q :=
  let sensitivity := sensitivity (config sm) / 100 in
  let adjusted := volume * ((1 # 2) + sensitivity) in
  JS.Math_min 100 (JS.Math_max 0 adjusted).

(** [push] then, when the array got longer than the cap, [shift]. *)
Definition pushHistory (volume : Q) (h : list Q) : list Q :=
  let h1 := (h ++ [volume])%list in
  if (historyMaxLength <? length h1)%nat then tl h1 else h1.

(** [applyDampening]: returns the smoothed volume and the manager with
    its updated history.  The weighted sum is exact here; the source's
    binary64 rounds it, so that a sample equal to all of the history
    can come back one unit in the last place off. *)
Definition applyDampening (volume : Q) (sm : t) : Q * t :=
  let h := pushHistory volume (volumeHistory sm) in
  let sm' := with_volumeHistory h sm in
  if JS.eqb (dampening (config sm)) 0 then (volume, sm')
  else
    let dampeningFactor := dampening (config sm) / 100 in
    let weightCurrent := 1 - dampeningFactor in
    let weightHistory := dampeningFactor in
    let historyAverage := JS.sum h / inject_Z (Z.of_nat (length h)) in
    (volume * weightCurrent + historyAverage * weightHistory, sm').

(** [determineState] *)
Definition determineState (volume : Q) (sm : t) : string :=
  let lowerThreshold := lowerThreshold (config sm) in
  let upperThreshold := upperThreshold (config sm) in
  if JS.ltb volume 3 then States.SILENT
  else if JS.ltb volume lowerThreshold then States.LOW
  else if JS.geb volume lowerThreshold && JS.leb volume upperThreshold
       then States.OPTIMAL
  else States.DANGER.

(** [{ ...this.config, ...newConfig }] *)
Definition spread (c : Config) (n : NewConfig) : Config :=
  {| lowerThreshold := default (lowerThreshold c) (newLowerThreshold n);
     upperThreshold := default (upperThreshold c) (newUpperThreshold n);
     sensitivity := default (sensitivity c) (newSensitivity n);
     dampening := default (dampening c) (newDampening n);
     persistenceDuration :=
       match newPersistenceDuration n with
       | Some p => Some p
       | None => persistenceDuration c
       end;
     cfgStudentName :=
       match newStudentName n with
       | Some s => Some s
       | None => cfgStudentName c
       end;
     cfgLastUpdated :=
       match newLastUpdated n with
       | Some u => Some u
       | None => cfgLastUpdated c
       end |}.

(** The body of [updateConfiguration] after the spread. *)
Definition validate (c : Config) : Config :=
  let lower := JS.Math_max 0 (JS.Math_min 85 (lowerThreshold c)) in
  let upper := JS.Math_max 15 (JS.Math_min 100 (upperThreshold c)) in
  let sens := JS.Math_max 0 (JS.Math_min 100 (sensitivity c)) in
  let damp := JS.Math_max 0 (JS.Math_min 100 (dampening c)) in
  {| lowerThreshold := lower;
     upperThreshold := if JS.geb lower upper then lower + 10 else upper;
     sensitivity := sens;
     dampening := damp;
     persistenceDuration := persistenceDuration c;
     cfgStudentName := cfgStudentName c;
     cfgLastUpdated := cfgLastUpdated c |}.

Definition updateConfiguration (newConfig : NewConfig) (sm : t) : t :=
  with_config (validate (spread (config sm) newConfig)) sm.

(** One entry of the table built by [getStateInfo]. *)
Record StateInfo := mkInfo { message : string; emoji : string }.

Definition info (studentName : string) : gmap string StateInfo :=
  let speak := if String.eqb studentName "" then "Habla un poco, no te oigo"
               else "Habla, " ++ studentName in
  <[ "SILENT" := mkInfo speak "🤔" ]>
  (<[ "LOW" := mkInfo speak "🤔" ]>
  (<[ "OPTIMAL" := mkInfo "Perfecto, sigue así, mantén el volumen" "😊" ]>
  (<[ "DANGER" := mkInfo "¡Vamos!!" "😅" ]> ∅))).

(** [getStateInfo]: [info[state] || info.SILENT]. *)
Definition getStateInfo (state : string) (sm : t) : JS.Lookup StateInfo :=
  let info := info (studentName sm) in
  JS.or_else (JS.getProperty info state) (JS.getProperty info "SILENT").

(** [v.message] and [v.emoji] on what [getStateInfo] returned;
    [None] is [undefined]. *)
Definition messageOf (v : JS.Lookup StateInfo) : option string :=
  match v with JS.Own i => Some (message i) | _ => None end.
Definition emojiOf (v : JS.Lookup StateInfo) : option string :=
  match v with JS.Own i => Some (emoji i) | _ => None end.

(** The object handed to every state-change listener. *)
Record StateChange := mkChange {
  chState : string;
  chPreviousState : option string;
  chMessage : option string;
  chEmoji : option string
}.

(** [notifyStateChange]: the calls made, one per listener, in order. *)
Definition notifyStateChange (sm : t) : list (Listener * StateChange) :=
  let stateInfo := getStateInfo (currentState sm) sm in
  map (fun callback =>
         (callback,
          {| chState := currentState sm;
             chPreviousState := previousState sm;
             chMessage := messageOf stateInfo;
             chEmoji := emojiOf stateInfo |}))
      (stateChangeListeners sm).

(** The object returned by [updateState]. *)
Record StateData := mkData {
  sdState : string;
  sdVolume : Q;
  sdStateChanged : bool;
  sdMessage : option string;
  sdEmoji : option string;
  sdIsInGreenZone : bool
}.

(** [updateState]: result, new manager, listener calls made. *)
Definition updateState (volume : Q) (sm : t)
  : StateData * t * list (Listener * StateChange) :=
  let newState := determineState volume sm in
  let stateChanged := negb (String.eqb newState (currentState sm)) in
  let sm1 :=
    if stateChanged then
      {| currentState := newState;
         previousState := Some (currentState sm);
         lastVolume := lastVolume sm; studentName := studentName sm;
         stateChangeListeners := stateChangeListeners sm;
         config := config sm; volumeHistory := volumeHistory sm |}
    else sm in
  let calls := if stateChanged then notifyStateChange sm1 else [] in
  let sm2 :=
    {| currentState := currentState sm1;
       previousState := previousState sm1;
       lastVolume := volume; studentName := studentName sm1;
       stateChangeListeners := stateChangeListeners sm1;
       config := config sm1; volumeHistory := volumeHistory sm1 |} in
  ({| sdState := currentState sm2;
      sdVolume := volume;
      sdStateChanged := stateChanged;
      sdMessage := messageOf (getStateInfo (currentState sm2) sm2);
      sdEmoji := emojiOf (getStateInfo (currentState sm2) sm2);
      sdIsInGreenZone := String.eqb (currentState sm2) States.OPTIMAL |},
   sm2, calls).

Definition addStateChangeListener (callback : Listener) (sm : t) : t :=
  {| currentState := currentState sm; previousState := previousState sm;
     lastVolume := lastVolume sm; studentName := studentName sm;
     stateChangeListeners := (stateChangeListeners sm ++ [callback])%list;
     config := config sm; volumeHistory := volumeHistory sm |}.


(** [setStudentName]: [name ? name.trim() : '']; [trim] is
    [String.prototype.trim], a parameter. *)
Definition setStudentName (trim : string -> string) (name : string) (sm : t)
  : t :=
  {| currentState := currentState sm; previousState := previousState sm;
     lastVolume := lastVolume sm;
     studentName := if String.eqb name "" then "" else trim name;
     stateChangeListeners := stateChangeListeners sm;
     config := config sm; volumeHistory := volumeHistory sm |}.

(** [isInGreenZone] *)
Definition isInGreenZone (sm : t) : bool :=
  String.eqb (currentState sm) States.OPTIMAL.

End StateManager.

(** ** SessionTracker (services/SessionTracker.js) *)

Module SessionTracker.

(** [session-${timestamp}-${random}] *)
Record SessionId := mkId { idTimestamp : Q; idRandom : string }.

Record HistoryEntry := mkEntry {
  heState : string;
  heTimestamp : Q;
  heVolume : Z
}.

Record Session := mkSession {
  sessionId : SessionId;
  startTime : Q;
  totalDuration : Z;
  greenZoneTime : Z;
  peakVolume : Z;
  consistencyScore : Z;
  dropCount : Z;
  stateHistory : list HistoryEntry;
  currentState : string;
  lastGreenTime : option Q
}.

(** Handles of [setInterval] are positive integers. *)
Definition TimerId := positive.

Record t := mk {
  currentSession : option Session;
  isTracking : bool;
  timerInterval : option TimerId
}.

(** What the tracker touches outside itself: the [eco-logro-sessions]
    entry of [localStorage] (every access throws when the storage is
    not available) and the interval timers of the page. *)
Record World := mkWorld {
  storageAvailable : bool;
  storedSessions : list Session;
  activeTimers : list TimerId;
  nextTimerId : TimerId
}.

Definition constructor : t :=
  {| currentSession := None; isTracking := false; timerInterval := None |}.

(** A freshly loaded page: storage reachable and empty, no timer armed. *)
Definition freshPage : World :=
  {| storageAvailable := true; storedSessions := [];
     activeTimers := []; nextTimerId := 1%positive |}.

(** [setInterval] hands out a fresh id and arms the timer. *)
Definition setInterval (w : World) : TimerId * World :=
  (nextTimerId w,
   {| storageAvailable := storageAvailable w;
      storedSessions := storedSessions w;
      activeTimers := (activeTimers w ++ [nextTimerId w])%list;
      nextTimerId := Pos.succ (nextTimerId w) |}).

Definition clearInterval (id : TimerId) (w : World) : World :=
  {| storageAvailable := storageAvailable w;
     storedSessions := storedSessions w;
     activeTimers := List.filter (fun i => negb (Pos.eqb i id)) (activeTimers w);
     nextTimerId := nextTimerId w |}.

Definition with_session (s : Session) (tr : t) : t :=
  {| currentSession := Some s; isTracking := isTracking tr;
     timerInterval := timerInterval tr |}.

(** [calculateConsistency] *)
Definition calculateConsistency (tr : t) : Z :=
  match currentSession tr with
  | None => 100
  | Some s =>
      if (greenZoneTime s =? 0)%Z then 0%Z
      else
        let penalty := Z.min (dropCount s * 5) 80 in
        Z.max 0 (100 - penalty)
  end.

(** [saveSessionToHistory]: [unshift], keep the first 50, write back;
    an exception of the storage is caught and only logged. *)
Definition saveSessionToHistory (session : Session) (w : World) : World :=
  if storageAvailable w then
    let history := session :: storedSessions w in
    let limitedHistory := firstn 50 history in
    {| storageAvailable := true;
       storedSessions := limitedHistory;
       activeTimers := activeTimers w;
       nextTimerId := nextTimerId w |}
  else w.

Definition elapsedSeconds (now : Q) (s : Session) : Z :=
  JS.Math_floor ((now - startTime s) / 1000).

(** The session with its two final fields written by [endSession]. *)
Definition finalize (now : Q) (tr : t) (s : Session) : Session :=
  let s1 :=
    {| sessionId := sessionId s; startTime := startTime s;
       totalDuration := elapsedSeconds now s;
       greenZoneTime := greenZoneTime s; peakVolume := peakVolume s;
       consistencyScore := consistencyScore s; dropCount := dropCount s;
       stateHistory := stateHistory s; currentState := currentState s;
       lastGreenTime := lastGreenTime s |} in
  {| sessionId := sessionId s1; startTime := startTime s1;
     totalDuration := totalDuration s1;
     greenZoneTime := greenZoneTime s1; peakVolume := peakVolume s1;
     consistencyScore := calculateConsistency (with_session s1 tr);
     dropCount := dropCount s1;
     stateHistory := stateHistory s1; currentState := currentState s1;
     lastGreenTime := lastGreenTime s1 |}.

(** [endSession]: the summary ([None] is [null]), the tracker and the
    world afterwards. *)
Definition endSession (now : Q) (tr : t) (w : World)
  : option Session * t * World :=
  match isTracking tr, currentSession tr with
  | true, Some s =>
      let w1 := match timerInterval tr with
                | Some id => clearInterval id w
                | None => w
                end in
      let summary := finalize now tr s in
      (Some summary,
       {| currentSession := Some summary; isTracking := false;
          timerInterval := None |},
       saveSessionToHistory summary w1)
  | _, _ => (None, tr, w)
  end.

Definition newSession (now : Q) (random : string) : Session :=
  {| sessionId := {| idTimestamp := now; idRandom := random |};
     startTime := now;
     totalDuration := 0; greenZoneTime := 0; peakVolume := 0;
     consistencyScore := 100; dropCount := 0;
     stateHistory := [];
     currentState := "SILENT";
     lastGreenTime := None |}.

(** [startSession]; [random] is the draw of [Math.random]. *)
Definition startSession (now : Q) (random : string) (tr : t) (w : World)
  : t * World :=
  let '(tr1, w1) :=
    if isTracking tr then
      let '(_, tr', w') := endSession now tr w in (tr', w')
    else (tr, w) in
  let '(id, w2) := setInterval w1 in
  ({| currentSession := Some (newSession now random);
      isTracking := true;
      timerInterval := Some id |}, w2).

(** [updateTimer], run by the interval timer once per second. *)
Definition updateTimer (now : Q) (tr : t) : t :=
  match currentSession tr with
  | None => tr
  | Some s =>
      with_session
        {| sessionId := sessionId s; startTime := startTime s;
           totalDuration := elapsedSeconds now s;
           greenZoneTime :=
             if String.eqb (currentState s) "OPTIMAL"
             then (greenZoneTime s + 1)%Z else greenZoneTime s;
           peakVolume := peakVolume s;
           consistencyScore := consistencyScore s;
           dropCount := dropCount s;
           stateHistory := stateHistory s; currentState := currentState s;
           lastGreenTime := lastGreenTime s |} tr
  end.

(** [!this.currentSession.lastGreenTime]: [null] and [0] are falsy. *)
Definition falsy (x : option Q) : bool :=
  match x with None => true | Some q => JS.eqb q 0 end.

(** [updateState], fed with the object [StateManager.updateState]
    returned. *)
Definition updateState (now : Q) (stateData : StateManager.StateData)
    (tr : t) : t :=
  match isTracking tr, currentSession tr with
  | true, Some s =>
      let state := StateManager.sdState stateData in
      let volume := StateManager.sdVolume stateData in
      let stateChanged := StateManager.sdStateChanged stateData in
      let previousState := currentState s in
      let peak := if JS.gtb volume (inject_Z (peakVolume s))
                  then JS.Math_round volume else peakVolume s in
      let history :=
        if stateChanged then
          (stateHistory s ++
             [ {| heState := state; heTimestamp := now;
                  heVolume := JS.Math_round volume |} ])%list
        else stateHistory s in
      let drops :=
        if stateChanged && String.eqb previousState "OPTIMAL"
           && negb (String.eqb state "OPTIMAL")
        then (dropCount s + 1)%Z else dropCount s in
      let green :=
        if String.eqb state "OPTIMAL" then
          if falsy (lastGreenTime s) then Some now else lastGreenTime s
        else None in
      with_session
        {| sessionId := sessionId s; startTime := startTime s;
           totalDuration := totalDuration s;
           greenZoneTime := greenZoneTime s;
           peakVolume := peak;
           consistencyScore := consistencyScore s;
           dropCount := drops;
           stateHistory := history;
           currentState := state;
           lastGreenTime := green |} tr
  | _, _ => tr
  end.

(** [getSuccessPercentage].  The quotient is exact here; the source's
    binary64 can land just under a half that the exact value reaches
    (23 green seconds of 40: 57.49999999999999, rounded to 57, where the
    exact 57.5 rounds to 58). *)
Definition getSuccessPercentage (tr : t) : Z :=
  match currentSession tr with
  | None => 0
  | Some s =>
      if (totalDuration s =? 0)%Z then 0%Z
      else
        let percentage :=
          inject_Z (greenZoneTime s) / inject_Z (totalDuration s) * 100 in
        Z.min 100 (JS.Math_round percentage)
  end.

(** [getSessionHistory]: the stored array, [[]] when nothing is stored
    or the storage throws. *)
Definition getSessionHistory (w : World) : list Session :=
  if storageAvailable w then storedSessions w else [].

End SessionTracker.

(** ** EcoLogroApp (src/app.js) *)

Module EcoLogroApp.

(** The fields of the application object that the volume pipeline
    reads or writes.  The DOM (thermometer height and colour, texts) is
    written only and is left out. *)
Record t := mk {
  audioAnalyzer : AudioAnalyzer.t;
  stateManager : StateManager.t;
  sessionTracker : SessionTracker.t;
  isRunning : bool;
  isPaused : bool;
  lastSignificantVolume : Q;
  lastVolumeTimestamp : Q;
  volumeHoldDuration : Q;
  displayedVolume : Q
}.

Definition constructor : t :=
  {| audioAnalyzer := AudioAnalyzer.constructor;
     stateManager := StateManager.constructor;
     sessionTracker := SessionTracker.constructor;
     isRunning := false;
     isPaused := false;
     lastSignificantVolume := 0;
     lastVolumeTimestamp := 0;
     volumeHoldDuration := 2000;
     displayedVolume := 0 |}.

Definition with_stabilizer (significant timestamp displayed : Q) (app : t)
  : t :=
  {| audioAnalyzer := audioAnalyzer app;
     stateManager := stateManager app;
     sessionTracker := sessionTracker app;
     isRunning := isRunning app;
     isPaused := isPaused app;
     lastSignificantVolume := significant;
     lastVolumeTimestamp := timestamp;
     volumeHoldDuration := volumeHoldDuration app;
     displayedVolume := displayed |}.

Definition with_audioAnalyzer (a : AudioAnalyzer.t) (app : t) : t :=
  {| audioAnalyzer := a;
     stateManager := stateManager app;
     sessionTracker := sessionTracker app;
     isRunning := isRunning app;
     isPaused := isPaused app;
     lastSignificantVolume := lastSignificantVolume app;
     lastVolumeTimestamp := lastVolumeTimestamp app;
     volumeHoldDuration := volumeHoldDuration app;
     displayedVolume := displayedVolume app |}.

(** Part 1 of [updateThermometer], the peak hold; [currentTime] is the
    reading of [Date.now()].  Parts 2 and 3 only paint the DOM.  The
    arithmetic is exact here; the source's is binary64, whose rounding
    of the interpolation can leave the result one unit in the last
    place off the exact one. *)
Definition updateThermometer (currentTime volume : Q) (app : t) : t :=
  if JS.gtb volume (lastSignificantVolume app) then
    with_stabilizer volume currentTime volume app
  else
    let timeSinceLastPeak := currentTime - lastVolumeTimestamp app in
    if JS.ltb timeSinceLastPeak (volumeHoldDuration app) then
      with_stabilizer (lastSignificantVolume app) (lastVolumeTimestamp app)
                      (lastSignificantVolume app) app
    else
      let decayDuration := 1000 in
      let timeInDecay := timeSinceLastPeak - volumeHoldDuration app in
      let progress := JS.Math_min 1 (timeInDecay / decayDuration) in
      let displayed :=
        lastSignificantVolume app * (1 - progress) + volume * progress in
      if JS.geb progress 1 then
        with_stabilizer volume currentTime displayed app
      else
        with_stabilizer (lastSignificantVolume app)
                        (lastVolumeTimestamp app) displayed app.

Definition with_services (sm : StateManager.t) (tr : SessionTracker.t)
    (app : t) : t :=
  {| audioAnalyzer := audioAnalyzer app;
     stateManager := sm;
     sessionTracker := tr;
     isRunning := isRunning app;
     isPaused := isPaused app;
     lastSignificantVolume := lastSignificantVolume app;
     lastVolumeTimestamp := lastVolumeTimestamp app;
     volumeHoldDuration := volumeHoldDuration app;
     displayedVolume := displayedVolume app |}.

Definition with_flags (running paused : bool) (app : t) : t :=
  {| audioAnalyzer := audioAnalyzer app;
     stateManager := stateManager app;
     sessionTracker := sessionTracker app;
     isRunning := running;
     isPaused := paused;
     lastSignificantVolume := lastSignificantVolume app;
     lastVolumeTimestamp := lastVolumeTimestamp app;
     volumeHoldDuration := volumeHoldDuration app;
     displayedVolume := displayedVolume app |}.

Section WithSqrt.
Variable Math_sqrt : Q -> Q.

(** [handleVolumeUpdate]: the new application object and the
    listener calls made during the tick.  The argument [volume] of
    the callback is not read by the source.  [afterSample] is the body
    from the call of [updateThermometer] on. *)
Definition afterSample (now : Q) (rmsVolume : Q) (app : t)
  : t * list (StateManager.Listener * StateManager.StateChange) :=
  let app1 := updateThermometer now rmsVolume app in
  let '(stateData, sm, calls) :=
    StateManager.updateState (displayedVolume app1)
                             (stateManager app1) in
  let tracker :=
    SessionTracker.updateState now stateData (sessionTracker app1) in
  ({| audioAnalyzer := audioAnalyzer app1;
      stateManager := sm;
      sessionTracker := tracker;
      isRunning := isRunning app1;
      isPaused := isPaused app1;
      lastSignificantVolume := lastSignificantVolume app1;
      lastVolumeTimestamp := lastVolumeTimestamp app1;
      volumeHoldDuration := volumeHoldDuration app1;
      displayedVolume := displayedVolume app1 |}, calls).

Definition handleVolumeUpdate (now : Q) (volume : Q) (app : t)
  : t * list (StateManager.Listener * StateManager.StateChange) :=
  if isPaused app then (app, [])
  else
    let rmsVolume :=
      AudioAnalyzer.getRMSVolume Math_sqrt (audioAnalyzer app) in
    afterSample now rmsVolume app.

(** One animation frame, [AudioAnalyzer.analyze] with
    [handleVolumeUpdate] as its callback; [bins] is what the platform
    measured for this frame. *)
Definition analyze (now : Q) (bins : list Z) (app : t) : t :=
  if AudioAnalyzer.isAnalyzing (audioAnalyzer app) then
    let a := AudioAnalyzer.getByteFrequencyData bins (audioAnalyzer app) in
    let volume := AudioAnalyzer.getCurrentVolume a in
    fst (handleVolumeUpdate now volume (with_audioAnalyzer a app))
  else app.

(** [AudioAnalyzer.startAnalysis] on the analyzer of the application:
    once the flag is set the method calls [analyze], so a first frame
    is measured and handled before the method returns; [bins] is that
    frame.  On an analyzer that is not initialised the method only
    reports the error. *)
Definition startAnalysis (now : Q) (bins : list Z) (app : t) : t :=
  if AudioAnalyzer.isInitialized (audioAnalyzer app) then
    analyze now bins
      (with_audioAnalyzer
         (AudioAnalyzer.with_isAnalyzing true (audioAnalyzer app)) app)
  else app.

(** [start]: the first frame of [startAnalysis] is handled before the
    tracker opens its session. *)
Definition start (now : Q) (random : string) (bins : list Z) (app : t)
    (w : SessionTracker.World) : t * SessionTracker.World :=
  if isRunning app then (app, w)
  else
    let app1 :=
      startAnalysis now bins (with_flags true (isPaused app) app) in
    let '(tracker, w') :=
      SessionTracker.startSession now random (sessionTracker app1) w in
    (with_services (stateManager app1) tracker app1, w').

(** [togglePause]; [bins] is the frame that [startAnalysis] measures
    when the pause is lifted. *)
Definition togglePause (now : Q) (bins : list Z) (app : t) : t :=
  let app1 := with_flags (isRunning app) (negb (isPaused app)) app in
  if isPaused app1 then
    with_audioAnalyzer (AudioAnalyzer.stopAnalysis (audioAnalyzer app1)) app1
  else
    startAnalysis now bins app1.

End WithSqrt.

(** [parseInt(slider.value) || d]: [None] is [NaN]; [NaN] and 0 are
    falsy. *)
Definition parsedOr (parsed : option Z) (d : Z) : Z :=
  match parsed with
  | None => d
  | Some z => if (z =? 0)%Z then d else z
  end.

(** Part 2 of [updateThermometer]: the height of the fill, in percent,
    from the shown volume and the two threshold sliders of the DOM. *)
Definition visualHeight (displayed : Q) (lowerValue upperValue : option Z)
  : Q :=
  let lower := inject_Z (parsedOr lowerValue 25) in
  let upper := inject_Z (parsedOr upperValue 75) in
  let visualHeight :=
    if JS.leb displayed lower then
      displayed / JS.Math_max 1 lower * (333 # 10)
    else if JS.leb displayed upper then
      let range := JS.Math_max 1 (upper - lower) in
      let progress := (displayed - lower) / range in
      (333 # 10) + progress * (517 # 10)
    else
      let range := JS.Math_max 1 (100 - upper) in
      let progress := (displayed - upper) / range in
      85 + progress * 15 in
  JS.Math_min 100 (JS.Math_max 0 visualHeight).

(** Part 3 of [updateThermometer]: the colour class of the fill. *)
Definition fillClass (displayed : Q) (lowerValue upperValue : option Z)
  : string :=
  let lower := inject_Z (parsedOr lowerValue 25) in
  let upper := inject_Z (parsedOr upperValue 75) in
  if JS.gtb displayed upper then "fill-high"
  else if JS.gtb displayed lower then "fill-optimal"
  else "fill-low".

(** [stop] *)
Definition stop (app : t) : t :=
  if isRunning app then
    {| audioAnalyzer := AudioAnalyzer.stopAnalysis (audioAnalyzer app);
       stateManager := stateManager app;
       sessionTracker := sessionTracker app;
       isRunning := false;
       isPaused := isPaused app;
       lastSignificantVolume := lastSignificantVolume app;
       lastVolumeTimestamp := lastVolumeTimestamp app;
       volumeHoldDuration := volumeHoldDuration app;
       displayedVolume := displayedVolume app |}
  else app.

(** [showSessionSummary], without the painting of the modal: the
    summary shown ([None] when the method returns early). *)
Definition showSessionSummary (now : Q) (app : t) (w : SessionTracker.World)
  : option SessionTracker.Session * t * SessionTracker.World :=
  let '(summary, tracker, w') :=
    SessionTracker.endSession now (sessionTracker app) w in
  match summary with
  | None => (None, app, w)
  | Some s =>
      (Some s, stop (with_services (stateManager app) tracker app), w')
  end.

End EcoLogroApp.

(** ** The tick as the specification words it

    Section 4.2 of the specification puts the dampening in front of the
    hold-and-decay envelope: the conditioned sample goes through
    [applyDampening], the result through the envelope, the shown value
    through the classifier.  [Specified.handleVolumeUpdate] is that
    pipeline, built from the same parts as the source's. *)

Module Specified.

Section WithSqrt.
Variable Math_sqrt : Q -> Q.

Definition afterSample (now : Q) (sample : Q) (app : EcoLogroApp.t)
  : EcoLogroApp.t * list (StateManager.Listener * StateManager.StateChange) :=
  let '(weightedAvg, sm0) :=
    StateManager.applyDampening sample (EcoLogroApp.stateManager app) in
  let app1 := EcoLogroApp.updateThermometer now weightedAvg app in
  let '(stateData, sm, calls) :=
    StateManager.updateState (EcoLogroApp.displayedVolume app1) sm0 in
  let tracker :=
    SessionTracker.updateState now stateData
      (EcoLogroApp.sessionTracker app1) in
  ({| EcoLogroApp.audioAnalyzer := EcoLogroApp.audioAnalyzer app1;
      EcoLogroApp.stateManager := sm;
      EcoLogroApp.sessionTracker := tracker;
      EcoLogroApp.isRunning := EcoLogroApp.isRunning app1;
      EcoLogroApp.isPaused := EcoLogroApp.isPaused app1;
      EcoLogroApp.lastSignificantVolume :=
        EcoLogroApp.lastSignificantVolume app1;
      EcoLogroApp.lastVolumeTimestamp := EcoLogroApp.lastVolumeTimestamp app1;
      EcoLogroApp.volumeHoldDuration := EcoLogroApp.volumeHoldDuration app1;
      EcoLogroApp.displayedVolume := EcoLogroApp.displayedVolume app1 |},
   calls).

Definition handleVolumeUpdate (now : Q) (volume : Q) (app : EcoLogroApp.t)
  : EcoLogroApp.t * list (StateManager.Listener * StateManager.StateChange) :=
  if EcoLogroApp.isPaused app then (app, [])
  else
    let sample :=
      AudioAnalyzer.getRMSVolume Math_sqrt (EcoLogroApp.audioAnalyzer app) in
    afterSample now sample app.

Definition analyze (now : Q) (bins : list Z) (app : EcoLogroApp.t)
  : EcoLogroApp.t :=
  if AudioAnalyzer.isAnalyzing (EcoLogroApp.audioAnalyzer app) then
    let a := AudioAnalyzer.getByteFrequencyData bins
               (EcoLogroApp.audioAnalyzer app) in
    let volume := AudioAnalyzer.getCurrentVolume a in
    fst (handleVolumeUpdate now volume (EcoLogroApp.with_audioAnalyzer a app))
  else app.
End WithSqrt.

End Specified.

(** ** StorageManager (data/StorageManager.js) *)

Module StorageManager.

(** The stored configuration: the object given to [saveConfig] plus
    [lastUpdated]. *)
Record StoredConfig := mkStored {
  storedConfig : StateManager.NewConfig;
  lastUpdated : Q
}.

(** [localStorage] as this class sees it: whether its methods throw,
    and the two items, [None] when absent.  What is stored is what
    [JSON.parse] gives back. *)
Record LocalStorage := mkStorage {
  throws : bool;
  configItem : option StoredConfig;
  sessionsItem : option (list SessionTracker.Session)
}.

Record t := mk { storageAvailable : bool }.

(** [checkStorageAvailability]: the test item is set and removed. *)
Definition checkStorageAvailability (ls : LocalStorage) : bool :=
  negb (throws ls).

Definition constructor (ls : LocalStorage) : t :=
  {| storageAvailable := checkStorageAvailability ls |}.

(** [saveConfig] *)
Definition saveConfig (now : Q) (config : StateManager.NewConfig) (st : t)
    (ls : LocalStorage) : bool * LocalStorage :=
  if negb (storageAvailable st) then (false, ls)
  else if throws ls then (false, ls)
  else
    (true,
     {| throws := throws ls;
        configItem := Some {| storedConfig := config; lastUpdated := now |};
        sessionsItem := sessionsItem ls |}).

(** [loadConfig]; [None] is [null]. *)
Definition loadConfig (st : t) (ls : LocalStorage) : option StoredConfig :=
  if negb (storageAvailable st) then None
  else if throws ls then None
  else configItem ls.

(** The object that [JSON.parse] gives back for a stored item: the
    keys that were given to [saveConfig], and [lastUpdated]. *)
Definition parsed (stored : StoredConfig) : StateManager.NewConfig :=
  let config := storedConfig stored in
  {| StateManager.newLowerThreshold := StateManager.newLowerThreshold config;
     StateManager.newUpperThreshold := StateManager.newUpperThreshold config;
     StateManager.newSensitivity := StateManager.newSensitivity config;
     StateManager.newDampening := StateManager.newDampening config;
     StateManager.newPersistenceDuration :=
       StateManager.newPersistenceDuration config;
     StateManager.newStudentName := StateManager.newStudentName config;
     StateManager.newLastUpdated := Some (lastUpdated stored) |}.

(** [getDefaultConfig] *)
Definition getDefaultConfig : StateManager.NewConfig :=
  {| StateManager.newLowerThreshold := Some 25;
     StateManager.newUpperThreshold := Some 75;
     StateManager.newSensitivity := Some 85;
     StateManager.newDampening := Some 20;
     StateManager.newPersistenceDuration := Some 2000;
     StateManager.newStudentName := Some "";
     StateManager.newLastUpdated := None |}.

(** [getSessions] *)
Definition getSessions (st : t) (ls : LocalStorage)
  : list SessionTracker.Session :=
  if negb (storageAvailable st) then []
  else if throws ls then []
  else match sessionsItem ls with
       | Some sessions => sessions
       | None => []
       end.

(** [saveSession] *)
Definition saveSession (session : SessionTracker.Session) (st : t)
    (ls : LocalStorage) : bool * LocalStorage :=
  if negb (storageAvailable st) then (false, ls)
  else if throws ls then (false, ls)
  else
    let sessions := session :: getSessions st ls in
    let limited := firstn 50 sessions in
    (true,
     {| throws := throws ls;
        configItem := configItem ls;
        sessionsItem := Some limited |}).

(** [a.sessionId === b] on two ids [session-${timestamp}-${random}]. *)
Definition sameId (a b : SessionTracker.SessionId) : bool :=
  JS.eqb (SessionTracker.idTimestamp a) (SessionTracker.idTimestamp b)
  && String.eqb (SessionTracker.idRandom a) (SessionTracker.idRandom b).

(** [getSession]; [None] is [null]. *)
Definition getSession (sessionId : SessionTracker.SessionId) (st : t)
    (ls : LocalStorage) : option SessionTracker.Session :=
  List.find (fun s => sameId (SessionTracker.sessionId s) sessionId)
            (getSessions st ls).

(** [deleteSession] *)
Definition deleteSession (sessionId : SessionTracker.SessionId) (st : t)
    (ls : LocalStorage) : bool * LocalStorage :=
  if negb (storageAvailable st) then (false, ls)
  else if throws ls then (false, ls)
  else
    let filtered :=
      List.filter
        (fun s => negb (sameId (SessionTracker.sessionId s) sessionId))
        (getSessions st ls) in
    (true,
     {| throws := throws ls;
        configItem := configItem ls;
        sessionsItem := Some filtered |}).

(** [clearSessions] *)
Definition clearSessions (st : t) (ls : LocalStorage) : bool * LocalStorage :=
  if negb (storageAvailable st) then (false, ls)
  else if throws ls then (false, ls)
  else (true, {| throws := throws ls; configItem := configItem ls;
                 sessionsItem := None |}).

(** The success rate that [getAggregateStats] computes for a session. *)
Definition rate (s : SessionTracker.Session) : Q :=
  if (0 <? SessionTracker.totalDuration s)%Z then
    inject_Z (SessionTracker.greenZoneTime s)
    / inject_Z (SessionTracker.totalDuration s) * 100
  else 0.

Record AggregateStats := mkStats {
  totalSessions : nat;
  averageSuccessRate : Z;
  totalGreenTime : Z;
  totalTime : Z;
  bestSession : option SessionTracker.Session
}.

(** [getAggregateStats] *)
Definition getAggregateStats (st : t) (ls : LocalStorage) : AggregateStats :=
  match getSessions st ls with
  | [] =>
      {| totalSessions := 0; averageSuccessRate := 0; totalGreenTime := 0;
         totalTime := 0; bestSession := None |}
  | (first :: _) as sessions =>
      {| totalSessions := length sessions;
         averageSuccessRate :=
           JS.Math_round
             (fold_left (fun sum s => sum + rate s) sessions 0
              / inject_Z (Z.of_nat (length sessions)));
         totalGreenTime :=
           fold_left (fun sum s => (sum + SessionTracker.greenZoneTime s)%Z)
                     sessions 0%Z;
         totalTime :=
           fold_left (fun sum s => (sum + SessionTracker.totalDuration s)%Z)
                     sessions 0%Z;
         bestSession :=
           Some (fold_left
                   (fun best current =>
                      if JS.gtb (rate current) (rate best) then current
                      else best)
                   sessions first) |}
  end.

End StorageManager.

(** ** Saving and loading the configuration (src/app.js) *)

Module Settings.

(** What [saveConfiguration] reads from the controls of the panel:
    the five sliders through [parseInt], the name as typed. *)
Record Controls := mkControls {
  sensitivitySlider : Q;
  dampeningSlider : Q;
  upperThreshold : Q;
  lowerThreshold : Q;
  persistenceSlider : Q;
  studentName : string
}.

Section WithTrim.
Variable trim : string -> string.

(** The object [config] built by [saveConfiguration]. *)
Definition configOf (c : Controls) : StateManager.NewConfig :=
  {| StateManager.newLowerThreshold := Some (lowerThreshold c);
     StateManager.newUpperThreshold := Some (upperThreshold c);
     StateManager.newSensitivity := Some (sensitivitySlider c);
     StateManager.newDampening := Some (dampeningSlider c);
     StateManager.newPersistenceDuration := Some (persistenceSlider c);
     StateManager.newStudentName := Some (trim (studentName c));
     StateManager.newLastUpdated := None |}.

(** [saveConfiguration], without its feedback on the button. *)
Definition saveConfiguration (now : Q) (c : Controls)
    (storage : StorageManager.t) (app : EcoLogroApp.t)
    (ls : StorageManager.LocalStorage)
  : EcoLogroApp.t * StorageManager.LocalStorage :=
  let config := configOf c in
  let analyzer :=
    AudioAnalyzer.setSmoothingTimeConstant (dampeningSlider c / 105)
      (AudioAnalyzer.setSmoothingTimeConstant (dampeningSlider c / 105)
         (EcoLogroApp.audioAnalyzer app)) in
  let sm :=
    StateManager.setStudentName trim (trim (studentName c))
      (StateManager.updateConfiguration config
         (EcoLogroApp.stateManager app)) in
  let ls' := snd (StorageManager.saveConfig now config storage ls) in
  ({| EcoLogroApp.audioAnalyzer := analyzer;
      EcoLogroApp.stateManager := sm;
      EcoLogroApp.sessionTracker := EcoLogroApp.sessionTracker app;
      EcoLogroApp.isRunning := EcoLogroApp.isRunning app;
      EcoLogroApp.isPaused := EcoLogroApp.isPaused app;
      EcoLogroApp.lastSignificantVolume :=
        EcoLogroApp.lastSignificantVolume app;
      EcoLogroApp.lastVolumeTimestamp := EcoLogroApp.lastVolumeTimestamp app;
      EcoLogroApp.volumeHoldDuration := persistenceSlider c;
      EcoLogroApp.displayedVolume := EcoLogroApp.displayedVolume app |},
   ls').

(** [config.persistenceDuration || 2000] *)
Definition persistenceOr (p : option Q) : Q :=
  match p with
  | None => 2000
  | Some q => if JS.eqb q 0 then 2000 else q
  end.

(** [loadSavedConfiguration], without the painting of the sliders.
    The object handed to [updateConfiguration] is the parsed item as it
    is, [lastUpdated] included. *)
Definition loadSavedConfiguration (storage : StorageManager.t)
    (app : EcoLogroApp.t) (ls : StorageManager.LocalStorage)
  : EcoLogroApp.t :=
  let config :=
    match StorageManager.loadConfig storage ls with
    | Some stored => StorageManager.parsed stored
    | None => StorageManager.getDefaultConfig
    end in
  let sm :=
    StateManager.setStudentName trim
      (default "" (StateManager.newStudentName config))
      (StateManager.updateConfiguration config
         (EcoLogroApp.stateManager app)) in
  {| EcoLogroApp.audioAnalyzer := EcoLogroApp.audioAnalyzer app;
     EcoLogroApp.stateManager := sm;
     EcoLogroApp.sessionTracker := EcoLogroApp.sessionTracker app;
     EcoLogroApp.isRunning := EcoLogroApp.isRunning app;
     EcoLogroApp.isPaused := EcoLogroApp.isPaused app;
     EcoLogroApp.lastSignificantVolume :=
       EcoLogroApp.lastSignificantVolume app;
     EcoLogroApp.lastVolumeTimestamp := EcoLogroApp.lastVolumeTimestamp app;
     EcoLogroApp.volumeHoldDuration :=
       persistenceOr (StateManager.newPersistenceDuration config);
     EcoLogroApp.displayedVolume := EcoLogroApp.displayedVolume app |}.
End WithTrim.

End Settings.

(** ** Start-up of the application (src/app.js) *)

Module Startup.

Section WithPlatform.
Variable Math_sqrt : Q -> Q.
Variable trim : string -> string.

(** [setupServiceCallbacks]: [handleVolumeUpdate] becomes the callback
    of the analyzer, which is what [EcoLogroApp.analyze] runs, and
    [handleStateChange] a listener of the state manager. *)
Definition setupServiceCallbacks (handleStateChange : StateManager.Listener)
    (app : EcoLogroApp.t) : EcoLogroApp.t :=
  EcoLogroApp.with_services
    (StateManager.addStateChangeListener handleStateChange
       (EcoLogroApp.stateManager app))
    (EcoLogroApp.sessionTracker app) app.

(** [init].  [storage] is the [storageManager] of the application,
    [granted] the outcome of [audioAnalyzer.initialize]: the
    [frequencyBinCount] of the analyser when the microphone is granted,
    [None] when the call fails and [init] only shows the error; [bins]
    is the first frame, measured inside [start]. *)
Definition init (storage : StorageManager.t)
    (ls : StorageManager.LocalStorage)
    (handleStateChange : StateManager.Listener) (granted : option nat)
    (now : Q) (random : string) (bins : list Z) (app : EcoLogroApp.t)
    (w : SessionTracker.World) : EcoLogroApp.t * SessionTracker.World :=
  let app1 := Settings.loadSavedConfiguration trim storage app ls in
  let app2 := setupServiceCallbacks handleStateChange app1 in
  match granted with
  | Some frequencyBinCount =>
      let analyzer :=
        AudioAnalyzer.initialize frequencyBinCount
          (EcoLogroApp.audioAnalyzer app2) in
      EcoLogroApp.start Math_sqrt now random bins
        (EcoLogroApp.with_audioAnalyzer analyzer app2) w
  | None => (app2, w)
  end.
End WithPlatform.

(** A first visit: nothing is stored, the microphone is granted with
    1024 bins, and the first frame is silent. *)
Definition emptyStorage : StorageManager.LocalStorage :=
  StorageManager.mkStorage false None None.

Definition firstVisit (now : Q) (random : string)
  : EcoLogroApp.t * SessionTracker.World :=
  init JS.sqrtOfSquare (fun s => s) (StorageManager.constructor emptyStorage)
    emptyStorage 0%nat (Some 1024%nat) now random (repeat 0%Z 1024)
    EcoLogroApp.constructor SessionTracker.freshPage.

End Startup.

(** ** Runs of the state manager and of the session tracker *)

Module Runs.

(** The managers after [applyDampening] ran on each sample in turn. *)
Definition dampen (samples : list Q) (sm : StateManager.t) : StateManager.t :=
  fold_left (fun m v => snd (StateManager.applyDampening v m)) samples sm.

(** What reaches an active tracker: a state update from the pipeline
    or a beat of its one-second timer. *)
Inductive Event :=
| Update (now : Q) (stateData : StateManager.StateData)
| Timer (now : Q).

Definition step (tr : SessionTracker.t) (e : Event) : SessionTracker.t :=
  match e with
  | Update now stateData => SessionTracker.updateState now stateData tr
  | Timer now => SessionTracker.updateTimer now tr
  end.

Definition run (events : list Event) (tr : SessionTracker.t)
  : SessionTracker.t :=
  fold_left step events tr.

(** Number of timer beats among the events. *)
Definition beats (events : list Event) : Z :=
  fold_left (fun n e => match e with Timer _ => (n + 1)%Z | _ => n end)
            events 0%Z.

(** What a tracker looks like during a session: tracking, with a
    session whose counters are consistent; [k] bounds the green time. *)
Definition counting (k : Z) (tr : SessionTracker.t) : Prop :=
  SessionTracker.isTracking tr = true /\
  exists s, SessionTracker.currentSession tr = Some s /\
    (0 <= SessionTracker.greenZoneTime s <= k)%Z /\
    (0 <= SessionTracker.dropCount s
     <= Z.of_nat (length (SessionTracker.stateHistory s)))%Z /\
    (0 <= SessionTracker.peakVolume s)%Z.

(** Order of the zones by loudness. *)
Definition rank (state : string) : nat :=
  if String.eqb state States.SILENT then 0
  else if String.eqb state States.LOW then 1
  else if String.eqb state States.OPTIMAL then 2
  else 3.

End Runs.

(** ** Configurations as numbers

    Two configurations with the same numbers ([==] on every numeric
    key, the other keys identical). *)

Definition config_eq (c1 c2 : StateManager.Config) : Prop :=
  StateManager.lowerThreshold c1 == StateManager.lowerThreshold c2 /\
  StateManager.upperThreshold c1 == StateManager.upperThreshold c2 /\
  StateManager.sensitivity c1 == StateManager.sensitivity c2 /\
  StateManager.dampening c1 == StateManager.dampening c2 /\
  StateManager.persistenceDuration c1 = StateManager.persistenceDuration c2 /\
  StateManager.cfgStudentName c1 = StateManager.cfgStudentName c2 /\
  StateManager.cfgLastUpdated c1 = StateManager.cfgLastUpdated c2.

(** ** Runs of the stabilizer *)

Module Stabilizer.

(** A tick: the reading of [Date.now()] and the conditioned sample. *)
Definition Tick : Type := Q * Q.

Definition tick (app : EcoLogroApp.t) (tv : Tick) : EcoLogroApp.t :=
  EcoLogroApp.updateThermometer (fst tv) (snd tv) app.

(** The application after [updateThermometer] ran once per tick. *)
Definition run (ticks : list Tick) (app : EcoLogroApp.t) : EcoLogroApp.t :=
  fold_left tick ticks app.

Definition inRange (v : Q) : Prop := 0 <= v <= 100.

(** Timestamps that never go back. *)
Fixpoint nondecreasing (ts : list Q) : Prop :=
  match ts with
  | [] => True
  | t :: rest =>
      match rest with
      | [] => True
      | t' :: _ => t <= t' /\ nondecreasing rest
      end
  end.

(** What a run keeps, [last] being the time of its last tick: the held
    peak is in range, and the shown value is the held peak unless the
    last tick came when the hold of that peak was over. *)
Definition settled (last : Q) (app : EcoLogroApp.t) : Prop :=
  inRange (EcoLogroApp.lastSignificantVolume app) /\
  (EcoLogroApp.displayedVolume app == EcoLogroApp.lastSignificantVolume app \/
   EcoLogroApp.volumeHoldDuration app
     <= last - EcoLogroApp.lastVolumeTimestamp app).

End Stabilizer.

(** * Properties *)

(** ** Comparisons and clamps *)

Lemma ltb_spec (a b : Q) : BoolSpec (a < b) (b <= a) (JS.ltb a b).
Proof. unfold JS.ltb. destruct (Qlt_le_dec a b); constructor; assumption. Qed.

Lemma leb_spec (a b : Q) : BoolSpec (a <= b) (b < a) (JS.leb a b).
Proof.
  unfold JS.leb. destruct (Qle_bool a b) eqn:E; constructor.
  - now apply Qle_bool_iff.
  - apply Qnot_le_lt. intros H. apply Qle_bool_iff in H. congruence.
Qed.

Lemma gtb_spec (a b : Q) : BoolSpec (b < a) (a <= b) (JS.gtb a b).
Proof. apply ltb_spec. Qed.

Lemma geb_spec (a b : Q) : BoolSpec (b <= a) (a < b) (JS.geb a b).
Proof. apply leb_spec. Qed.

Lemma eqb_spec (a b : Q) : BoolSpec (a == b) (~ a == b) (JS.eqb a b).
Proof.
  unfold JS.eqb. destruct (Qeq_bool a b) eqn:E; constructor.
  - now apply Qeq_bool_iff.
  - intros H. apply Qeq_bool_iff in H. congruence.
Qed.

Lemma Math_min_cases (a b : Q) :
  (a < b /\ JS.Math_min a b == a) \/ (b <= a /\ JS.Math_min a b == b).
Proof. apply Q.min_spec. Qed.

Lemma Math_max_cases (a b : Q) :
  (a < b /\ JS.Math_max a b == b) \/ (b <= a /\ JS.Math_max a b == a).
Proof. apply Q.max_spec. Qed.

Lemma div_1000 (x : Q) : x / 1000 == x * (1 # 1000).
Proof. reflexivity. Qed.

(** [lo <= Math.max(lo, Math.min(hi, x)) <= hi] and the clamp is the
    identity inside the range. *)
Lemma clamp_range (lo hi x : Q) :
  lo <= hi ->
  lo <= JS.Math_max lo (JS.Math_min hi x) <= hi.
Proof.
  intros Hlh.
  destruct (Math_max_cases lo (JS.Math_min hi x)) as [[H1 H2]|[H1 H2]];
    destruct (Math_min_cases hi x) as [[H3 H4]|[H3 H4]];
    rewrite H2; try rewrite H4; split; lra.
Qed.

Lemma clamp_id (lo hi x : Q) :
  lo <= x <= hi ->
  JS.Math_max lo (JS.Math_min hi x) == x.
Proof.
  intros [Hl Hh].
  destruct (Math_max_cases lo (JS.Math_min hi x)) as [[H1 H2]|[H1 H2]];
    destruct (Math_min_cases hi x) as [[H3 H4]|[H3 H4]];
    rewrite H2; try rewrite H4; rewrite ?H4 in H1; lra.
Qed.

(** ** The peak-hold stabilizer *)

Section StabilizerTick.
Import EcoLogroApp.

(** Rising edge: the sample is shown at once. *)
Lemma updateThermometer_rise (now s : Q) (app : t) :
  lastSignificantVolume app < s ->
  updateThermometer now s app = with_stabilizer s now s app.
Proof.
  intros H. unfold updateThermometer.
  destruct (gtb_spec s (lastSignificantVolume app)); [reflexivity | lra].
Qed.

(** The progress of the decay lies in [0,1]. *)
Lemma progress_range (elapsed hold : Q) :
  hold <= elapsed ->
  0 <= JS.Math_min 1 ((elapsed - hold) / 1000) <= 1.
Proof.
  intros H.
  destruct (Math_min_cases 1 ((elapsed - hold) / 1000)) as [[H1 H2]|[H1 H2]];
    rewrite H2; rewrite ?div_1000 in *; split; lra.
Qed.

(** Shape of a tick that does not rise and is past the hold. *)
Lemma updateThermometer_past_hold (now s : Q) (app : t) :
  s <= lastSignificantVolume app ->
  volumeHoldDuration app <= now - lastVolumeTimestamp app ->
  let progress :=
    JS.Math_min 1 ((now - lastVolumeTimestamp app - volumeHoldDuration app)
                   / 1000) in
  let displayed :=
    lastSignificantVolume app * (1 - progress) + s * progress in
  updateThermometer now s app =
    if JS.geb progress 1 then with_stabilizer s now displayed app
    else with_stabilizer (lastSignificantVolume app)
                         (lastVolumeTimestamp app) displayed app.
Proof.
  intros Hs Hh. unfold updateThermometer.
  destruct (gtb_spec s (lastSignificantVolume app)); [lra|].
  destruct (ltb_spec (now - lastVolumeTimestamp app)
                     (volumeHoldDuration app)); [lra|].
  reflexivity.
Qed.

(** Shape of a tick that does not rise and is within the hold. *)
Lemma updateThermometer_in_hold (now s : Q) (app : t) :
  s <= lastSignificantVolume app ->
  now - lastVolumeTimestamp app < volumeHoldDuration app ->
  updateThermometer now s app =
    with_stabilizer (lastSignificantVolume app) (lastVolumeTimestamp app)
                    (lastSignificantVolume app) app.
Proof.
  intros Hs Hh. unfold updateThermometer.
  destruct (gtb_spec s (lastSignificantVolume app)); [lra|].
  destruct (ltb_spec (now - lastVolumeTimestamp app)
                     (volumeHoldDuration app)); [|lra].
  reflexivity.
Qed.

(** C3.  Hold: a sample that does not exceed [lastSignificantVolume],
    arriving less than [volumeHoldDuration] after the last peak, leaves
    [displayedVolume] equal to [lastSignificantVolume], and leaves
    [lastSignificantVolume] and [lastVolumeTimestamp] as they were. *)
Theorem updateThermometer_hold (now s : Q) (app : t) :
  s <= lastSignificantVolume app ->
  now - lastVolumeTimestamp app < volumeHoldDuration app ->
  let app' := updateThermometer now s app in
  displayedVolume app' = lastSignificantVolume app /\
  lastSignificantVolume app' = lastSignificantVolume app /\
  lastVolumeTimestamp app' = lastVolumeTimestamp app.
Proof.
  intros Hs Hh. cbv zeta.
  rewrite (updateThermometer_in_hold now s app Hs Hh).
  repeat split.
Qed.

Lemma updateThermometer_hold_witness :
  let app := with_stabilizer 50 1000 50 constructor in
  let app' := updateThermometer 1600 10 app in
  displayedVolume app' = 50 /\
  lastSignificantVolume app' = 50 /\
  lastVolumeTimestamp app' = 1000.
Proof.
  apply (updateThermometer_hold 1600 10
           (with_stabilizer 50 1000 50 constructor));
    vm_compute; congruence.
Defined.

(** C4.  Decay: a sample that does not exceed [lastSignificantVolume],
    arriving [volumeHoldDuration] or more after the last peak, is shown
    as the linear interpolation between [lastSignificantVolume] and the
    sample, with [progress = min(1, (elapsed - hold)/1000)].  When
    [elapsed] is exactly [hold + 1000] the sample itself is shown and
    the stabilizer re-anchors on it. *)
Theorem updateThermometer_decay (now s : Q) (app : t) :
  s <= lastSignificantVolume app ->
  volumeHoldDuration app <= now - lastVolumeTimestamp app ->
  let elapsed := now - lastVolumeTimestamp app in
  let progress :=
    JS.Math_min 1 ((elapsed - volumeHoldDuration app) / 1000) in
  let app' := updateThermometer now s app in
  displayedVolume app' =
    lastSignificantVolume app * (1 - progress) + s * progress /\
  (elapsed == volumeHoldDuration app + 1000 ->
     displayedVolume app' == s /\
     lastSignificantVolume app' = s /\
     lastVolumeTimestamp app' = now).
Proof.
  intros Hs Hh elapsed progress app'.
  subst app'. rewrite (updateThermometer_past_hold now s app Hs Hh).
  fold elapsed. fold progress. cbv zeta.
  split.
  - destruct (JS.geb progress 1); reflexivity.
  - intros He.
    assert (Hp : progress == 1).
    { subst progress.
      destruct (Math_min_cases 1 ((elapsed - volumeHoldDuration app) / 1000))
        as [[H1 H2]|[H1 H2]]; rewrite H2; [reflexivity|].
      rewrite div_1000 in *. lra. }
    destruct (geb_spec progress 1) as [_|Hlt]; [|lra].
    cbn. repeat split. rewrite Hp. lra.
Qed.

Lemma updateThermometer_decay_witness :
  let app := with_stabilizer 50 1000 50 constructor in
  let app' := updateThermometer 4000 10 app in
  displayedVolume app' =
    50 * (1 - JS.Math_min 1 ((4000 - 1000 - 2000) / 1000))
    + 10 * JS.Math_min 1 ((4000 - 1000 - 2000) / 1000) /\
  displayedVolume app' == 10 /\
  lastSignificantVolume app' = 10 /\
  lastVolumeTimestamp app' = 4000.
Proof.
  cbv zeta.
  destruct (updateThermometer_decay 4000 10
              (with_stabilizer 50 1000 50 constructor))
    as [Hi Hb]; [vm_compute; congruence .. |].
  split; [exact Hi|]. apply Hb. reflexivity.
Defined.

End StabilizerTick.

(** ** Bounds and monotonicity of the shown value *)

Section StabilizerRuns.
Import EcoLogroApp Stabilizer.

(** The stabilizer writes its three fields and nothing else. *)
Lemma updateThermometer_others (now v : Q) (app : t) :
  let app1 := updateThermometer now v app in
  audioAnalyzer app1 = audioAnalyzer app /\
  stateManager app1 = stateManager app /\
  sessionTracker app1 = sessionTracker app /\
  isRunning app1 = isRunning app /\
  isPaused app1 = isPaused app /\
  volumeHoldDuration app1 = volumeHoldDuration app.
Proof.
  cbv zeta. unfold updateThermometer.
  repeat match goal with |- context [if ?b then _ else _] => destruct b end;
    repeat split.
Qed.

(** A tick past the decay window shows the sample and re-anchors. *)
Lemma updateThermometer_past_window (now v : Q) (app : t) :
  v <= lastSignificantVolume app ->
  volumeHoldDuration app + 1000 <= now - lastVolumeTimestamp app ->
  updateThermometer now v app
    = with_stabilizer v now (displayedVolume (updateThermometer now v app)) app
  /\ displayedVolume (updateThermometer now v app) == v.
Proof.
  intros Hs He.
  assert (Hh : volumeHoldDuration app <= now - lastVolumeTimestamp app) by lra.
  rewrite (updateThermometer_past_hold now v app Hs Hh). cbv zeta.
  set (p := JS.Math_min 1 _).
  assert (Hp : p == 1).
  { subst p.
    destruct (Math_min_cases 1
                ((now - lastVolumeTimestamp app - volumeHoldDuration app) / 1000))
      as [[H1 H2]|[H1 H2]]; rewrite H2; [reflexivity|].
    rewrite div_1000 in *. lra. }
  destruct (geb_spec p 1) as [_|Hlt]; [|lra].
  cbn. split; [reflexivity|]. rewrite Hp. lra.
Qed.

(** A tick inside the decay window shows the interpolation and keeps
    the anchor. *)
Lemma updateThermometer_in_window (now v : Q) (app : t) :
  v <= lastSignificantVolume app ->
  volumeHoldDuration app <= now - lastVolumeTimestamp app ->
  now - lastVolumeTimestamp app < volumeHoldDuration app + 1000 ->
  let p := (now - lastVolumeTimestamp app - volumeHoldDuration app) / 1000 in
  updateThermometer now v app
    = with_stabilizer (lastSignificantVolume app) (lastVolumeTimestamp app)
        (displayedVolume (updateThermometer now v app)) app
  /\ displayedVolume (updateThermometer now v app)
     == lastSignificantVolume app * (1 - p) + v * p.
Proof.
  intros Hs Hh He. cbv zeta.
  rewrite (updateThermometer_past_hold now v app Hs Hh). cbv zeta.
  set (p := JS.Math_min 1 _).
  assert (Hp : p == (now - lastVolumeTimestamp app - volumeHoldDuration app)
                    / 1000
               /\ p < 1).
  { subst p.
    destruct (Math_min_cases 1
                ((now - lastVolumeTimestamp app - volumeHoldDuration app) / 1000))
      as [[H1 H2]|[H1 H2]]; rewrite H2; rewrite div_1000 in *; split;
      first [reflexivity | lra]. }
  destruct Hp as [Hp Hlt].
  destruct (geb_spec p 1) as [Hge|_]; [lra|].
  cbn. split; [reflexivity|]. rewrite Hp. reflexivity.
Qed.

(** One tick keeps [settled], for a clock that does not go back. *)
Lemma updateThermometer_settled (last now v : Q) (app : t) :
  inRange v -> last <= now -> settled last app ->
  settled now (updateThermometer now v app).
Proof.
  unfold inRange, settled. intros Hv Hnow [HL _].
  destruct (Qlt_le_dec (lastSignificantVolume app) v) as [Hr|Hs].
  { rewrite (updateThermometer_rise now v app Hr). cbn.
    split; [exact Hv|]. left. reflexivity. }
  destruct (Qlt_le_dec (now - lastVolumeTimestamp app)
                       (volumeHoldDuration app)) as [Hh|Hh].
  { rewrite (updateThermometer_in_hold now v app Hs Hh). cbn.
    split; [exact HL|]. left. reflexivity. }
  destruct (Qlt_le_dec (now - lastVolumeTimestamp app)
                       (volumeHoldDuration app + 1000)) as [Hw|Hw].
  - destruct (updateThermometer_in_window now v app Hs Hh Hw) as [E _].
    rewrite E. cbn. split; [exact HL|]. right. exact Hh.
  - destruct (updateThermometer_past_window now v app Hs Hw) as [E Ed].
    rewrite E. cbn. split; [exact Hv|]. left. exact Ed.
Qed.

Lemma last_cons (a d : Q) (l : list Q) : List.last (a :: l) d = List.last l a.
Proof.
  revert a d. induction l as [|b l IH]; intros a d; [reflexivity|].
  change (List.last (a :: b :: l) d) with (List.last (b :: l) d).
  rewrite (IH b d), (IH b a). reflexivity.
Qed.

Lemma nondecreasing_last (t0 t : Q) (ts : list Q) :
  nondecreasing (t0 :: ts ++ [t])%list ->
  nondecreasing (t0 :: ts) /\ List.last ts t0 <= t.
Proof.
  revert t0. induction ts as [|a ts IH]; intros t0 H.
  - cbn in *. split; [exact I|]. tauto.
  - destruct H as [H0 H]. destruct (IH a H) as [I1 I2].
    split; [split; assumption|]. rewrite last_cons. exact I2.
Qed.

(** A run keeps [settled] and the hold duration. *)
Lemma run_settled (ticks : list Tick) (t0 : Q) (app : t) :
  Forall (fun tv => inRange (snd tv)) ticks ->
  nondecreasing (t0 :: map fst ticks) ->
  settled t0 app ->
  settled (List.last (map fst ticks) t0) (run ticks app) /\
  volumeHoldDuration (run ticks app) = volumeHoldDuration app.
Proof.
  intros Hticks. revert t0 app.
  induction Hticks as [|[t1 v1] ticks Hv _ IH]; intros t0 app Hnd Hs.
  - cbn. split; [exact Hs|reflexivity].
  - destruct Hnd as [H0 Hnd]. cbn [map fst] in *. rewrite last_cons.
    cbn [run fold_left]. fold (run ticks (tick app (t1, v1))).
    destruct (IH t1 (tick app (t1, v1)) Hnd) as [I1 I2].
    { apply (updateThermometer_settled t0); assumption. }
    split; [exact I1|]. rewrite I2. unfold tick.
    destruct (updateThermometer_others t1 v1 app) as (_ & _ & _ & _ & _ & E).
    exact E.
Qed.

(** C8 (amended).  Along every run from a stabilizer that shows its held
    peak, itself in [0,100] (the constructor's is one), over samples in
    [0,100] at timestamps that do not go back, the hold duration stays
    and the held peak stays in [0,100]; each tick shows the sample when
    the sample exceeds the held peak, the held peak while the hold
    lasts, the sample once the decay window is over, and inside the
    decay window the interpolation [peak*(1-p) + sample*p] with
    [p = (elapsed - hold)/1000]; so outside the decay window the shown
    value is in [0,100].  The shown value increases from one tick to
    the next only if the new sample exceeds the value shown before, or
    the tick falls inside the decay window with a sample that does not
    exceed the held peak. *)
Theorem displayedVolume_along_run (ticks : list Tick) (now v : Q) (app0 : t) :
  inRange (lastSignificantVolume app0) ->
  displayedVolume app0 == lastSignificantVolume app0 ->
  Forall (fun tv => inRange (snd tv)) (ticks ++ [(now, v)])%list ->
  nondecreasing (map fst (ticks ++ [(now, v)])%list) ->
  let app := run ticks app0 in
  let app' := updateThermometer now v app in
  let peak := lastSignificantVolume app in
  let hold := volumeHoldDuration app in
  let elapsed := now - lastVolumeTimestamp app in
  let window := v <= peak /\ hold <= elapsed /\ elapsed < hold + 1000 in
  hold = volumeHoldDuration app0 /\
  inRange peak /\
  inRange (lastSignificantVolume app') /\
  (peak < v -> displayedVolume app' = v) /\
  (v <= peak -> elapsed < hold -> displayedVolume app' = peak) /\
  (v <= peak -> hold + 1000 <= elapsed -> displayedVolume app' == v) /\
  (window ->
     displayedVolume app'
     == peak * (1 - (elapsed - hold) / 1000) + v * ((elapsed - hold) / 1000)) /\
  (~ window -> inRange (displayedVolume app')) /\
  (displayedVolume app < displayedVolume app' ->
     displayedVolume app < v \/ window).
Proof.
  intros HL0 HD0 Hticks Hnd app app' peak hold elapsed window.
  apply Forall_app in Hticks as [Hticks Hlast].
  inversion Hlast as [|? ? Hv _]; subst. cbn [snd] in Hv.
  assert (Hrun : exists t_last, t_last <= now /\ settled t_last app /\
                   hold = volumeHoldDuration app0).
  { destruct ticks as [|[t1 v1] ticks].
    - exists now. split; [lra|]. split; [|reflexivity].
      split; [exact HL0|]. left. exact HD0.
    - rewrite map_app in Hnd. cbn [map fst app] in Hnd.
      destruct (nondecreasing_last t1 now (map fst ticks) Hnd) as [N1 N2].
      destruct (run_settled ((t1, v1) :: ticks) t1 app0 Hticks) as [R1 R2].
      { cbn [map fst]. split; [lra|exact N1]. }
      { split; [exact HL0|]. left. exact HD0. }
      exists (List.last (map fst ((t1, v1) :: ticks)) t1).
      cbn [map fst]. rewrite last_cons.
      split; [exact N2|]. split; [|exact R2].
      cbn [map fst] in R1. rewrite last_cons in R1. exact R1. }
  destruct Hrun as (t_last & Hle & [HL HD] & Hhold).
  fold peak in HL, HD. fold hold in HD.
  assert (Hs' : settled now app').
  { apply (updateThermometer_settled t_last); [assumption..|].
    split; assumption. }
  destruct Hs' as [HL' _].
  split; [exact Hhold|]. split; [exact HL|]. split; [exact HL'|].
  unfold inRange in *.
  destruct (Qlt_le_dec peak v) as [Hr|Hs].
  { assert (E : displayedVolume app' = v)
      by (subst app'; rewrite (updateThermometer_rise now v app Hr);
          reflexivity).
    split; [intros _; exact E|].
    split; [intros; lra|]. split; [intros; lra|].
    split; [intros (Hw & _); lra|].
    split; [intros _; rewrite E; exact Hv|].
    intros Hup. left. rewrite E in Hup. exact Hup. }
  split; [intros; lra|].
  destruct (Qlt_le_dec elapsed hold) as [Hh|Hh].
  { assert (E : displayedVolume app' = peak)
      by (subst app'; rewrite (updateThermometer_in_hold now v app Hs Hh);
          reflexivity).
    split; [intros _ _; exact E|].
    split; [intros; lra|].
    split; [intros (_ & Hw & _); lra|].
    split; [intros _; rewrite E; exact HL|].
    intros Hup. rewrite E in Hup. exfalso.
    destruct HD as [HD|HD]; [lra|].
    subst elapsed. lra. }
  split; [intros; lra|].
  destruct (Qlt_le_dec elapsed (hold + 1000)) as [Hw|Hw].
  - destruct (updateThermometer_in_window now v app Hs Hh Hw) as [_ E].
    cbv zeta in E. fold app' peak hold elapsed in E.
    split; [intros; lra|].
    split; [intros _; exact E|].
    split; [intros Hn; exfalso; apply Hn; repeat split; assumption|].
    intros _. right. repeat split; assumption.
  - destruct (updateThermometer_past_window now v app Hs Hw) as [_ E].
    fold app' in E.
    split; [intros _ _; exact E|].
    split; [intros (_ & _ & Hn); lra|].
    split; [intros _; rewrite E; exact Hv|].
    intros Hup. left. rewrite E in Hup. exact Hup.
Qed.

Lemma displayedVolume_along_run_witness :
  let app := run [(1000, 100); (3500, 0)] constructor in
  let app' := updateThermometer 3510 20 app in
  lastSignificantVolume app == 100 /\
  displayedVolume app'
    == 100 * (1 - (3510 - 1000 - 2000) / 1000)
       + 20 * ((3510 - 1000 - 2000) / 1000).
Proof.
  cbv zeta.
  destruct (displayedVolume_along_run [(1000, 100); (3500, 0)] 3510 20
              constructor)
    as (_ & _ & _ & _ & _ & _ & Hw & _).
  - split; vm_compute; congruence.
  - reflexivity.
  - repeat constructor; vm_compute; congruence.
  - cbn. repeat split; vm_compute; congruence.
  - split; [reflexivity|].
    apply Hw. repeat split; vm_compute; congruence.
Defined.

(** C8 as stated fails.  From the constructor, with samples in [0,100]
    at increasing times: a peak of 100 at 1000 ms, silence at 3500 ms
    (half-way through the decay, 50 is shown), then a sample of 20 at
    3510 ms.  The sample is below the 50 shown before, yet 59.2 is shown:
    the decay interpolates from the held peak, not from the shown value. *)
Lemma displayedVolume_rises_in_decay :
  let ticks := [(1000, 100); (3500, 0)] in
  let app := run ticks constructor in
  let app' := updateThermometer 3510 20 app in
  Forall (fun tv => inRange (snd tv)) (ticks ++ [(3510, 20)]) /\
  nondecreasing (map fst (ticks ++ [(3510, 20)])) /\
  displayedVolume app == 50 /\
  displayedVolume app' == 592 # 10 /\
  displayedVolume app < displayedVolume app' /\
  ~ displayedVolume app < 20.
Proof.
  cbv zeta. split; [|split; [|split; [|split; [|split]]]].
  - repeat constructor; vm_compute; congruence.
  - cbn. repeat split; vm_compute; congruence.
  - vm_compute. reflexivity.
  - vm_compute. reflexivity.
  - vm_compute. reflexivity.
  - vm_compute. intros H. discriminate H.
Qed.

End StabilizerRuns.

(** ** The zone classifier *)

Section Classifier.
Import StateManager.

(** [determineState] as a decision list. *)
Lemma determineState_unfold (v : Q) (sm : t) :
  determineState v sm =
    if JS.ltb v 3 then States.SILENT
    else if JS.ltb v (lowerThreshold (config sm)) then States.LOW
    else if JS.leb v (upperThreshold (config sm)) then States.OPTIMAL
    else States.DANGER.
Proof.
  unfold determineState.
  destruct (ltb_spec v 3); [reflexivity|].
  destruct (ltb_spec v (lowerThreshold (config sm))); [reflexivity|].
  destruct (geb_spec v (lowerThreshold (config sm))); [reflexivity|lra].
Qed.

(** C2 (amended).  With [lowerThreshold < upperThreshold], every value
    is classified as exactly one of SILENT, LOW, OPTIMAL, DANGER, never
    WARNING: SILENT when [value < 3]; LOW when [3 <= value < lower];
    OPTIMAL when [3 <= value] and [lower <= value <= upper]; DANGER when
    [3 <= value] and [value > upper]. *)
Theorem determineState_zones (v : Q) (sm : t) :
  lowerThreshold (config sm) < upperThreshold (config sm) ->
  (v < 3 -> determineState v sm = States.SILENT) /\
  (3 <= v < lowerThreshold (config sm) -> determineState v sm = States.LOW) /\
  (3 <= v /\ lowerThreshold (config sm) <= v <= upperThreshold (config sm) ->
     determineState v sm = States.OPTIMAL) /\
  (3 <= v /\ upperThreshold (config sm) < v ->
     determineState v sm = States.DANGER) /\
  In (determineState v sm)
     [States.SILENT; States.LOW; States.OPTIMAL; States.DANGER] /\
  determineState v sm <> States.WARNING.
Proof.
  intros Hlu. rewrite determineState_unfold.
  destruct (ltb_spec v 3);
    [|destruct (ltb_spec v (lowerThreshold (config sm)));
      [|destruct (leb_spec v (upperThreshold (config sm)))]];
    (repeat split;
     [ intros; first [reflexivity | lra] ..
     | cbn; tauto
     | discriminate ]).
Qed.

Lemma determineState_zones_witness :
  (50 < 3 -> determineState 50 constructor = States.SILENT) /\
  (3 <= 50 < 25 -> determineState 50 constructor = States.LOW) /\
  (3 <= 50 /\ 25 <= 50 <= 75 -> determineState 50 constructor = States.OPTIMAL) /\
  (3 <= 50 /\ 75 < 50 -> determineState 50 constructor = States.DANGER) /\
  In (determineState 50 constructor)
     [States.SILENT; States.LOW; States.OPTIMAL; States.DANGER] /\
  determineState 50 constructor <> States.WARNING.
Proof.
  apply (determineState_zones 50 constructor). vm_compute. reflexivity.
Defined.

(** C2 as stated fails.  The configuration with thresholds 0 and 75 is
    what [updateConfiguration] leaves for that input, 1 lies in
    [0,100] and inside the band [lower, upper], and it is classified
    SILENT, not OPTIMAL: the silence test runs first. *)
Lemma determineState_silent_in_band :
  let sm := updateConfiguration
              {| newLowerThreshold := Some 0; newUpperThreshold := Some 75;
                 newSensitivity := None; newDampening := None;
                 newPersistenceDuration := None; newStudentName := None;
                 newLastUpdated := None |}
              constructor in
  lowerThreshold (config sm) < upperThreshold (config sm) /\
  0 <= 1 <= 100 /\
  lowerThreshold (config sm) <= 1 <= upperThreshold (config sm) /\
  determineState 1 sm = States.SILENT /\
  determineState 1 sm <> States.OPTIMAL.
Proof.
  cbv zeta. repeat split; try (vm_compute; congruence).
Qed.

End Classifier.

(** ** Validation of the configuration *)

Section Configuration.
Import StateManager.

(** The keys of [{ ...this.config, ...newConfig }]. *)
Lemma spread_lowerThreshold (c : Config) (n : NewConfig) :
  lowerThreshold (spread c n) = default (lowerThreshold c) (newLowerThreshold n).
Proof. reflexivity. Qed.

Lemma spread_upperThreshold (c : Config) (n : NewConfig) :
  upperThreshold (spread c n) = default (upperThreshold c) (newUpperThreshold n).
Proof. reflexivity. Qed.

Lemma spread_sensitivity (c : Config) (n : NewConfig) :
  sensitivity (spread c n) = default (sensitivity c) (newSensitivity n).
Proof. reflexivity. Qed.

Lemma spread_dampening (c : Config) (n : NewConfig) :
  dampening (spread c n) = default (dampening c) (newDampening n).
Proof. reflexivity. Qed.

Lemma spread_persistenceDuration (c : Config) (n : NewConfig) :
  persistenceDuration (spread c n) =
    match newPersistenceDuration n with
    | Some p => Some p
    | None => persistenceDuration c
    end.
Proof. reflexivity. Qed.

Lemma spread_cfgLastUpdated (c : Config) (n : NewConfig) :
  cfgLastUpdated (spread c n) =
    match newLastUpdated n with
    | Some u => Some u
    | None => cfgLastUpdated c
    end.
Proof. reflexivity. Qed.

Lemma spread_cfgStudentName (c : Config) (n : NewConfig) :
  cfgStudentName (spread c n) =
    match newStudentName n with
    | Some s => Some s
    | None => cfgStudentName c
    end.
Proof. reflexivity. Qed.

(** What [validate] leaves in the two thresholds. *)
Lemma validate_thresholds (c : Config) :
  let lower := JS.Math_max 0 (JS.Math_min 85 (lowerThreshold c)) in
  let upper := JS.Math_max 15 (JS.Math_min 100 (upperThreshold c)) in
  lowerThreshold (validate c) = lower /\
  (upper <= lower -> upperThreshold (validate c) = lower + 10) /\
  (lower < upper -> upperThreshold (validate c) = upper).
Proof.
  cbv zeta. unfold validate. cbn.
  destruct (geb_spec (JS.Math_max 0 (JS.Math_min 85 (lowerThreshold c)))
                     (JS.Math_max 15 (JS.Math_min 100 (upperThreshold c))));
    repeat split; intros; first [reflexivity | lra].
Qed.

Lemma validate_ranges (c : Config) :
  0 <= lowerThreshold (validate c) <= 85 /\
  15 <= upperThreshold (validate c) <= 100 /\
  lowerThreshold (validate c) < upperThreshold (validate c) /\
  0 <= sensitivity (validate c) <= 100 /\
  0 <= dampening (validate c) <= 100.
Proof.
  destruct (validate_thresholds c) as (El & Ef & Ek).
  assert (Hl := clamp_range 0 85 (lowerThreshold c) ltac:(lra)).
  assert (Hu := clamp_range 15 100 (upperThreshold c) ltac:(lra)).
  assert (Hs := clamp_range 0 100 (sensitivity c) ltac:(lra)).
  assert (Hd := clamp_range 0 100 (dampening c) ltac:(lra)).
  rewrite El.
  destruct (Qlt_le_dec (JS.Math_max 0 (JS.Math_min 85 (lowerThreshold c)))
                       (JS.Math_max 15 (JS.Math_min 100 (upperThreshold c))))
    as [H|H].
  - rewrite (Ek H). repeat split; first [lra | apply Hs | apply Hd].
  - rewrite (Ef H). repeat split; first [lra | apply Hs | apply Hd].
Qed.

(** A configuration already in range is left as it is. *)
Lemma validate_in_range (c : Config) :
  0 <= lowerThreshold c <= 85 ->
  15 <= upperThreshold c <= 100 ->
  lowerThreshold c < upperThreshold c ->
  0 <= sensitivity c <= 100 ->
  0 <= dampening c <= 100 ->
  config_eq (validate c) c.
Proof.
  intros Hl Hu Hlu Hs Hd.
  destruct (validate_thresholds c) as (El & Ef & Ek).
  pose proof (clamp_id 0 85 _ Hl) as Cl.
  pose proof (clamp_id 15 100 _ Hu) as Cu.
  unfold config_eq. rewrite El, Ek by lra.
  repeat split; try assumption; cbn; try reflexivity.
  - apply clamp_id, Hs.
  - apply clamp_id, Hd.
Qed.

(** [validate] reads its input as numbers. *)
Lemma validate_config_eq (c1 c2 : Config) :
  config_eq c1 c2 -> config_eq (validate c1) (validate c2).
Proof.
  intros (El & Eu & Es & Ed & Ep & En & Et).
  assert (Hmin : forall hi a b, a == b -> JS.Math_min hi a == JS.Math_min hi b).
  { intros hi a b E. unfold JS.Math_min. now rewrite E. }
  assert (Hmax : forall lo a b, a == b -> JS.Math_max lo a == JS.Math_max lo b).
  { intros lo a b E. unfold JS.Math_max. now rewrite E. }
  assert (Cl := Hmax 0 _ _ (Hmin 85 _ _ El)).
  assert (Cu := Hmax 15 _ _ (Hmin 100 _ _ Eu)).
  destruct (validate_thresholds c1) as (El1 & Ef1 & Ek1).
  destruct (validate_thresholds c2) as (El2 & Ef2 & Ek2).
  unfold config_eq. rewrite El1, El2.
  split; [exact Cl|]. split.
  - destruct (Qlt_le_dec (JS.Math_max 0 (JS.Math_min 85 (lowerThreshold c1)))
                         (JS.Math_max 15 (JS.Math_min 100 (upperThreshold c1))))
      as [H|H].
    + rewrite Ek1, Ek2 by lra. exact Cu.
    + rewrite Ef1, Ef2 by lra. lra.
  - cbn. repeat split; try assumption.
    + apply Hmax, Hmin, Es.
    + apply Hmax, Hmin, Ed.
Qed.

(** Spreading the same input over the validated result gives, as
    numbers, a configuration that is either the input's or already valid
    in each key. *)
Lemma updateConfiguration_twice (n : NewConfig) (c : Config) :
  config_eq (validate (spread (validate (spread c n)) n))
            (validate (spread c n)).
Proof.
  pose proof (validate_ranges (spread c n)) as (Rl & Ru & Rlu & Rs & Rd).
  destruct (validate_thresholds (spread c n)) as (El & Ef & Ek).
  destruct (validate_thresholds (spread (validate (spread c n)) n))
    as (El' & Ef' & Ek').
  assert (Es : sensitivity (validate (spread c n))
               = JS.Math_max 0 (JS.Math_min 100 (sensitivity (spread c n))))
    by reflexivity.
  assert (Ed : dampening (validate (spread c n))
               = JS.Math_max 0 (JS.Math_min 100 (dampening (spread c n))))
    by reflexivity.
  assert (Ep : persistenceDuration (validate (spread c n))
               = persistenceDuration (spread c n)) by reflexivity.
  assert (En : cfgStudentName (validate (spread c n))
               = cfgStudentName (spread c n)) by reflexivity.
  assert (Es' : sensitivity (validate (spread (validate (spread c n)) n))
                = JS.Math_max 0 (JS.Math_min 100
                    (sensitivity (spread (validate (spread c n)) n))))
    by reflexivity.
  assert (Ed' : dampening (validate (spread (validate (spread c n)) n))
                = JS.Math_max 0 (JS.Math_min 100
                    (dampening (spread (validate (spread c n)) n))))
    by reflexivity.
  assert (Ep' : persistenceDuration (validate (spread (validate (spread c n)) n))
                = persistenceDuration (spread (validate (spread c n)) n))
    by reflexivity.
  assert (En' : cfgStudentName (validate (spread (validate (spread c n)) n))
                = cfgStudentName (spread (validate (spread c n)) n))
    by reflexivity.
  assert (Et : cfgLastUpdated (validate (spread c n))
               = cfgLastUpdated (spread c n)) by reflexivity.
  assert (Et' : cfgLastUpdated (validate (spread (validate (spread c n)) n))
                = cfgLastUpdated (spread (validate (spread c n)) n))
    by reflexivity.
  generalize dependent (validate (spread c n)). intros r.
  generalize (validate (spread r n)). intros r'. intros.
  unfold config_eq. rewrite El', Es', Ed', Ep', En', Et'.
  rewrite !spread_lowerThreshold, !spread_upperThreshold, !spread_sensitivity,
    !spread_dampening, !spread_persistenceDuration, !spread_cfgStudentName,
    !spread_cfgLastUpdated in *.
  (* every key: given again, hence clamped as before; or kept, hence in range *)
  assert (Cl : JS.Math_max 0
                 (JS.Math_min 85 (default (lowerThreshold r) (newLowerThreshold n)))
               == lowerThreshold r).
  { destruct (newLowerThreshold n); cbn in *.
    - rewrite El. reflexivity.
    - apply clamp_id, Rl. }
  split; [exact Cl|]. split; [|split; [|split; [|split; [|split]]]].
  - rewrite <- El in Ef, Ek.
    destruct (newUpperThreshold n) as [u|]; cbn in *.
    + destruct (Qlt_le_dec (lowerThreshold r)
                           (JS.Math_max 15 (JS.Math_min 100 u))) as [H|H].
      * rewrite Ek' by lra. rewrite Ek by lra. reflexivity.
      * rewrite Ef' by lra. rewrite Ef by lra. lra.
    + pose proof (clamp_id 15 100 _ Ru) as Cu.
      rewrite Ek' by lra. exact Cu.
  - destruct (newSensitivity n); cbn in *.
    + rewrite Es. reflexivity.
    + apply clamp_id, Rs.
  - destruct (newDampening n); cbn in *.
    + rewrite Ed. reflexivity.
    + apply clamp_id, Rd.
  - destruct (newPersistenceDuration n); cbn in *; congruence.
  - destruct (newStudentName n); cbn in *; congruence.
  - destruct (newLastUpdated n); cbn in *; congruence.
Qed.

(** C5.  Whatever the input and the configuration before,
    [updateConfiguration] takes each key from the input when the input
    has it and from the configuration before otherwise; it leaves
    [lowerThreshold] clamped into [0,85] and [upperThreshold] in
    [15,100] — the clamp of the value taken, or [lowerThreshold + 10]
    whenever the clamped lower threshold reaches the clamped upper one
    —, sensitivity and dampening clamped into [0,100], the other keys
    as taken and the rest of the manager untouched;
    [lowerThreshold < upperThreshold] holds after the update; and a
    second update with the same input yields the same configuration. *)
Theorem updateConfiguration_clamps (n : NewConfig) (sm : t) :
  let taken {A} (given : option A) (before : A) : A :=
    match given with Some x => x | None => before end in
  let lower := JS.Math_max 0 (JS.Math_min 85
                 (taken (newLowerThreshold n) (lowerThreshold (config sm)))) in
  let upper := JS.Math_max 15 (JS.Math_min 100
                 (taken (newUpperThreshold n) (upperThreshold (config sm)))) in
  let sm1 := updateConfiguration n sm in
  let sm2 := updateConfiguration n sm1 in
  lowerThreshold (config sm1) = lower /\
  0 <= lowerThreshold (config sm1) <= 85 /\
  15 <= upperThreshold (config sm1) <= 100 /\
  (upper <= lower ->
     upperThreshold (config sm1) = lowerThreshold (config sm1) + 10) /\
  (lower < upper -> upperThreshold (config sm1) = upper) /\
  lowerThreshold (config sm1) < upperThreshold (config sm1) /\
  sensitivity (config sm1)
    = JS.Math_max 0 (JS.Math_min 100
        (taken (newSensitivity n) (sensitivity (config sm)))) /\
  dampening (config sm1)
    = JS.Math_max 0 (JS.Math_min 100
        (taken (newDampening n) (dampening (config sm)))) /\
  persistenceDuration (config sm1)
    = taken (option_map Some (newPersistenceDuration n))
            (persistenceDuration (config sm)) /\
  cfgStudentName (config sm1)
    = taken (option_map Some (newStudentName n)) (cfgStudentName (config sm)) /\
  cfgLastUpdated (config sm1)
    = taken (option_map Some (newLastUpdated n)) (cfgLastUpdated (config sm)) /\
  (currentState sm1 = currentState sm /\
   previousState sm1 = previousState sm /\
   lastVolume sm1 = lastVolume sm /\
   studentName sm1 = studentName sm /\
   stateChangeListeners sm1 = stateChangeListeners sm /\
   volumeHistory sm1 = volumeHistory sm) /\
  config_eq (config sm2) (config sm1).
Proof.
  cbv zeta.
  assert (E : forall m, config (updateConfiguration n m)
                        = validate (spread (config m) n)) by reflexivity.
  rewrite !E.
  pose proof (validate_thresholds (spread (config sm) n)) as V.
  destruct (validate_ranges (spread (config sm) n)) as (Rl & Ru & Rlu & _).
  assert (Tl : lowerThreshold (spread (config sm) n)
               = match newLowerThreshold n with
                 | Some x => x | None => lowerThreshold (config sm) end)
    by (rewrite spread_lowerThreshold; destruct (newLowerThreshold n); reflexivity).
  assert (Tu : upperThreshold (spread (config sm) n)
               = match newUpperThreshold n with
                 | Some x => x | None => upperThreshold (config sm) end)
    by (rewrite spread_upperThreshold; destruct (newUpperThreshold n); reflexivity).
  cbv zeta in V. rewrite Tl, Tu in V. destruct V as (El & Ef & Ek).
  split; [exact El|]. split; [exact Rl|]. split; [exact Ru|].
  split; [intros H; rewrite El; apply Ef, H|].
  split; [exact Ek|]. split; [exact Rlu|].
  split; [cbn; destruct (newSensitivity n); reflexivity|].
  split; [cbn; destruct (newDampening n); reflexivity|].
  split; [cbn; destruct (newPersistenceDuration n); reflexivity|].
  split; [cbn; destruct (newStudentName n); reflexivity|].
  split; [cbn; destruct (newLastUpdated n); reflexivity|].
  split; [repeat split|].
  apply updateConfiguration_twice.
Qed.

End Configuration.

(** ** Messages *)

Section Messages.
Import StateManager.

(** The four states that have an entry of their own. *)
Lemma getStateInfo_own (state : string) (sm : t) :
  In state [States.SILENT; States.LOW; States.OPTIMAL; States.DANGER] ->
  exists i, getStateInfo state sm = JS.Own i /\
            info (studentName sm) !! state = Some i.
Proof.
  intros Hin. unfold getStateInfo, JS.getProperty, info.
  cbn in Hin.
  destruct Hin as [<-|[<-|[<-|[<-|[]]]]]; cbn;
    eexists; split; reflexivity.
Qed.

(** A key that is neither in the table nor inherited reads as the
    SILENT entry. *)
Lemma getStateInfo_fallback (state : string) (sm : t) :
  ~ In state [States.SILENT; States.LOW; States.OPTIMAL; States.DANGER] ->
  state ∉ JS.objectPrototypeKeys ->
  getStateInfo state sm = JS.getProperty (info (studentName sm)) "SILENT".
Proof.
  intros Hout Hproto. unfold getStateInfo.
  assert (Hnone : info (studentName sm) !! state = None).
  { unfold info. cbn in Hout.
    rewrite !lookup_insert_ne by (intros <-; apply Hout; cbn; tauto).
    apply lookup_empty. }
  unfold JS.getProperty at 1. rewrite Hnone.
  rewrite bool_decide_eq_false_2 by assumption.
  reflexivity.
Qed.

(** Every call that [updateState] makes on a listener carries the new
    state, which [determineState] produced. *)
Lemma updateState_calls (v : Q) (sm : t) (call : Listener * StateChange) :
  In call (snd (updateState v sm)) ->
  chState (snd call) = determineState v sm /\
  chMessage (snd call) = messageOf (getStateInfo (determineState v sm) sm) /\
  chEmoji (snd call) = emojiOf (getStateInfo (determineState v sm) sm).
Proof.
  unfold updateState. cbn.
  destruct (negb (determineState v sm =? currentState sm)%string); cbn;
    [|tauto].
  unfold notifyStateChange. rewrite in_map_iff.
  intros (l & <- & _). cbn. repeat split.
Qed.

(** C10 (amended).  For every state key that is not the name of a member
    inherited from [Object.prototype] — the five states of the
    enumeration, WARNING among them, and every other such string —
    [getStateInfo] returns an entry with a message and an emoji: the
    key's own entry of the table for SILENT, LOW, OPTIMAL and DANGER,
    the SILENT entry otherwise.  The entries are: for OPTIMAL
    "Perfecto, sigue así, mantén el volumen" with 😊, for DANGER
    "¡Vamos!!" with 😅, for SILENT and LOW, with 🤔,
    "Habla un poco, no te oigo" when no student name is set and
    "Habla, " followed by the name otherwise.  Every call that
    [updateState] makes on a listener carries the new state with the
    message and the emoji of that state's entry. *)
Theorem getStateInfo_defined (state : string) (sm : t) :
  state ∉ JS.objectPrototypeKeys ->
  let speak :=
    if String.eqb (studentName sm) "" then "Habla un poco, no te oigo"
    else "Habla, " ++ studentName sm in
  let entry (key : string) : StateInfo :=
    if String.eqb key "OPTIMAL"
    then {| message := "Perfecto, sigue así, mantén el volumen";
            emoji := "😊" |}
    else if String.eqb key "DANGER"
    then {| message := "¡Vamos!!"; emoji := "😅" |}
    else {| message := speak; emoji := "🤔" |} in
  let own := [States.SILENT; States.LOW; States.OPTIMAL; States.DANGER] in
  getStateInfo state sm = JS.Own (entry state) /\
  messageOf (getStateInfo state sm) = Some (message (entry state)) /\
  emojiOf (getStateInfo state sm) = Some (emoji (entry state)) /\
  (In state own -> info (studentName sm) !! state = Some (entry state)) /\
  (~ In state own ->
     info (studentName sm) !! state = None /\
     info (studentName sm) !! "SILENT" = Some (entry state) /\
     entry state = entry "SILENT") /\
  (forall v call, In call (snd (updateState v sm)) ->
     In (determineState v sm) own /\
     chState (snd call) = determineState v sm /\
     chMessage (snd call) = Some (message (entry (determineState v sm))) /\
     chEmoji (snd call) = Some (emoji (entry (determineState v sm)))).
Proof.
  intros Hproto speak entry own.
  assert (Hown : forall key, In key own ->
            getStateInfo key sm = JS.Own (entry key) /\
            info (studentName sm) !! key = Some (entry key)).
  { intros key Hin.
    destruct (getStateInfo_own key sm Hin) as (i & E & L).
    assert (Ei : i = entry key).
    { cbn in Hin. unfold info in L.
      destruct Hin as [<-|[<-|[<-|[<-|[]]]]]; cbn in L;
        injection L as <-; reflexivity. }
    rewrite E, L, Ei. split; reflexivity. }
  assert (Hfirst : getStateInfo state sm = JS.Own (entry state) /\
            (In state own ->
               info (studentName sm) !! state = Some (entry state)) /\
            (~ In state own ->
               info (studentName sm) !! state = None /\
               info (studentName sm) !! "SILENT" = Some (entry state) /\
               entry state = entry "SILENT")).
  { destruct (In_dec string_dec state own) as [Hin|Hout].
    - destruct (Hown state Hin) as [E L].
      split; [exact E|]. split; [intros _; exact L|].
      intros H; contradiction.
    - assert (Es : entry state = entry "SILENT").
      { subst entry. cbv beta.
        destruct (String.eqb_spec state "OPTIMAL") as [->|_];
          [exfalso; apply Hout; cbn; tauto|].
        destruct (String.eqb_spec state "DANGER") as [->|_];
          [exfalso; apply Hout; cbn; tauto|].
        reflexivity. }
      destruct (Hown "SILENT") as [_ Ls]; [cbn; tauto|].
      assert (Hnone : info (studentName sm) !! state = None).
      { unfold info. subst own. cbn in Hout.
        rewrite !lookup_insert_ne by (intros <-; apply Hout; cbn; tauto).
        apply lookup_empty. }
      split.
      + rewrite (getStateInfo_fallback state sm Hout Hproto).
        unfold JS.getProperty. rewrite Ls, Es. reflexivity.
      + split; [intros H; contradiction|].
        intros _. split; [exact Hnone|]. split; [rewrite Es; exact Ls|exact Es]. }
  destruct Hfirst as (E & Hin & Hout).
  split; [exact E|]. rewrite E. cbn [messageOf emojiOf].
  split; [reflexivity|]. split; [reflexivity|].
  split; [exact Hin|]. split; [exact Hout|].
  intros v call Hcall.
  destruct (updateState_calls v sm call Hcall) as (Ec & Em & Ee).
  assert (Hd : In (determineState v sm) own).
  { rewrite determineState_unfold.
    destruct (JS.ltb v 3); [cbn; tauto|].
    destruct (JS.ltb v _); [cbn; tauto|].
    destruct (JS.leb v _); cbn; tauto. }
  destruct (Hown _ Hd) as [Ed _].
  rewrite Em, Ee, Ed. cbn [messageOf emojiOf].
  split; [exact Hd|]. split; [exact Ec|]. split; reflexivity.
Qed.

Lemma getStateInfo_defined_witness :
  getStateInfo States.WARNING constructor
    = JS.Own {| message := "Habla un poco, no te oigo"; emoji := "🤔" |} /\
  getStateInfo States.DANGER constructor
    = JS.Own {| message := "¡Vamos!!"; emoji := "😅" |} /\
  info (studentName constructor) !! States.WARNING = None.
Proof.
  pose proof (getStateInfo_defined States.WARNING constructor
                ltac:(compute_done)) as Hw.
  pose proof (getStateInfo_defined States.DANGER constructor
                ltac:(compute_done)) as Hd.
  cbv zeta in Hw, Hd.
  destruct Hw as (Ew & _ & _ & _ & Hout & _).
  destruct Hd as (Ed & _).
  split; [exact Ew|]. split; [exact Ed|].
  apply Hout. cbn. intros [H|[H|[H|[H|[]]]]]; discriminate H.
Defined.

(** C10 as stated fails.  ["constructor"] is not a state of the
    enumeration; the table has no entry of that name, but every object
    inherits a member of that name, so the read [info[state]] is truthy
    and the SILENT entry is not used: what is returned has neither a
    [message] nor an [emoji]. *)
Lemma getStateInfo_inherited_key :
  ~ In "constructor" States.all /\
  getStateInfo "constructor" constructor = JS.Inherited "constructor" /\
  getStateInfo "constructor" constructor
    <> JS.getProperty (info (studentName constructor)) "SILENT" /\
  messageOf (getStateInfo "constructor" constructor) = None /\
  emojiOf (getStateInfo "constructor" constructor) = None.
Proof.
  split; [|repeat split; try reflexivity; vm_compute; discriminate].
  cbn. intros [H|[H|[H|[H|[H|[]]]]]]; discriminate H.
Qed.

End Messages.

(** ** The signal conditioner *)

Section Conditioner.
Import AudioAnalyzer.

Lemma gate_range (rms : Q) : 0 <= gate rms <= 100.
Proof.
  unfold gate.
  destruct (ltb_spec (JS.Math_min 100 (rms * 250)) 8) as [H|H]; [lra|].
  split; [lra|]. apply Q.le_min_l.
Qed.

(** C7.  [getRMSVolume] returns 0 when there is no audio buffer;
    otherwise it returns [min(100, rms * 250)], replaced by 0 when that
    is below 8; the result is in [0,100] for every input, whatever
    [Math.sqrt] returns. *)
Theorem getRMSVolume_gated (Math_sqrt : Q -> Q) (a : t) :
  0 <= getRMSVolume Math_sqrt a <= 100 /\
  (dataArray a = None -> getRMSVolume Math_sqrt a = 0) /\
  (forall data, dataArray a = Some data ->
     let rms := rmsOf Math_sqrt data in
     let scaled := JS.Math_min 100 (rms * 250) in
     (scaled < 8 -> getRMSVolume Math_sqrt a = 0) /\
     (8 <= scaled -> getRMSVolume Math_sqrt a = scaled) /\
     (0 <= rms <= 1 -> 8 <= rms * 250 ->
        getRMSVolume Math_sqrt a == JS.Math_min 100 (rms * 250))).
Proof.
  unfold getRMSVolume.
  destruct (dataArray a) as [data|].
  - split; [apply gate_range|]. split; [discriminate|].
    intros ? [= <-]. cbv zeta. unfold gate.
    destruct (ltb_spec (JS.Math_min 100 (rmsOf Math_sqrt data * 250)) 8)
      as [H|H].
    + split; [reflexivity|]. split; [intros; lra|].
      intros _ H8.
      destruct (Math_min_cases 100 (rmsOf Math_sqrt data * 250))
        as [[H1 H2]|[H1 H2]]; rewrite H2 in H; lra.
    + split; [intros; lra|]. split; reflexivity.
  - split; [lra|]. split; [reflexivity|]. discriminate.
Qed.

End Conditioner.

(** ** Sessions *)

Section Sessions.
Import SessionTracker.
Local Open Scope Z_scope.

Lemma calculateConsistency_session (s : Session) (tr : t) :
  calculateConsistency (with_session s tr) =
    if greenZoneTime s =? 0 then 0
    else Z.max 0 (100 - Z.min (dropCount s * 5) 80).
Proof. reflexivity. Qed.

Lemma endSession_active (now : Q) (tr : t) (w : World) (s : Session) :
  isTracking tr = true -> currentSession tr = Some s ->
  endSession now tr w =
    (Some (finalize now tr s),
     {| currentSession := Some (finalize now tr s); isTracking := false;
        timerInterval := None |},
     saveSessionToHistory (finalize now tr s)
       match timerInterval tr with
       | Some id => clearInterval id w
       | None => w
       end).
Proof. intros Ht Hs. unfold endSession. rewrite Ht, Hs. reflexivity. Qed.

(** C6.  The summary that [endSession] returns for an active session
    has consistency score 0 when the green-zone time is 0, whatever the
    drop count, and [max(0, 100 - min(dropCount*5, 80))] otherwise;
    with green-zone time above 0 and 16 drops or more it is 20. *)
Theorem endSession_consistencyScore
    (now : Q) (tr : t) (w : World) (s : Session) :
  isTracking tr = true -> currentSession tr = Some s ->
  exists summary,
    fst (fst (endSession now tr w)) = Some summary /\
    consistencyScore summary = calculateConsistency (with_session s tr) /\
    (greenZoneTime s = 0 -> consistencyScore summary = 0) /\
    (0 < greenZoneTime s ->
       consistencyScore summary
         = Z.max 0 (100 - Z.min (dropCount s * 5) 80)) /\
    (0 < greenZoneTime s -> 16 <= dropCount s ->
       consistencyScore summary = 20).
Proof.
  intros Ht Hs. rewrite (endSession_active now tr w s Ht Hs).
  exists (finalize now tr s). cbn [fst].
  split; [reflexivity|].
  assert (E : consistencyScore (finalize now tr s)
              = if greenZoneTime s =? 0 then 0
                else Z.max 0 (100 - Z.min (dropCount s * 5) 80))
    by reflexivity.
  rewrite calculateConsistency_session, E.
  split; [reflexivity|].
  split; [intros ->; reflexivity|].
  split.
  - intros Hg. destruct (Z.eqb_spec (greenZoneTime s) 0); [lia|reflexivity].
  - intros Hg Hd. destruct (Z.eqb_spec (greenZoneTime s) 0); lia.
Qed.

Lemma endSession_consistencyScore_witness :
  let s := mkSession (mkId 1000 "k3j9x2a7q") 1000 2 1 50 100 17
             [mkEntry "OPTIMAL" 1500 50] "LOW" None in
  let tr := mk (Some s) true (Some 1%positive) in
  let w := mkWorld true [] [1%positive] 2%positive in
  exists summary,
    fst (fst (endSession 4000 tr w)) = Some summary /\
    consistencyScore summary = calculateConsistency (with_session s tr) /\
    (greenZoneTime s = 0 -> consistencyScore summary = 0) /\
    (0 < greenZoneTime s ->
       consistencyScore summary
         = Z.max 0 (100 - Z.min (dropCount s * 5) 80)) /\
    (0 < greenZoneTime s -> 16 <= dropCount s ->
       consistencyScore summary = 20).
Proof.
  apply (endSession_consistencyScore 4000
           (mk (Some (mkSession (mkId 1000 "k3j9x2a7q") 1000 2 1 50 100 17
                        [mkEntry "OPTIMAL" 1500 50] "LOW" None))
               true (Some 1%positive))
           (mkWorld true [] [1%positive] 2%positive)); reflexivity.
Defined.

(** Ending with no active session: [null], nothing changes. *)
Lemma endSession_inactive (now : Q) (tr : t) (w : World) :
  isTracking tr = false \/ currentSession tr = None ->
  endSession now tr w = (None, tr, w).
Proof.
  intros [H|H]; unfold endSession; rewrite H; [reflexivity|].
  destruct (isTracking tr); reflexivity.
Qed.

Lemma clearInterval_not_in (id : TimerId) (w : World) :
  ~ In id (activeTimers (clearInterval id w)).
Proof.
  unfold clearInterval; cbn. rewrite filter_In. intros [_ H].
  rewrite Pos.eqb_refl in H. discriminate.
Qed.

(** C9.  [startSession] on a tracker with an active session first runs
    [endSession]: the active session is finalised at [now] — its
    [totalDuration] becomes the whole seconds since its start, its
    [consistencyScore] 0 when it has no green time and
    [max(0, 100 - min(dropCount*5, 80))] otherwise, its other fields
    stay —, the finalised session is put at the head of the stored
    history (kept to 50 entries; left alone when the storage throws)
    and its timer is cleared; only then the new session is created,
    with a fresh id, zeroed counters, a score of 100, an empty history
    and the state SILENT, and its own timer armed, so that the tracker
    holds the new session alone and, when the old timer was the only
    one, the new timer is the only one.  [endSession] on a tracker
    without an active session returns [null] and changes neither the
    tracker nor its surroundings. *)
Theorem startSession_ends_active
    (now : Q) (random : string) (tr : t) (w : World) (s : Session) :
  isTracking tr = true -> currentSession tr = Some s ->
  let summary :=
    {| sessionId := sessionId s;
       startTime := startTime s;
       totalDuration := JS.Math_floor ((now - startTime s) / 1000)%Q;
       greenZoneTime := greenZoneTime s;
       peakVolume := peakVolume s;
       consistencyScore :=
         if greenZoneTime s =? 0 then 0
         else Z.max 0 (100 - Z.min (dropCount s * 5) 80);
       dropCount := dropCount s;
       stateHistory := stateHistory s;
       currentState := currentState s;
       lastGreenTime := lastGreenTime s |} in
  let fresh :=
    {| sessionId := {| idTimestamp := now; idRandom := random |};
       startTime := now;
       totalDuration := 0;
       greenZoneTime := 0;
       peakVolume := 0;
       consistencyScore := 100;
       dropCount := 0;
       stateHistory := [];
       currentState := "SILENT";
       lastGreenTime := None |} in
  let ended := endSession now tr w in
  let started := startSession now random tr w in
  (* the old session is ended and finalised first *)
  fst (fst ended) = Some summary /\
  currentSession (snd (fst ended)) = Some summary /\
  isTracking (snd (fst ended)) = false /\
  timerInterval (snd (fst ended)) = None /\
  started = startSession now random (snd (fst ended)) (snd ended) /\
  (* it is saved *)
  storedSessions (snd ended)
    = (if storageAvailable w
       then firstn 50 (summary :: storedSessions w)
       else storedSessions w) /\
  storedSessions (snd started) = storedSessions (snd ended) /\
  (* the new session replaces it *)
  currentSession (fst started) = Some fresh /\
  isTracking (fst started) = true /\
  timerInterval (fst started) = Some (nextTimerId w) /\
  (forall id, timerInterval tr = Some id ->
     (id <> nextTimerId w -> ~ In id (activeTimers (snd started))) /\
     (activeTimers w = [id] -> activeTimers (snd started) = [nextTimerId w])) /\
  (* with nothing to end: [null], and nothing changes *)
  (forall tr0 w0, isTracking tr0 = false \/ currentSession tr0 = None ->
     endSession now tr0 w0 = (None, tr0, w0)).
Proof.
  intros Ht Hs summary fresh ended started.
  assert (E : finalize now tr s = summary) by reflexivity.
  subst ended started. unfold startSession. rewrite Ht.
  rewrite (endSession_active now tr w s Ht Hs). rewrite E.
  cbn [fst snd isTracking timerInterval currentSession].
  split; [reflexivity|]. split; [reflexivity|]. split; [reflexivity|].
  split; [reflexivity|]. split; [reflexivity|].
  split.
  { unfold saveSessionToHistory.
    destruct (timerInterval tr); cbn; destruct (storageAvailable w);
      reflexivity. }
  split; [reflexivity|].
  split; [reflexivity|].
  split; [reflexivity|].
  split.
  { unfold saveSessionToHistory, setInterval.
    destruct (timerInterval tr); cbn; destruct (storageAvailable w);
      reflexivity. }
  split; [|intros tr0 w0; apply endSession_inactive].
  intros id Hid. rewrite Hid. split.
  - intros Hne.
    unfold saveSessionToHistory, setInterval.
    cbn. destruct (storageAvailable w); cbn;
      rewrite in_app_iff; intros [H|[H|[]]];
      try (apply (clearInterval_not_in id w); exact H);
      congruence.
  - intros Hw.
    unfold saveSessionToHistory, setInterval, clearInterval.
    cbn. rewrite Hw. cbn. rewrite Pos.eqb_refl. cbn.
    destruct (storageAvailable w); reflexivity.
Qed.

Lemma startSession_ends_active_witness :
  let s := mkSession (mkId 1000 "k3j9x2a7q") 1000 2 1 50 100 17
             [mkEntry "OPTIMAL" 1500 50] "LOW" None in
  let tr := mk (Some s) true (Some 1%positive) in
  let w := mkWorld true [] [1%positive] 2%positive in
  let started := startSession 4000 "p0q8r5s1t" tr w in
  storedSessions (snd started)
    = [mkSession (mkId 1000 "k3j9x2a7q") 1000 3 1 50 20 17
         [mkEntry "OPTIMAL" 1500 50] "LOW" None] /\
  currentSession (fst started)
    = Some (mkSession (mkId 4000 "p0q8r5s1t") 4000 0 0 0 100 0 []
              "SILENT" None) /\
  isTracking (fst started) = true /\
  activeTimers (snd started) = [2%positive] /\
  endSession 4000 constructor freshPage = (None, constructor, freshPage).
Proof.
  cbv zeta.
  destruct (startSession_ends_active 4000 "p0q8r5s1t"
              (mk (Some (mkSession (mkId 1000 "k3j9x2a7q") 1000 2 1 50 100 17
                           [mkEntry "OPTIMAL" 1500 50] "LOW" None))
                  true (Some 1%positive))
              (mkWorld true [] [1%positive] 2%positive)
              (mkSession (mkId 1000 "k3j9x2a7q") 1000 2 1 50 100 17
                 [mkEntry "OPTIMAL" 1500 50] "LOW" None)
              eq_refl eq_refl)
    as (_ & _ & _ & _ & _ & Hsaved & Hkept & Hnew & Htrack & _ & Htimers
        & Hnone).
  split; [rewrite Hkept; exact Hsaved|]. split; [exact Hnew|].
  split; [exact Htrack|].
  split; [exact (proj2 (Htimers 1%positive eq_refl) eq_refl)|].
  apply Hnone. left. reflexivity.
Defined.

End Sessions.

(** ** The tick: what reaches the envelope *)

Section Tick.
Import EcoLogroApp.

Lemma pushHistory_shape (v : Q) (h : list Q) :
  (length h < StateManager.historyMaxLength ->
     StateManager.pushHistory v h = h ++ [v])%nat%list /\
  (length h = StateManager.historyMaxLength ->
     StateManager.pushHistory v h = tl h ++ [v])%nat%list /\
  (length h <= StateManager.historyMaxLength ->
     length (StateManager.pushHistory v h) <= StateManager.historyMaxLength)%nat.
Proof.
  unfold StateManager.pushHistory, StateManager.historyMaxLength.
  rewrite length_app. cbn [length].
  destruct (Nat.ltb_spec 5 (length h + 1)) as [H|H].
  - split; [lia|]. split.
    + intros _. destruct h; [cbn in H; lia|reflexivity].
    + intros Hle. destruct h; [cbn in H; lia|].
      cbn in *. rewrite length_app. cbn. lia.
  - split; [reflexivity|]. split; [lia|].
    intros _. rewrite length_app. cbn. lia.
Qed.

Lemma updateState_currentState (v : Q) (sm : StateManager.t) :
  StateManager.currentState (snd (fst (StateManager.updateState v sm)))
    = StateManager.determineState v sm /\
  StateManager.volumeHistory (snd (fst (StateManager.updateState v sm)))
    = StateManager.volumeHistory sm /\
  StateManager.config (snd (fst (StateManager.updateState v sm)))
    = StateManager.config sm.
Proof.
  unfold StateManager.updateState. cbn.
  destruct (String.eqb_spec (StateManager.determineState v sm)
                            (StateManager.currentState sm)) as [E|E];
    cbn; repeat split; congruence.
Qed.

(** C1 (amended).  On every tick that is not paused, whatever the
    dampening, the value fed to the hold-and-decay envelope is the
    conditioned sample itself, the classifier is fed the value the
    envelope shows, and the history of the dampening is not touched.
    [applyDampening], which the tick does not call, pushes the sample on
    a history of capacity 5 that drops its oldest entry when full, then
    returns the sample unchanged when the dampening is 0 and
    [sample*(1-d) + mean(history)*d] with [d = dampening/100]
    otherwise. *)
Theorem handleVolumeUpdate_feeds_sample
    (Math_sqrt : Q -> Q) (now volume : Q) (app : t) :
  isPaused app = false ->
  let sample := AudioAnalyzer.getRMSVolume Math_sqrt (audioAnalyzer app) in
  let app1 := updateThermometer now sample app in
  let app' := fst (handleVolumeUpdate Math_sqrt now volume app) in
  (lastSignificantVolume app' = lastSignificantVolume app1 /\
   lastVolumeTimestamp app' = lastVolumeTimestamp app1 /\
   displayedVolume app' = displayedVolume app1) /\
  StateManager.currentState (stateManager app')
    = StateManager.determineState (displayedVolume app1) (stateManager app) /\
  StateManager.volumeHistory (stateManager app')
    = StateManager.volumeHistory (stateManager app) /\
  (forall v sm,
     let d := StateManager.dampening (StateManager.config sm) / 100 in
     let h := StateManager.volumeHistory sm in
     let h' := StateManager.volumeHistory (snd (StateManager.applyDampening v sm)) in
     let mean := JS.sum h' / inject_Z (Z.of_nat (length h')) in
     (length h < 5 -> h' = h ++ [v])%nat%list /\
     (length h = 5 -> h' = tl h ++ [v])%nat%list /\
     (length h <= 5 -> length h' <= 5)%nat /\
     (StateManager.dampening (StateManager.config sm) == 0 ->
        fst (StateManager.applyDampening v sm) = v) /\
     (~ StateManager.dampening (StateManager.config sm) == 0 ->
        fst (StateManager.applyDampening v sm) = v * (1 - d) + mean * d)).
Proof.
  intros Hp sample app1 app'.
  assert (Happ' : app' =
    fst (let '(stateData, sm, calls) :=
           StateManager.updateState (displayedVolume app1) (stateManager app1) in
         ({| audioAnalyzer := audioAnalyzer app1;
             stateManager := sm;
             sessionTracker :=
               SessionTracker.updateState now stateData (sessionTracker app1);
             isRunning := isRunning app1;
             isPaused := isPaused app1;
             lastSignificantVolume := lastSignificantVolume app1;
             lastVolumeTimestamp := lastVolumeTimestamp app1;
             volumeHoldDuration := volumeHoldDuration app1;
             displayedVolume := displayedVolume app1 |}, calls))).
  { subst app'. unfold handleVolumeUpdate, afterSample. rewrite Hp.
    reflexivity. }
  assert (Hsm : stateManager app1 = stateManager app).
  { subst app1. unfold updateThermometer.
    repeat match goal with |- context [if ?b then _ else _] => destruct b end;
      reflexivity. }
  destruct (updateState_currentState (displayedVolume app1) (stateManager app1))
    as (Ec & Eh & _).
  destruct (StateManager.updateState (displayedVolume app1) (stateManager app1))
    as [[stateData sm] calls].
  cbn [fst snd] in *. rewrite Happ'. cbn [lastSignificantVolume
    lastVolumeTimestamp displayedVolume stateManager].
  split; [repeat split|].
  split; [rewrite Ec, Hsm; reflexivity|].
  split; [rewrite Eh, Hsm; reflexivity|].
  intros v sm0. cbv zeta.
  destruct (pushHistory_shape v (StateManager.volumeHistory sm0))
    as (P1 & P2 & P3).
  unfold StateManager.applyDampening.
  destruct (eqb_spec (StateManager.dampening (StateManager.config sm0)) 0)
    as [E|E]; cbn [fst snd StateManager.volumeHistory
                   StateManager.with_volumeHistory];
    (split; [exact P1|]); (split; [exact P2|]); (split; [exact P3|]);
    split; intros; first [reflexivity | contradiction].
Qed.

Lemma handleVolumeUpdate_feeds_sample_witness :
  let app := fst (Startup.firstVisit 900 "k3j9x2a7q") in
  let app' := fst (handleVolumeUpdate JS.sqrtOfSquare 1000 0 app) in
  displayedVolume app' = displayedVolume (updateThermometer 1000 0 app) /\
  StateManager.volumeHistory (stateManager app') = [] /\
  fst (StateManager.applyDampening 100
         (StateManager.with_volumeHistory [50] StateManager.constructor))
    = 100 * (1 - 20 / 100) + (JS.sum [50; 100] / inject_Z 2) * (20 / 100).
Proof.
  cbv zeta.
  destruct (handleVolumeUpdate_feeds_sample JS.sqrtOfSquare 1000 0
              (fst (Startup.firstVisit 900 "k3j9x2a7q"))
              ltac:(vm_compute; reflexivity))
    as ((_ & _ & Hd) & _ & Hh & Hdamp).
  split; [exact Hd|]. split; [exact Hh|].
  destruct (Hdamp 100 (StateManager.with_volumeHistory [50]
                         StateManager.constructor))
    as (_ & _ & _ & _ & Hne).
  apply Hne. vm_compute. discriminate.
Defined.

(** A frame whose bins all hold [b]: the mean of the squares is the
    square of [b/255]. *)
Lemma squareSum_repeat (b : Z) (n : nat) :
  AudioAnalyzer.squareSum (repeat b n)
  == inject_Z (Z.of_nat n) * (inject_Z b / 255 * (inject_Z b / 255)).
Proof.
  unfold AudioAnalyzer.squareSum.
  assert (H : forall acc,
    fold_left (fun sum b0 => let normalized := inject_Z b0 / 255 in
                             sum + normalized * normalized) (repeat b n) acc
    == acc + inject_Z (Z.of_nat n) * (inject_Z b / 255 * (inject_Z b / 255))).
  { induction n as [|n IH]; intros acc.
    - cbn [repeat fold_left]. change (inject_Z (Z.of_nat 0)) with 0. ring.
    - cbn [repeat fold_left]. rewrite IH.
      rewrite Nat2Z.inj_succ. unfold Z.succ. rewrite inject_Z_plus.
      cbv zeta. change (inject_Z 1) with 1. ring. }
  rewrite H. ring.
Qed.

Lemma sqrtOfSquare_eq (x y : Q) :
  x == y -> JS.sqrtOfSquare x = JS.sqrtOfSquare y.
Proof.
  intros E. unfold JS.sqrtOfSquare. rewrite (Qred_complete x y E). reflexivity.
Qed.

Lemma rmsOf_repeat (b : Z) (n : nat) :
  (0 < n)%nat ->
  AudioAnalyzer.rmsOf JS.sqrtOfSquare (repeat b n)
  = JS.sqrtOfSquare (inject_Z b / 255 * (inject_Z b / 255)).
Proof.
  intros Hn. unfold AudioAnalyzer.rmsOf. apply sqrtOfSquare_eq.
  rewrite squareSum_repeat. unfold AudioAnalyzer.bufferLength.
  rewrite repeat_length.
  rewrite (Qmult_comm (inject_Z (Z.of_nat n))).
  apply Qdiv_mult_l.
  intros E. unfold Qeq in E. cbn in E. lia.
Qed.

(** A frame on an analysing, unpaused application is the tick on the
    sample that the frame conditions to. *)
Lemma analyze_frame (now : Q) (b : Z) (n : nat) (app : t) :
  (0 < n)%nat ->
  AudioAnalyzer.isAnalyzing (audioAnalyzer app) = true ->
  isPaused app = false ->
  let a := AudioAnalyzer.getByteFrequencyData (repeat b n) (audioAnalyzer app) in
  let sample :=
    AudioAnalyzer.gate
      (JS.sqrtOfSquare (inject_Z b / 255 * (inject_Z b / 255))) in
  analyze JS.sqrtOfSquare now (repeat b n) app
    = fst (afterSample now sample (with_audioAnalyzer a app)) /\
  Specified.analyze JS.sqrtOfSquare now (repeat b n) app
    = fst (Specified.afterSample now sample (with_audioAnalyzer a app)).
Proof.
  intros Hn Ha Hp. cbv zeta.
  unfold analyze, Specified.analyze. rewrite Ha.
  unfold handleVolumeUpdate, Specified.handleVolumeUpdate.
  cbn [isPaused with_audioAnalyzer audioAnalyzer]. rewrite Hp.
  unfold AudioAnalyzer.getRMSVolume.
  cbn [AudioAnalyzer.dataArray AudioAnalyzer.getByteFrequencyData].
  rewrite (rmsOf_repeat b n Hn). split; reflexivity.
Qed.

(** C1 as stated fails.  After a first visit, with the default
    dampening of 20, two frames whose conditioned samples are 50 and
    then 100: the source's
    tick shows 100, the sample itself; the dampened average of the
    specification, 100*0.8 + mean(50,100)*0.2 = 95, is what the
    specified tick shows. *)
Lemma handleVolumeUpdate_not_dampened :
  let frame1 := repeat 51%Z 1024 in
  let frame2 := repeat 102%Z 1024 in
  let app0 := fst (Startup.firstVisit 900 "k3j9x2a7q") in
  let app2 := analyze JS.sqrtOfSquare 1016 frame2
                (analyze JS.sqrtOfSquare 1000 frame1 app0) in
  let spec2 := Specified.analyze JS.sqrtOfSquare 1016 frame2
                 (Specified.analyze JS.sqrtOfSquare 1000 frame1 app0) in
  0 < StateManager.dampening (StateManager.config (stateManager app0)) /\
  displayedVolume app2 == 100 /\
  displayedVolume spec2 == 95 /\
  ~ displayedVolume app2 == displayedVolume spec2.
Proof.
  cbv zeta.
  assert (Hn : (0 < 1024)%nat) by (apply Nat.ltb_lt; vm_compute; reflexivity).
  destruct (analyze_frame 1000 51 1024
              (fst (Startup.firstVisit 900 "k3j9x2a7q"))
              Hn ltac:(vm_compute; reflexivity) ltac:(vm_compute; reflexivity))
    as [C1 S1].
  rewrite C1, S1.
  match goal with |- context [analyze _ 1016 _ ?app1] =>
    destruct (analyze_frame 1016 102 1024 app1 Hn) as [C2 _];
      [vm_compute; reflexivity .. | rewrite C2]
  end.
  match goal with |- context [Specified.analyze _ 1016 _ ?app1] =>
    destruct (analyze_frame 1016 102 1024 app1 Hn) as [_ S2];
      [vm_compute; reflexivity .. | rewrite S2]
  end.
  match goal with |- _ /\ ?x == _ /\ ?y == _ /\ _ =>
    assert (E1 : x == 100) by (vm_compute; reflexivity);
    assert (E2 : y == 95) by (vm_compute; reflexivity)
  end.
  split; [vm_compute; reflexivity|]. split; [exact E1|]. split; [exact E2|].
  rewrite E1, E2. intros H. discriminate H.
Qed.

End Tick.

(** * Further properties *)

(** ** The stabilizer, tick after tick *)

Section StabilizerMore.
Import EcoLogroApp Stabilizer.

Lemma updateThermometer_hold_duration (now v : Q) (app : t) :
  volumeHoldDuration (updateThermometer now v app) = volumeHoldDuration app.
Proof.
  unfold updateThermometer.
  repeat match goal with |- context [if ?b then _ else _] => destruct b end;
    reflexivity.
Qed.

(** X1.  After every tick, from any state, the held peak is at least
    the sample just fed and is either the peak held before or that
    sample, stamped with the time of the tick when it is taken on a
    rise; and outside the decay window — a rise, a tick within the
    hold, a tick past the window — the value shown is the held peak. *)
Theorem lastSignificantVolume_covers_sample (now v : Q) (app : t) :
  let app' := updateThermometer now v app in
  let elapsed := now - lastVolumeTimestamp app in
  let hold := volumeHoldDuration app in
  v <= lastSignificantVolume app' /\
  ((lastSignificantVolume app' = lastSignificantVolume app /\
    lastVolumeTimestamp app' = lastVolumeTimestamp app) \/
   (lastSignificantVolume app' = v /\ lastVolumeTimestamp app' = now)) /\
  (lastSignificantVolume app < v ->
     lastSignificantVolume app' = v /\ lastVolumeTimestamp app' = now) /\
  (lastSignificantVolume app < v \/ elapsed < hold \/ hold + 1000 <= elapsed ->
     displayedVolume app' == lastSignificantVolume app').
Proof.
  cbv zeta.
  destruct (Qlt_le_dec (lastSignificantVolume app) v) as [Hr|Hs].
  { rewrite (updateThermometer_rise now v app Hr). cbn.
    split; [lra|]. split; [right; split; reflexivity|].
    split; [intros _; split; reflexivity|]. intros _. reflexivity. }
  destruct (Qlt_le_dec (now - lastVolumeTimestamp app)
                       (volumeHoldDuration app)) as [Hh|Hh].
  { rewrite (updateThermometer_in_hold now v app Hs Hh). cbn.
    split; [exact Hs|]. split; [left; split; reflexivity|].
    split; [intros; lra|]. intros _. reflexivity. }
  destruct (Qlt_le_dec (now - lastVolumeTimestamp app)
                       (volumeHoldDuration app + 1000)) as [Hw|Hw].
  - destruct (updateThermometer_in_window now v app Hs Hh Hw) as [E _].
    rewrite E. cbn. split; [exact Hs|]. split; [left; split; reflexivity|].
    split; [intros; lra|]. intros [H|[H|H]]; lra.
  - destruct (updateThermometer_past_window now v app Hs Hw) as [E Ed].
    rewrite E. cbn. split; [lra|]. split; [right; split; reflexivity|].
    split; [intros; lra|]. intros _. rewrite E in Ed. cbn in Ed. exact Ed.
Qed.

(** X2.  Past the decay window — a sample that does not exceed the held
    peak, arriving [volumeHoldDuration + 1000] ms or more after it — the
    sample itself is shown and becomes the new peak, stamped [now]. *)
Theorem updateThermometer_decay_complete (now s : Q) (app : t) :
  s <= lastSignificantVolume app ->
  volumeHoldDuration app + 1000 <= now - lastVolumeTimestamp app ->
  let app' := updateThermometer now s app in
  displayedVolume app' == s /\
  lastSignificantVolume app' = s /\
  lastVolumeTimestamp app' = now.
Proof.
  intros Hs He.
  assert (Hh : volumeHoldDuration app <= now - lastVolumeTimestamp app) by lra.
  cbv zeta. rewrite (updateThermometer_past_hold now s app Hs Hh). cbv zeta.
  set (p := JS.Math_min 1 _).
  assert (Hp : p == 1).
  { subst p.
    destruct (Math_min_cases 1
                ((now - lastVolumeTimestamp app - volumeHoldDuration app) / 1000))
      as [[H1 H2]|[H1 H2]]; rewrite H2; [reflexivity|].
    rewrite div_1000 in *. lra. }
  destruct (geb_spec p 1) as [_|Hlt]; [|lra].
  cbn. repeat split. rewrite Hp. lra.
Qed.

Lemma updateThermometer_decay_complete_witness :
  let app := with_stabilizer 50 1000 50 constructor in
  let app' := updateThermometer 9000 10 app in
  displayedVolume app' == 10 /\
  lastSignificantVolume app' = 10 /\
  lastVolumeTimestamp app' = 9000.
Proof.
  apply (updateThermometer_decay_complete 9000 10
           (with_stabilizer 50 1000 50 constructor));
    vm_compute; congruence.
Defined.

(** X3.  While the hold lasts, nothing moves: over any run of ticks
    that all arrive before the hold of the current peak expires with
    samples not above that peak, the peak, its timestamp and the hold
    duration stay as they were and the peak is what is shown. *)
Theorem run_within_hold (ticks : list Tick) (app : t) :
  displayedVolume app = lastSignificantVolume app ->
  Forall (fun tv => snd tv <= lastSignificantVolume app /\
                    fst tv - lastVolumeTimestamp app < volumeHoldDuration app)
         ticks ->
  let app' := run ticks app in
  displayedVolume app' = lastSignificantVolume app /\
  lastSignificantVolume app' = lastSignificantVolume app /\
  lastVolumeTimestamp app' = lastVolumeTimestamp app /\
  volumeHoldDuration app' = volumeHoldDuration app.
Proof.
  intros HD Hticks. cbv zeta. revert HD.
  induction ticks as [|[now v] ticks IH] using rev_ind; intros HD.
  - cbn. repeat split. exact HD.
  - apply Forall_app in Hticks as [Hinit Hlast].
    specialize (IH Hinit HD). destruct IH as (I1 & I2 & I3 & I4).
    inversion Hlast as [|? ? [Hv Ht] _]; subst. cbn [fst snd] in *.
    unfold run in *. rewrite fold_left_app. cbn [fold_left].
    set (mid := fold_left tick ticks app) in *.
    assert (E : tick mid (now, v) =
                with_stabilizer (lastSignificantVolume mid)
                  (lastVolumeTimestamp mid) (lastSignificantVolume mid) mid).
    { unfold tick. cbn [fst snd]. apply updateThermometer_in_hold;
        rewrite ?I2, ?I3, ?I4; assumption. }
    rewrite E. cbn. rewrite I2, I3, I4. repeat split.
Qed.

Lemma run_within_hold_witness :
  let app := with_stabilizer 50 1000 50 constructor in
  let app' := run [(1600, 50); (2200, 10); (2800, 10)] app in
  displayedVolume app' = 50 /\
  lastSignificantVolume app' = 50 /\
  lastVolumeTimestamp app' = 1000 /\
  volumeHoldDuration app' = 2000.
Proof.
  apply (run_within_hold [(1600, 50); (2200, 10); (2800, 10)]
           (with_stabilizer 50 1000 50 constructor)).
  - reflexivity.
  - repeat constructor; vm_compute; congruence.
Defined.

End StabilizerMore.

(** ** The conditioner and the raw average *)

Section ConditionerMore.
Import AudioAnalyzer.

(** X4.  The conditioned sample is 0 or at least 8, never in between,
    and a louder RMS never gives a lower sample. *)
Theorem gate_floor_monotone (rms1 rms2 : Q) :
  (gate rms1 = 0 \/ 8 <= gate rms1) /\
  (rms1 <= rms2 -> gate rms1 <= gate rms2).
Proof.
  unfold gate. split.
  - destruct (ltb_spec (JS.Math_min 100 (rms1 * 250)) 8); [left|right];
      [reflexivity|assumption].
  - intros Hle.
    destruct (Math_min_cases 100 (rms1 * 250)) as [[A1 A2]|[A1 A2]];
      destruct (Math_min_cases 100 (rms2 * 250)) as [[B1 B2]|[B1 B2]];
      destruct (ltb_spec (JS.Math_min 100 (rms1 * 250)) 8);
      destruct (ltb_spec (JS.Math_min 100 (rms2 * 250)) 8);
      lra.
Qed.

Lemma byteSum_bounds (data : list Z) (acc : Q) :
  Forall (fun b => 0 <= b <= 255)%Z data ->
  acc <= fold_left (fun sum b => sum + inject_Z b) data acc /\
  fold_left (fun sum b => sum + inject_Z b) data acc
    <= acc + 255 * inject_Z (Z.of_nat (length data)).
Proof.
  intros H. revert acc.
  induction H as [|b data [Hb0 Hb1] _ IH]; intros acc.
  - cbn [fold_left length]. change (inject_Z (Z.of_nat 0)) with 0. split; lra.
  - cbn [fold_left length]. destruct (IH (acc + inject_Z b)) as [I1 I2].
    rewrite Nat2Z.inj_succ. unfold Z.succ. rewrite inject_Z_plus.
    change (inject_Z 1) with 1.
    assert (0 <= inject_Z b) by (change 0 with (inject_Z 0); now rewrite <- Zle_Qle).
    assert (inject_Z b <= 255)
      by (change 255 with (inject_Z 255); now rewrite <- Zle_Qle).
    split; lra.
Qed.

Lemma squareSum_bounds (data : list Z) (acc : Q) :
  Forall (fun b => 0 <= b <= 255)%Z data ->
  acc <= fold_left (fun sum b => let normalized := inject_Z b / 255 in
                                 sum + normalized * normalized) data acc /\
  fold_left (fun sum b => let normalized := inject_Z b / 255 in
                          sum + normalized * normalized) data acc
    <= acc + inject_Z (Z.of_nat (length data)).
Proof.
  intros H. revert acc.
  induction H as [|b data [Hb0 Hb1] _ IH]; intros acc.
  - cbn [fold_left length]. change (inject_Z (Z.of_nat 0)) with 0. split; lra.
  - cbn [fold_left length].
    destruct (IH (acc + inject_Z b / 255 * (inject_Z b / 255))) as [I1 I2].
    rewrite Nat2Z.inj_succ. unfold Z.succ. rewrite inject_Z_plus.
    change (inject_Z 1) with 1.
    assert (0 <= inject_Z b) by (change 0 with (inject_Z 0); now rewrite <- Zle_Qle).
    assert (inject_Z b <= 255)
      by (change 255 with (inject_Z 255); now rewrite <- Zle_Qle).
    assert (E : inject_Z b / 255 == inject_Z b * (1 # 255)) by reflexivity.
    cbv zeta in *.
    assert (X0 : 0 <= inject_Z b / 255) by (rewrite E; lra).
    assert (X1 : inject_Z b / 255 <= 1) by (rewrite E; lra).
    set (x := inject_Z b / 255) in *.
    split; nra.
Qed.

Lemma length_pos_Q {A} (l : list A) :
  l <> [] -> 0 < inject_Z (Z.of_nat (length l)).
Proof.
  intros Hne. destruct l; [congruence|].
  change 0 with (inject_Z 0). rewrite <- Zlt_Qlt. cbn [length]. lia.
Qed.

(** X5.  On a non-empty buffer of bytes, [getCurrentVolume] is the mean
    of the bins scaled to a percentage, [mean/255*100]; it lies in
    [0,100] and its clamp never bites. *)
Theorem getCurrentVolume_mean (a : t) (data : list Z) :
  dataArray a = Some data -> data <> [] ->
  Forall (fun b => 0 <= b <= 255)%Z data ->
  let mean := fold_left (fun sum b => sum + inject_Z b) data 0
              / bufferLength data in
  getCurrentVolume a == mean / 255 * 100 /\
  0 <= getCurrentVolume a <= 100.
Proof.
  intros Hd Hne Hb. cbv zeta. unfold getCurrentVolume. rewrite Hd.
  unfold bufferLength.
  destruct (byteSum_bounds data 0 Hb) as [S0 S1].
  pose proof (length_pos_Q data Hne) as Hn.
  set (sum := fold_left _ data 0) in *.
  set (n := inject_Z (Z.of_nat (length data))) in *.
  assert (Hm0 : 0 <= sum / n) by (apply Qle_shift_div_l; lra).
  assert (Hm1 : sum / n <= 255) by (apply Qle_shift_div_r; lra).
  assert (E : sum / n / 255 * 100 == sum / n * (100 # 255)).
  { unfold Qdiv. change (/ 255) with (1 # 255). ring. }
  destruct (Math_min_cases 100 (sum / n / 255 * 100)) as [[H1 H2]|[H1 H2]];
    rewrite H2; rewrite E in *; split; try reflexivity; try lra.
Qed.

Lemma getCurrentVolume_mean_witness :
  let a := getByteFrequencyData [0; 51; 102; 255]%Z constructor in
  let mean := fold_left (fun sum b => sum + inject_Z b) [0; 51; 102; 255]%Z 0
              / bufferLength [0; 51; 102; 255]%Z in
  getCurrentVolume a == mean / 255 * 100 /\
  0 <= getCurrentVolume a <= 100.
Proof.
  apply (getCurrentVolume_mean
           (getByteFrequencyData [0; 51; 102; 255]%Z constructor)
           [0; 51; 102; 255]%Z).
  - reflexivity.
  - discriminate.
  - repeat constructor; vm_compute; congruence.
Defined.

(** X6.  On a non-empty buffer of bytes, the quantity whose square root
    [getRMSVolume] takes — the mean of the squared normalised bins — lies
    in [0,1]. *)
Theorem squareSum_normalised (data : list Z) :
  data <> [] ->
  Forall (fun b => 0 <= b <= 255)%Z data ->
  0 <= squareSum data / bufferLength data <= 1.
Proof.
  intros Hne Hb. unfold squareSum, bufferLength.
  destruct (squareSum_bounds data 0 Hb) as [S0 S1].
  pose proof (length_pos_Q data Hne) as Hn.
  split.
  - apply Qle_shift_div_l; [assumption|]. rewrite Qmult_0_l. exact S0.
  - apply Qle_shift_div_r; [assumption|]. rewrite Qmult_1_l.
    rewrite Qplus_0_l in S1. exact S1.
Qed.

Lemma squareSum_normalised_witness :
  0 <= squareSum [0; 51; 102; 255]%Z / bufferLength [0; 51; 102; 255]%Z <= 1.
Proof.
  apply (squareSum_normalised [0; 51; 102; 255]%Z).
  - discriminate.
  - repeat constructor; vm_compute; congruence.
Defined.

End ConditionerMore.

(** ** The classifier and the manager's state *)

Section ManagerMore.
Import StateManager.

(** X7.  Classification is monotone: a louder value is never put in a
    quieter zone, whatever the thresholds. *)
Theorem determineState_monotone (v1 v2 : Q) (sm : t) :
  v1 <= v2 ->
  (Runs.rank (determineState v1 sm) <= Runs.rank (determineState v2 sm))%nat.
Proof.
  intros Hle. rewrite !determineState_unfold.
  destruct (ltb_spec v1 3); destruct (ltb_spec v2 3);
    destruct (ltb_spec v1 (lowerThreshold (config sm)));
    destruct (ltb_spec v2 (lowerThreshold (config sm)));
    destruct (leb_spec v1 (upperThreshold (config sm)));
    destruct (leb_spec v2 (upperThreshold (config sm)));
    try lra; vm_compute; lia.
Qed.

Lemma determineState_monotone_witness :
  (Runs.rank (determineState 10 constructor)
   <= Runs.rank (determineState 50 constructor))%nat.
Proof.
  apply (determineState_monotone 10 50 constructor). vm_compute. congruence.
Defined.

(** X8.  [applySensitivity] returns a value in [0,100]; at a
    sensitivity of 50 it leaves every volume of [0,100] as it is. *)
Theorem applySensitivity_range (volume : Q) (sm : t) :
  0 <= applySensitivity volume sm <= 100 /\
  (sensitivity (config sm) == 50 -> 0 <= volume <= 100 ->
     applySensitivity volume sm == volume).
Proof.
  unfold applySensitivity. cbv zeta.
  set (adjusted := volume * ((1 # 2) + sensitivity (config sm) / 100)).
  split.
  - destruct (Math_min_cases 100 (JS.Math_max 0 adjusted)) as [[H1 H2]|[H1 H2]];
      destruct (Math_max_cases 0 adjusted) as [[H3 H4]|[H3 H4]];
      rewrite H2; rewrite ?H4 in *; split; lra.
  - intros Hs Hv.
    assert (Ea : adjusted == volume).
    { subst adjusted. rewrite Hs. field. }
    destruct (Math_min_cases 100 (JS.Math_max 0 adjusted)) as [[H1 H2]|[H1 H2]];
      destruct (Math_max_cases 0 adjusted) as [[H3 H4]|[H3 H4]];
      rewrite H2; rewrite ?H4 in *; lra.
Qed.

Lemma tl_skipn {A} (n : nat) (l : list A) :
  tl (skipn n l) = skipn (S n) l.
Proof.
  revert l. induction n as [|n IH]; intros l.
  - destruct l; reflexivity.
  - destruct l as [|x l]; [reflexivity|]. cbn [skipn]. rewrite IH. reflexivity.
Qed.

Lemma pushHistory_last5 (v : Q) (l : list Q) :
  pushHistory v (skipn (length l - 5) l)
  = skipn (length (l ++ [v]) - 5) (l ++ [v]).
Proof.
  rewrite length_app. cbn [length].
  destruct (pushHistory_shape v (skipn (length l - 5) l)) as (P1 & P2 & _).
  unfold historyMaxLength in *. rewrite length_skipn in *.
  destruct (Nat.lt_ge_cases (length l) 5) as [H|H].
  - rewrite P1 by lia.
    replace (length l - 5)%nat with 0%nat by lia.
    replace (length l + 1 - 5)%nat with 0%nat by lia.
    reflexivity.
  - rewrite P2 by lia.
    replace (length l + 1 - 5)%nat with (S (length l - 5)) by lia.
    rewrite skipn_app.
    replace (S (length l - 5) - length l)%nat with 0%nat by lia.
    cbn [skipn]. f_equal. apply tl_skipn.
Qed.

Lemma dampen_snoc (samples : list Q) (v : Q) (sm : t) :
  Runs.dampen (samples ++ [v]) sm
  = snd (applyDampening v (Runs.dampen samples sm)).
Proof. unfold Runs.dampen. rewrite fold_left_app. reflexivity. Qed.

Lemma applyDampening_history (v : Q) (sm : t) :
  volumeHistory (snd (applyDampening v sm))
  = pushHistory v (volumeHistory sm).
Proof. unfold applyDampening. destruct (JS.eqb _ _); reflexivity. Qed.

(** X9.  The dampening history is a sliding window: after
    [applyDampening] ran on a series of samples, starting from an empty
    history, the history holds the last five samples (all of them when
    fewer), oldest first. *)
Theorem dampen_window (samples : list Q) (sm : t) :
  volumeHistory sm = [] ->
  volumeHistory (Runs.dampen samples sm)
  = skipn (length samples - 5) samples /\
  (length (volumeHistory (Runs.dampen samples sm)) <= 5)%nat.
Proof.
  intros H0.
  assert (E : volumeHistory (Runs.dampen samples sm)
              = skipn (length samples - 5) samples).
  { induction samples as [|v samples IH] using rev_ind.
    - exact H0.
    - rewrite dampen_snoc, applyDampening_history, IH.
      apply pushHistory_last5. }
  split; [exact E|]. rewrite E, length_skipn. lia.
Qed.

Lemma dampen_window_witness :
  let samples : list Q := [10; 20; 30; 40; 50; 60; 70] in
  volumeHistory (Runs.dampen samples constructor)
  = skipn (length samples - 5) samples /\
  (length (volumeHistory (Runs.dampen samples constructor)) <= 5)%nat.
Proof.
  apply (dampen_window [10; 20; 30; 40; 50; 60; 70] constructor). reflexivity.
Defined.

(** X10.  At full dampening the sample weighs nothing of its own:
    with a dampening of 100, [applyDampening] returns the mean of the
    history window after the sample joined it — the sample itself on an
    empty history, a fifth of the sum of the sample and the last four
    entries on a history of four or of five. *)
Theorem applyDampening_full (v : Q) (sm : t) :
  dampening (config sm) == 100 ->
  let h := volumeHistory sm in
  let h' := volumeHistory (snd (applyDampening v sm)) in
  fst (applyDampening v sm) == JS.sum h' / inject_Z (Z.of_nat (length h')) /\
  (h = [] -> fst (applyDampening v sm) == v) /\
  (forall a b c d, h = [a; b; c; d] ->
     fst (applyDampening v sm) == (a + b + c + d + v) / 5) /\
  (forall x a b c d, h = [x; a; b; c; d] ->
     h' = [a; b; c; d; v] /\
     fst (applyDampening v sm) == (a + b + c + d + v) / 5).
Proof.
  intros Hd. cbv zeta. unfold applyDampening.
  destruct (eqb_spec (dampening (config sm)) 0) as [E|E]; [lra|].
  cbn [fst snd volumeHistory with_volumeHistory].
  assert (Ed : dampening (config sm) / 100 == 1)
    by (rewrite Hd; reflexivity).
  assert (Em : forall m : Q, v * (1 - dampening (config sm) / 100)
                    + m * (dampening (config sm) / 100) == m)
    by (intros m; rewrite Ed; ring).
  split; [apply Em|]. split; [|split].
  - intros ->. rewrite Em. cbn. unfold JS.sum. cbn.
    unfold Qdiv. change (/ inject_Z (Z.of_nat 1)) with 1. ring.
  - intros a b c d ->. rewrite Em. cbn. unfold JS.sum. cbn.
    unfold Qdiv. change (/ inject_Z (Z.of_nat 5)) with (/ 5). ring.
  - intros x a b c d ->. split; [reflexivity|].
    rewrite Em. cbn. unfold JS.sum. cbn.
    unfold Qdiv. change (/ inject_Z (Z.of_nat 5)) with (/ 5). ring.
Qed.

Lemma applyDampening_full_witness :
  let sm :=
    with_volumeHistory [10; 20; 30; 40; 50]
      (updateConfiguration
         {| newLowerThreshold := None; newUpperThreshold := None;
            newSensitivity := None; newDampening := Some 100;
            newPersistenceDuration := None; newStudentName := None;
            newLastUpdated := None |}
         constructor) in
  volumeHistory (snd (applyDampening 60 sm)) = [20; 30; 40; 50; 60] /\
  fst (applyDampening 60 sm) == 40.
Proof.
  cbv zeta.
  destruct (applyDampening_full 60
              (with_volumeHistory [10; 20; 30; 40; 50]
                 (updateConfiguration
                    {| newLowerThreshold := None; newUpperThreshold := None;
                       newSensitivity := None; newDampening := Some 100;
                       newPersistenceDuration := None; newStudentName := None;
                       newLastUpdated := None |}
                    constructor)))
    as (_ & _ & _ & H5).
  - vm_compute. reflexivity.
  - destruct (H5 10 20 30 40 50 eq_refl) as [Hh Hm].
    split; [exact Hh|]. rewrite Hm. reflexivity.
Defined.

Lemma updateState_config (v : Q) (sm : t) :
  config (snd (fst (updateState v sm))) = config sm /\
  stateChangeListeners (snd (fst (updateState v sm)))
    = stateChangeListeners sm.
Proof.
  unfold updateState. cbn.
  destruct (negb (determineState v sm =? currentState sm)%string);
    split; reflexivity.
Qed.

(** X11.  A state is announced once.  [updateState] calls the listeners
    exactly when the classified state differs from the current one —
    each listener once, in registration order, with the new state and
    the state left — and feeding the same volume again right after
    reports no change and calls nobody. *)
Theorem updateState_announces_once (v : Q) (sm : t) :
  let '(stateData, sm', calls) := updateState v sm in
  sdStateChanged stateData
    = negb (String.eqb (determineState v sm) (currentState sm)) /\
  (sdStateChanged stateData = false -> calls = []) /\
  (sdStateChanged stateData = true ->
     map fst calls = stateChangeListeners sm /\
     Forall (fun call => chState (snd call) = determineState v sm /\
                         chPreviousState (snd call) = Some (currentState sm))
            calls) /\
  sdStateChanged (fst (fst (updateState v sm'))) = false /\
  snd (updateState v sm') = [].
Proof.
  destruct (updateState_currentState v sm) as (Ec & _ & _).
  destruct (updateState_config v sm) as (Ecfg & _).
  destruct (updateState v sm) as [[stateData sm'] calls] eqn:Eu.
  cbn [fst snd] in *.
  assert (Ed : determineState v sm' = determineState v sm).
  { rewrite !determineState_unfold, Ecfg. reflexivity. }
  assert (Eagain : negb (determineState v sm' =? currentState sm')%string = false).
  { rewrite Ed, Ec, String.eqb_refl. reflexivity. }
  unfold updateState in Eu. cbn in Eu.
  split; [|split; [|split; [|split]]].
  - injection Eu as <- _ _. reflexivity.
  - injection Eu as <- _ <-. cbn. intros ->. reflexivity.
  - injection Eu as <- _ <-. cbn. intros ->.
    unfold notifyStateChange. cbn. split.
    + rewrite map_map. cbn. apply map_id.
    + apply Forall_map. apply Forall_forall. intros l _. cbn. split; reflexivity.
  - unfold updateState. cbn. exact Eagain.
  - unfold updateState. cbn. rewrite Eagain. reflexivity.
Qed.

End ManagerMore.

(** ** The session tracker over a session *)

Section TrackerMore.
Import SessionTracker.
Local Open Scope Z_scope.

Lemma Math_round_nonneg (x : Q) : (0 <= x)%Q -> 0 <= JS.Math_round x.
Proof.
  intros H. unfold JS.Math_round.
  change 0 with (Qfloor 0). apply Qfloor_resp_le. lra.
Qed.

Lemma Math_round_above (x : Q) (z : Z) :
  (inject_Z z <= x)%Q -> z <= JS.Math_round x.
Proof.
  intros H. unfold JS.Math_round.
  rewrite <- (Qfloor_Z z). apply Qfloor_resp_le. lra.
Qed.

Lemma Math_round_close (x : Q) : (x < inject_Z (JS.Math_round x) + (1 # 2))%Q.
Proof.
  unfold JS.Math_round.
  pose proof (Qlt_floor (x + (1 # 2))) as H.
  rewrite inject_Z_plus in H. change (inject_Z 1) with 1%Q in H. lra.
Qed.

Lemma step_counting (k : Z) (tr : t) (e : Runs.Event) :
  Runs.counting k tr ->
  Runs.counting (match e with Runs.Timer _ => k + 1 | _ => k end) (Runs.step tr e).
Proof.
  intros (Ht & s & Hs & Hg & Hd & Hp). destruct e as [now d|now]; cbn [Runs.step].
  - unfold updateState. rewrite Ht, Hs. split; [exact Ht|].
    eexists. split; [reflexivity|]. cbn.
    split; [exact Hg|]. split.
    + destruct (StateManager.sdStateChanged d); cbn.
      * rewrite length_app. cbn [length].
        destruct ((currentState s =? "OPTIMAL")%string
                  && negb (StateManager.sdState d =? "OPTIMAL")%string)%bool; lia.
      * lia.
    + destruct (gtb_spec (StateManager.sdVolume d) (inject_Z (peakVolume s)));
        [|exact Hp].
      apply Math_round_nonneg.
      assert (0 <= inject_Z (peakVolume s))%Q
        by (change 0%Q with (inject_Z 0); now rewrite <- Zle_Qle).
      lra.
  - unfold updateTimer. rewrite Hs. split; [exact Ht|].
    eexists. split; [reflexivity|]. cbn.
    split; [|split; assumption].
    destruct (currentState s =? "OPTIMAL")%string; lia.
Qed.

Lemma beats_from (events : list Runs.Event) (k : Z) :
  fold_left (fun n e => match e with Runs.Timer _ => n + 1 | _ => n end)
            events k
  = k + Runs.beats events.
Proof.
  unfold Runs.beats. revert k.
  induction events as [|e events IH]; intros k; cbn [fold_left]; [lia|].
  rewrite IH. rewrite (IH (match e with Runs.Timer _ => 0 + 1 | _ => 0 end)).
  destruct e; lia.
Qed.

Lemma run_counting (events : list Runs.Event) (k : Z) (tr : t) :
  Runs.counting k tr ->
  Runs.counting (k + Runs.beats events) (Runs.run events tr).
Proof.
  revert k tr. induction events as [|e events IH]; intros k tr H.
  - unfold Runs.beats. cbn. replace (k + 0) with k by lia. exact H.
  - cbn [Runs.run fold_left]. fold (Runs.run events (Runs.step tr e)).
    pose proof (IH _ _ (step_counting k tr e H)) as H'.
    unfold Runs.beats. cbn [fold_left]. rewrite beats_from.
    destruct e; cbn in *;
      [replace (k + (0 + Runs.beats events)) with (k + Runs.beats events) by lia
      |replace (k + (0 + 1 + Runs.beats events))
         with (k + 1 + Runs.beats events) by lia];
      exact H'.
Qed.

(** X12.  Throughout a session — from [startSession] and over any
    series of state updates and timer beats — the tracker keeps
    tracking one session whose green time is between 0 and the number
    of beats, whose drop count is between 0 and the number of logged
    transitions, and whose peak is not negative; the consistency score
    it would get is then in [0,100]. *)
Theorem session_counters (now : Q) (random : string) (tr0 : t) (w : World)
    (events : list Runs.Event) :
  let tr := Runs.run events (fst (startSession now random tr0 w)) in
  isTracking tr = true /\
  exists s, currentSession tr = Some s /\
    0 <= greenZoneTime s <= Runs.beats events /\
    0 <= dropCount s <= Z.of_nat (length (stateHistory s)) /\
    0 <= peakVolume s /\
    0 <= calculateConsistency tr <= 100.
Proof.
  cbv zeta.
  assert (H0 : Runs.counting 0 (fst (startSession now random tr0 w))).
  { unfold startSession.
    destruct (isTracking tr0); [destruct (endSession now tr0 w) as [[? ?] ?]|];
      cbn; (split; [reflexivity|]);
      (eexists; split; [reflexivity|]); cbn; lia. }
  destruct (run_counting events 0 _ H0) as (Ht & s & Hs & Hg & Hd & Hp).
  split; [exact Ht|]. exists s. split; [exact Hs|].
  split; [lia|]. split; [exact Hd|]. split; [exact Hp|].
  unfold calculateConsistency. rewrite Hs.
  destruct (greenZoneTime s =? 0); lia.
Qed.

(** X13.  [updateState] on a tracking tracker never lowers the peak,
    and leaves a peak that covers the volume just seen up to rounding:
    the volume is below the peak plus one half. *)
Theorem peakVolume_running_max (now : Q) (d : StateManager.StateData)
    (tr : t) (s : Session) :
  isTracking tr = true -> currentSession tr = Some s ->
  exists s', currentSession (updateState now d tr) = Some s' /\
    peakVolume s <= peakVolume s' /\
    (StateManager.sdVolume d < inject_Z (peakVolume s') + (1 # 2))%Q.
Proof.
  intros Ht Hs. unfold updateState. rewrite Ht, Hs.
  eexists. split; [reflexivity|]. cbn.
  destruct (gtb_spec (StateManager.sdVolume d) (inject_Z (peakVolume s)))
    as [H|H].
  - split; [apply Math_round_above, Qlt_le_weak, H|apply Math_round_close].
  - split; [lia|lra].
Qed.

Lemma peakVolume_running_max_witness :
  let s := newSession 1000 "k3j9x2a7q" in
  let tr := mk (Some s) true (Some 1%positive) in
  let d := StateManager.mkData "OPTIMAL" (427 # 10) true None None true in
  exists s', currentSession (updateState 1500 d tr) = Some s' /\
    peakVolume s <= peakVolume s' /\
    (StateManager.sdVolume d < inject_Z (peakVolume s') + (1 # 2))%Q.
Proof.
  apply (peakVolume_running_max 1500
           (StateManager.mkData "OPTIMAL" (427 # 10) true None None true)
           (mk (Some (newSession 1000 "k3j9x2a7q")) true (Some 1%positive))
           (newSession 1000 "k3j9x2a7q")); reflexivity.
Defined.

(** X14.  [getSuccessPercentage] never exceeds 100; it is 0 when the
    duration is 0 or there is no session; with a green time and a
    duration that are not negative it is in [0,100], and it is 100 as
    soon as the green time reaches the duration. *)
Theorem getSuccessPercentage_range (tr : t) :
  getSuccessPercentage tr <= 100 /\
  (currentSession tr = None -> getSuccessPercentage tr = 0) /\
  (forall s, currentSession tr = Some s ->
     (totalDuration s = 0 -> getSuccessPercentage tr = 0) /\
     (0 <= greenZoneTime s -> 0 <= totalDuration s ->
        0 <= getSuccessPercentage tr) /\
     (0 < totalDuration s <= greenZoneTime s ->
        getSuccessPercentage tr = 100)).
Proof.
  unfold getSuccessPercentage.
  destruct (currentSession tr) as [s|]; [|repeat split; try lia; discriminate].
  split; [destruct (totalDuration s =? 0); lia|].
  split; [discriminate|].
  intros ? [= <-].
  destruct (Z.eqb_spec (totalDuration s) 0) as [E|E];
    [repeat split; lia|].
  split; [lia|]. split.
  - intros Hg Ht.
    assert (0 < inject_Z (totalDuration s))%Q
      by (change 0%Q with (inject_Z 0); rewrite <- Zlt_Qlt; lia).
    assert (0 <= inject_Z (greenZoneTime s))%Q
      by (change 0%Q with (inject_Z 0); now rewrite <- Zle_Qle).
    apply Z.min_glb; [lia|]. apply Math_round_nonneg.
    apply Qmult_le_0_compat; [|lra].
    apply Qle_shift_div_l; [assumption|lra].
  - intros [Ht Hg].
    assert (0 < inject_Z (totalDuration s))%Q
      by (change 0%Q with (inject_Z 0); rewrite <- Zlt_Qlt; lia).
    assert (inject_Z (totalDuration s) <= inject_Z (greenZoneTime s))%Q
      by (now rewrite <- Zle_Qle).
    assert (1 <= inject_Z (greenZoneTime s) / inject_Z (totalDuration s))%Q
      by (apply Qle_shift_div_l; [assumption|lra]).
    apply Z.min_l. apply Math_round_above.
    change (inject_Z 100) with 100%Q. lra.
Qed.

Lemma firstn_cons_cap {A} (x : A) (l : list A) :
  (length l <= 50)%nat ->
  (length (firstn 50 (x :: l)) <= 50)%nat /\
  (length l < 50 -> firstn 50 (x :: l) = x :: l)%nat /\
  (length l = 50 -> firstn 50 (x :: l) = x :: removelast l)%nat.
Proof.
  intros Hl. split; [rewrite length_firstn; lia|]. split.
  - intros H. apply firstn_all2. cbn [length]. lia.
  - intros H. change (firstn 50 (x :: l)) with (x :: firstn 49 l).
    f_equal. rewrite removelast_firstn_len. rewrite H. reflexivity.
Qed.

(** X15.  [saveSessionToHistory] on a working storage holding at most
    50 sessions puts the session first and keeps at most 50: below the
    cap nothing is lost, at the cap the oldest — the last — is dropped.
    When the storage throws, nothing is written. *)
Theorem saveSessionToHistory_cap (session : Session) (w : World) :
  (length (storedSessions w) <= 50)%nat ->
  let w' := saveSessionToHistory session w in
  (storageAvailable w = false -> w' = w) /\
  (storageAvailable w = true ->
     getSessionHistory w' = firstn 50 (session :: getSessionHistory w) /\
     (length (storedSessions w') <= 50)%nat /\
     (length (storedSessions w) < 50 ->
        storedSessions w' = session :: storedSessions w)%nat /\
     (length (storedSessions w) = 50 ->
        storedSessions w' = session :: removelast (storedSessions w))%nat).
Proof.
  intros Hl. cbv zeta. unfold saveSessionToHistory, getSessionHistory.
  destruct (firstn_cons_cap session (storedSessions w) Hl) as (C1 & C2 & C3).
  destruct (storageAvailable w); split; try discriminate; try reflexivity.
  intros _. cbn. repeat split; assumption.
Qed.

Lemma saveSessionToHistory_cap_witness :
  let old := repeat (newSession 0 "a1b2c3d4e") 50 in
  let w := mkWorld true old [] 1%positive in
  let s := newSession 5000 "z9y8x7w6v" in
  let w' := saveSessionToHistory s w in
  (storageAvailable w = false -> w' = w) /\
  (storageAvailable w = true ->
     getSessionHistory w' = firstn 50 (s :: getSessionHistory w) /\
     (length (storedSessions w') <= 50)%nat /\
     (length (storedSessions w) < 50 ->
        storedSessions w' = s :: storedSessions w)%nat /\
     (length (storedSessions w) = 50 ->
        storedSessions w' = s :: removelast (storedSessions w))%nat).
Proof.
  apply (saveSessionToHistory_cap (newSession 5000 "z9y8x7w6v")
           (mkWorld true (repeat (newSession 0 "a1b2c3d4e") 50) []
              1%positive)).
  apply Nat.leb_le. vm_compute. reflexivity.
Defined.

End TrackerMore.

(** ** The storage manager *)

Section StorageMore.
Import StorageManager.

(** X16.  [saveConfig] succeeds exactly when the storage was found
    available and does not throw; then [loadConfig] gives back the
    configuration stamped with the time of saving and the stored
    sessions are untouched; otherwise nothing is written. *)
Theorem saveConfig_loadConfig (now : Q) (config : StateManager.NewConfig)
    (st : t) (ls : LocalStorage) :
  let '(ok, ls') := saveConfig now config st ls in
  ok = storageAvailable st && negb (throws ls) /\
  (ok = true ->
     loadConfig st ls' = Some {| storedConfig := config; lastUpdated := now |} /\
     getSessions st ls' = getSessions st ls) /\
  (ok = false -> ls' = ls /\ loadConfig st ls' = loadConfig st ls).
Proof.
  unfold saveConfig, loadConfig, getSessions.
  destruct (storageAvailable st), (throws ls) eqn:Et; cbn;
    repeat split; try discriminate; try reflexivity.
  all: intros; rewrite ?Et; reflexivity.
Qed.

Lemma sameId_refl (a : SessionTracker.SessionId) : sameId a a = true.
Proof.
  unfold sameId, JS.eqb. rewrite String.eqb_refl, andb_true_r.
  apply Qeq_bool_iff. reflexivity.
Qed.

(** X17.  [saveSession] succeeds exactly when the storage was found
    available and does not throw; then the sessions read back are the
    new one followed by the former ones, cut to 50, and looking the new
    session up by its id finds it; otherwise nothing is written. *)
Theorem saveSession_getSessions (session : SessionTracker.Session) (st : t)
    (ls : LocalStorage) :
  let '(ok, ls') := saveSession session st ls in
  ok = storageAvailable st && negb (throws ls) /\
  (ok = true ->
     getSessions st ls' = firstn 50 (session :: getSessions st ls) /\
     (length (getSessions st ls') <= 50)%nat /\
     getSession (SessionTracker.sessionId session) st ls' = Some session /\
     loadConfig st ls' = loadConfig st ls) /\
  (ok = false -> ls' = ls).
Proof.
  unfold saveSession, getSession, loadConfig, getSessions.
  destruct (storageAvailable st), (throws ls) eqn:Et; cbn [negb andb];
    (split; [reflexivity|]); (split; [|try discriminate; reflexivity]);
    try discriminate.
  intros _. cbn [throws sessionsItem configItem negb].
  split; [reflexivity|]. split; [rewrite length_firstn; lia|].
  split; [|reflexivity].
  cbn [firstn List.find]. rewrite sameId_refl. reflexivity.
Qed.

Lemma find_filter_none {A} (p : A -> bool) (l : list A) :
  List.find p (List.filter (fun x => negb (p x)) l) = None.
Proof.
  induction l as [|x l IH]; [reflexivity|]. cbn.
  destruct (p x) eqn:E; cbn; [exact IH|]. rewrite E. exact IH.
Qed.

Lemma find_filter_keep {A} (p q : A -> bool) (l : list A) :
  (forall x, p x = true -> q x = true) ->
  List.find p (List.filter q l) = List.find p l.
Proof.
  intros H. induction l as [|x l IH]; [reflexivity|]. cbn.
  destruct (q x) eqn:Eq; cbn.
  - destruct (p x); [reflexivity|exact IH].
  - destruct (p x) eqn:Ep; [|exact IH]. rewrite (H x Ep) in Eq. discriminate.
Qed.

Lemma sameId_other (a b c : SessionTracker.SessionId) :
  sameId b c = false -> sameId a b = true -> sameId a c = false.
Proof.
  unfold sameId, JS.eqb. intros Hbc Hab.
  apply andb_true_iff in Hab as [Q1 S1].
  apply Qeq_bool_iff in Q1. apply String.eqb_eq in S1.
  apply not_true_iff_false. intros Hac.
  apply andb_true_iff in Hac as [Q2 S2].
  apply Qeq_bool_iff in Q2. apply String.eqb_eq in S2.
  apply not_true_iff_false in Hbc. apply Hbc.
  apply andb_true_iff. split.
  - apply Qeq_bool_iff. rewrite <- Q1. exact Q2.
  - apply String.eqb_eq. congruence.
Qed.

(** X18.  After a successful [deleteSession], looking the deleted id up
    finds nothing, every other id is found as before, and the sessions
    that remain are the former ones without those of that id, in their
    former order. *)
Theorem deleteSession_getSession (id : SessionTracker.SessionId) (st : t)
    (ls : LocalStorage) :
  storageAvailable st = true -> throws ls = false ->
  let '(ok, ls') := deleteSession id st ls in
  ok = true /\
  getSession id st ls' = None /\
  (forall id', sameId id' id = false ->
     getSession id' st ls' = getSession id' st ls) /\
  getSessions st ls'
    = List.filter (fun s => negb (sameId (SessionTracker.sessionId s) id))
                  (getSessions st ls) /\
  loadConfig st ls' = loadConfig st ls.
Proof.
  intros Ha Et. unfold deleteSession, getSession, loadConfig, getSessions.
  rewrite Ha, Et. cbn [negb throws sessionsItem configItem].
  split; [reflexivity|]. split.
  - apply (find_filter_none
             (fun s => sameId (SessionTracker.sessionId s) id)).
  - split; [|split; reflexivity].
    intros id' Hne. apply find_filter_keep.
    intros s Hs. apply negb_true_iff. exact (sameId_other _ _ _ Hne Hs).
Qed.

Lemma deleteSession_getSession_witness :
  let a := SessionTracker.newSession 1000 "a1b2c3d4e" in
  let b := SessionTracker.newSession 2000 "z9y8x7w6v" in
  let ls := mkStorage false None (Some [b; a]) in
  let st := constructor ls in
  let ls' := snd (deleteSession (SessionTracker.sessionId a) st ls) in
  getSession (SessionTracker.sessionId a) st ls' = None /\
  getSession (SessionTracker.sessionId b) st ls' = Some b /\
  getSessions st ls' = [b].
Proof.
  cbv zeta.
  pose proof (deleteSession_getSession
                (SessionTracker.sessionId
                   (SessionTracker.newSession 1000 "a1b2c3d4e"))
                (constructor
                   (mkStorage false None
                      (Some [SessionTracker.newSession 2000 "z9y8x7w6v";
                             SessionTracker.newSession 1000 "a1b2c3d4e"])))
                (mkStorage false None
                   (Some [SessionTracker.newSession 2000 "z9y8x7w6v";
                          SessionTracker.newSession 1000 "a1b2c3d4e"]))
                eq_refl eq_refl) as H.
  destruct (deleteSession _ _ _) as [ok ls'] eqn:E in H.
  rewrite E. cbn [snd].
  destruct H as (_ & Hgone & Hkeep & Hlist & _).
  split; [exact Hgone|]. split.
  - rewrite Hkeep by reflexivity. reflexivity.
  - rewrite Hlist. reflexivity.
Defined.

Lemma best_fold (l : list SessionTracker.Session)
    (b0 : SessionTracker.Session) :
  let b := fold_left (fun best current =>
                        if JS.gtb (rate current) (rate best) then current
                        else best) l b0 in
  (b = b0 \/ In b l) /\
  rate b0 <= rate b /\
  (forall s, In s l -> rate s <= rate b).
Proof.
  cbv zeta. revert b0. induction l as [|x l IH]; intros b0.
  - cbn. split; [left; reflexivity|]. split; [lra|]. intros s [].
  - cbn [fold_left].
    destruct (gtb_spec (rate x) (rate b0)) as [H|H].
    + destruct (IH x) as ([E|Hin] & Hx & Hall).
      * split; [right; left; symmetry; exact E|].
        split; [lra|]. intros s [<-|Hs]; [exact Hx|exact (Hall s Hs)].
      * split; [right; right; exact Hin|].
        split; [lra|]. intros s [<-|Hs]; [exact Hx|exact (Hall s Hs)].
    + destruct (IH b0) as ([E|Hin] & Hb & Hall).
      * split; [left; exact E|].
        split; [exact Hb|]. intros s [<-|Hs]; [lra|exact (Hall s Hs)].
      * split; [right; right; exact Hin|].
        split; [exact Hb|]. intros s [<-|Hs]; [lra|exact (Hall s Hs)].
Qed.

(** X19.  [getAggregateStats] counts the stored sessions; with none it
    reports zeros and no best session; otherwise its best session is
    one of the stored sessions and no stored session has a higher
    success rate. *)
Theorem getAggregateStats_best (st : t) (ls : LocalStorage) :
  let stats := getAggregateStats st ls in
  totalSessions stats = length (getSessions st ls) /\
  (getSessions st ls = [] ->
     stats = mkStats 0 0 0 0 None) /\
  (getSessions st ls <> [] ->
     exists best, bestSession stats = Some best /\
       In best (getSessions st ls) /\
       forall s, In s (getSessions st ls) -> rate s <= rate best).
Proof.
  cbv zeta. unfold getAggregateStats.
  destruct (getSessions st ls) as [|first rest] eqn:E.
  - repeat split. intros H; contradiction.
  - split; [reflexivity|]. split; [discriminate|]. intros _.
    eexists. split; [reflexivity|].
    destruct (best_fold (first :: rest) first) as ([Eb|Hin] & _ & Hall).
    + split; [rewrite Eb; left; reflexivity|exact Hall].
    + split; [exact Hin|exact Hall].
Qed.

End StorageMore.

(** ** Saving the settings and loading them back *)

Section SettingsMore.
Import Settings.
Variable trim : string -> string.

(** X20.  Settings survive a reload.  After [saveConfiguration] on a
    working storage, [loadSavedConfiguration] on any application gives
    its state manager the student name and, key by key, the six
    settings of the panel that the saving one has.  The stored object
    also carries [lastUpdated], which the reload copies into the
    configuration: the reloaded configuration has the time of the
    saving there, the saving one what it had before.  The hold duration
    comes back too, except when the saved one is 0: the running
    application then holds for 0 ms, the reloaded one for 2000 ms. *)
Theorem saveConfiguration_reload (now : Q) (c : Controls)
    (storage : StorageManager.t) (app app0 : EcoLogroApp.t)
    (ls : StorageManager.LocalStorage) :
  StorageManager.storageAvailable storage = true ->
  StorageManager.throws ls = false ->
  let '(app1, ls1) := saveConfiguration trim now c storage app ls in
  let app2 := loadSavedConfiguration trim storage app0 ls1 in
  let saved := StateManager.config (EcoLogroApp.stateManager app1) in
  let loaded := StateManager.config (EcoLogroApp.stateManager app2) in
  (StateManager.lowerThreshold loaded = StateManager.lowerThreshold saved /\
   StateManager.upperThreshold loaded = StateManager.upperThreshold saved /\
   StateManager.sensitivity loaded = StateManager.sensitivity saved /\
   StateManager.dampening loaded = StateManager.dampening saved /\
   StateManager.persistenceDuration loaded
     = StateManager.persistenceDuration saved /\
   StateManager.cfgStudentName loaded = StateManager.cfgStudentName saved) /\
  StateManager.cfgLastUpdated loaded = Some now /\
  StateManager.cfgLastUpdated saved
    = StateManager.cfgLastUpdated
        (StateManager.config (EcoLogroApp.stateManager app)) /\
  StateManager.studentName (EcoLogroApp.stateManager app2)
    = StateManager.studentName (EcoLogroApp.stateManager app1) /\
  EcoLogroApp.volumeHoldDuration app1 = persistenceSlider c /\
  (~ persistenceSlider c == 0 ->
     EcoLogroApp.volumeHoldDuration app2 = persistenceSlider c) /\
  (persistenceSlider c == 0 -> EcoLogroApp.volumeHoldDuration app2 = 2000).
Proof using Type.
  intros Ha Et. unfold saveConfiguration, loadSavedConfiguration.
  unfold StorageManager.saveConfig, StorageManager.loadConfig.
  rewrite Ha, Et. cbn.
  split; [repeat split|].
  split; [reflexivity|]. split; [reflexivity|].
  split; [reflexivity|]. split; [reflexivity|].
  unfold persistenceOr.
  destruct (eqb_spec (persistenceSlider c) 0); split; intros;
    first [reflexivity | contradiction].
Qed.

(** X21.  [saveConfiguration] sets the smoothing constant of the
    analyser from the dampening slider: it always lands in [0, 0.99],
    and for a slider in [0,100] it is [dampening/105], at most 20/21. *)
Theorem saveConfiguration_smoothing (now : Q) (c : Controls)
    (storage : StorageManager.t) (app : EcoLogroApp.t)
    (ls : StorageManager.LocalStorage) :
  let a := EcoLogroApp.audioAnalyzer
             (fst (saveConfiguration trim now c storage app ls)) in
  0 <= AudioAnalyzer.smoothingTimeConstant a <= 99 # 100 /\
  (0 <= dampeningSlider c <= 100 ->
     AudioAnalyzer.smoothingTimeConstant a == dampeningSlider c / 105 /\
     AudioAnalyzer.smoothingTimeConstant a <= 20 # 21) /\
  AudioAnalyzer.dataArray a
    = AudioAnalyzer.dataArray (EcoLogroApp.audioAnalyzer app) /\
  AudioAnalyzer.isAnalyzing a
    = AudioAnalyzer.isAnalyzing (EcoLogroApp.audioAnalyzer app).
Proof using Type.
  cbv zeta. unfold saveConfiguration. cbn.
  split; [apply clamp_range; lra|].
  split; [|split; reflexivity].
  intros Hd.
  assert (E : dampeningSlider c / 105 == dampeningSlider c * (1 # 105))
    by reflexivity.
  assert (Hr : 0 <= dampeningSlider c / 105 <= 99 # 100)
    by (rewrite E; split; lra).
  rewrite (clamp_id 0 (99 # 100) _ Hr). split; [reflexivity|].
  rewrite E. lra.
Qed.

End SettingsMore.

Lemma saveConfiguration_reload_witness :
  let c := Settings.mkControls 85 20 75 25 2000 "Ana" in
  let ls := StorageManager.mkStorage false None None in
  let storage := StorageManager.constructor ls in
  let app1 :=
    fst (Settings.saveConfiguration (fun s => s) 5000 c storage
           EcoLogroApp.constructor ls) in
  let ls1 :=
    snd (Settings.saveConfiguration (fun s => s) 5000 c storage
           EcoLogroApp.constructor ls) in
  let app2 :=
    Settings.loadSavedConfiguration (fun s => s) storage
      EcoLogroApp.constructor ls1 in
  StateManager.cfgLastUpdated
    (StateManager.config (EcoLogroApp.stateManager app2)) = Some 5000 /\
  StateManager.cfgLastUpdated
    (StateManager.config (EcoLogroApp.stateManager app1)) = None /\
  StateManager.studentName (EcoLogroApp.stateManager app2) = "Ana" /\
  EcoLogroApp.volumeHoldDuration app2 = 2000.
Proof.
  cbv zeta.
  pose proof (saveConfiguration_reload (fun s => s) 5000
           (Settings.mkControls 85 20 75 25 2000 "Ana")
           (StorageManager.constructor (StorageManager.mkStorage false None None))
           EcoLogroApp.constructor EcoLogroApp.constructor
           (StorageManager.mkStorage false None None)
           eq_refl eq_refl) as H.
  destruct (Settings.saveConfiguration (fun s => s) 5000
              (Settings.mkControls 85 20 75 25 2000 "Ana")
              (StorageManager.constructor
                 (StorageManager.mkStorage false None None))
              EcoLogroApp.constructor
              (StorageManager.mkStorage false None None)) as [app1 ls1] eqn:E.
  cbn [fst snd]. cbv zeta in H.
  destruct H as (_ & Hl & Hs & Hn & _ & Hh & _).
  split; [exact Hl|]. split; [rewrite Hs; reflexivity|].
  split; [rewrite Hn; injection E as <- _; reflexivity|].
  apply Hh. intros H0. discriminate H0.
Defined.

(** ** Pausing, summarising, starting over *)

Section AppMore.
Import EcoLogroApp.

(** The stabilizer does not look at the analyzer. *)
Lemma updateThermometer_with_audioAnalyzer (now v : Q) (a : AudioAnalyzer.t)
    (app : t) :
  updateThermometer now v (with_audioAnalyzer a app)
  = with_audioAnalyzer a (updateThermometer now v app).
Proof.
  unfold updateThermometer.
  cbn [lastSignificantVolume lastVolumeTimestamp volumeHoldDuration
       with_audioAnalyzer].
  repeat match goal with |- context [if ?b then _ else _] => destruct b end;
    reflexivity.
Qed.

(** What the frame inside [startAnalysis] can change. *)
Lemma startAnalysis_effect (Math_sqrt : Q -> Q) (now : Q) (bins : list Z)
    (app : t) :
  let app' := startAnalysis Math_sqrt now bins app in
  isRunning app' = isRunning app /\
  isPaused app' = isPaused app /\
  (AudioAnalyzer.isInitialized (audioAnalyzer app) = true ->
     AudioAnalyzer.isAnalyzing (audioAnalyzer app') = true) /\
  (isPaused app = true ->
     stateManager app' = stateManager app /\
     sessionTracker app' = sessionTracker app) /\
  (sessionTracker app' = sessionTracker app \/
   exists stateData,
     sessionTracker app'
     = SessionTracker.updateState now stateData (sessionTracker app)).
Proof.
  cbv zeta. unfold startAnalysis.
  destruct (AudioAnalyzer.isInitialized (audioAnalyzer app)) eqn:Hi.
  2:{ repeat split; try discriminate. left; reflexivity. }
  unfold analyze.
  cbn [audioAnalyzer with_audioAnalyzer AudioAnalyzer.isAnalyzing
       AudioAnalyzer.with_isAnalyzing].
  unfold handleVolumeUpdate. cbn [isPaused with_audioAnalyzer].
  destruct (isPaused app) eqn:Hp.
  { cbn [fst]. split; [reflexivity|]. split; [exact Hp|].
    split; [reflexivity|]. split; [split; reflexivity|]. left; reflexivity. }
  unfold afterSample.
  match goal with |- context [updateThermometer now ?v ?x] =>
    destruct (updateThermometer_others now v x) as (Ea & Em & Et & Er & Ep & _);
    set (app1 := updateThermometer now v x) in *
  end.
  destruct (StateManager.updateState (displayedVolume app1) (stateManager app1))
    as [[stateData sm] calls].
  cbn [fst isRunning isPaused audioAnalyzer sessionTracker stateManager].
  rewrite Er, Ep, Ea, Et. cbn.
  split; [reflexivity|]. split; [exact Hp|]. split; [reflexivity|].
  split; [discriminate|]. right. exists stateData. reflexivity.
Qed.

(** X22.  While paused nothing moves: [togglePause] on an application
    that was not paused stops the analysis and touches nothing else,
    and then a frame of the analyser and a call of
    [handleVolumeUpdate] both leave the application as it is.  A
    second [togglePause] lifts the pause and, on an initialised
    analyser, handles a frame at once: the application is then what
    that frame makes of the one before the pause, with the analysis
    on — it shows what the stabilizer makes of the gated RMS of the
    frame, and its state is the class of the value shown; on an
    analyser that is not initialised it is the one before the pause,
    with the analysis off. *)
Theorem togglePause_freezes (Math_sqrt : Q -> Q) (now1 now2 volume : Q)
    (bins1 bins2 : list Z) (app : t) :
  isPaused app = false ->
  let paused := togglePause Math_sqrt now1 bins1 app in
  let resumed := togglePause Math_sqrt now2 bins2 paused in
  paused = with_flags (isRunning app) true
             (with_audioAnalyzer
                (AudioAnalyzer.stopAnalysis (audioAnalyzer app)) app) /\
  analyze Math_sqrt now2 bins2 paused = paused /\
  handleVolumeUpdate Math_sqrt now2 volume paused = (paused, []) /\
  isPaused resumed = false /\
  (AudioAnalyzer.isInitialized (audioAnalyzer app) = true ->
     let sample := AudioAnalyzer.gate (AudioAnalyzer.rmsOf Math_sqrt bins2) in
     let shown := displayedVolume (updateThermometer now2 sample app) in
     AudioAnalyzer.isAnalyzing (audioAnalyzer resumed) = true /\
     resumed
     = analyze Math_sqrt now2 bins2
         (with_audioAnalyzer
            (AudioAnalyzer.with_isAnalyzing true (audioAnalyzer app)) app) /\
     AudioAnalyzer.dataArray (audioAnalyzer resumed) = Some bins2 /\
     displayedVolume resumed = shown /\
     StateManager.currentState (stateManager resumed)
     = StateManager.determineState shown (stateManager app)) /\
  (AudioAnalyzer.isInitialized (audioAnalyzer app) = false ->
     resumed
     = with_audioAnalyzer
         (AudioAnalyzer.stopAnalysis (audioAnalyzer app)) app).
Proof.
  intros Hp paused resumed.
  assert (E : paused = with_flags (isRunning app) true
                (with_audioAnalyzer
                   (AudioAnalyzer.stopAnalysis (audioAnalyzer app)) app)).
  { subst paused. unfold togglePause. rewrite Hp. reflexivity. }
  assert (R : resumed
              = startAnalysis Math_sqrt now2 bins2
                  (with_audioAnalyzer
                     (AudioAnalyzer.stopAnalysis (audioAnalyzer app)) app)).
  { subst resumed. rewrite E. unfold togglePause.
    cbn [isPaused with_flags negb isRunning with_audioAnalyzer].
    f_equal. destruct app; cbn in *; subst; reflexivity. }
  split; [exact E|].
  split; [rewrite E; unfold analyze; reflexivity|].
  split; [rewrite E; unfold handleVolumeUpdate; reflexivity|].
  destruct (startAnalysis_effect Math_sqrt now2 bins2
              (with_audioAnalyzer
                 (AudioAnalyzer.stopAnalysis (audioAnalyzer app)) app))
    as (_ & Ep & Ea & _).
  rewrite <- R in Ep, Ea.
  split; [rewrite Ep; exact Hp|].
  split.
  - intros Hi. cbv zeta. split; [apply Ea; exact Hi|].
    rewrite R. unfold startAnalysis.
    cbn [audioAnalyzer with_audioAnalyzer AudioAnalyzer.isInitialized
         AudioAnalyzer.stopAnalysis].
    rewrite Hi. split; [f_equal|].
    unfold analyze.
    cbn [audioAnalyzer with_audioAnalyzer AudioAnalyzer.isAnalyzing
         AudioAnalyzer.with_isAnalyzing].
    unfold handleVolumeUpdate. cbn [isPaused with_audioAnalyzer]. rewrite Hp.
    unfold afterSample, AudioAnalyzer.getRMSVolume.
    cbn [audioAnalyzer with_audioAnalyzer AudioAnalyzer.dataArray
         AudioAnalyzer.getByteFrequencyData].
    rewrite !updateThermometer_with_audioAnalyzer.
    cbn [displayedVolume stateManager audioAnalyzer with_audioAnalyzer].
    set (app1 := updateThermometer now2 _ app).
    destruct (updateThermometer_others now2
                (AudioAnalyzer.gate (AudioAnalyzer.rmsOf Math_sqrt bins2)) app)
      as (_ & Em & _).
    fold app1 in Em. rewrite Em.
    destruct (updateState_currentState (displayedVolume app1) (stateManager app))
      as (Ec & _).
    destruct (StateManager.updateState (displayedVolume app1) (stateManager app))
      as [[stateData sm] calls].
    cbn [fst snd] in *. cbn. split; [reflexivity|]. split; [reflexivity|].
    exact Ec.
  - intros Hi. rewrite R. unfold startAnalysis.
    cbn [audioAnalyzer with_audioAnalyzer AudioAnalyzer.isInitialized
         AudioAnalyzer.stopAnalysis].
    rewrite Hi. reflexivity.
Qed.

Lemma togglePause_freezes_witness :
  let app := fst (Startup.firstVisit 900 "k3j9x2a7q") in
  let paused := togglePause JS.sqrtOfSquare 1000 [] app in
  let resumed := togglePause JS.sqrtOfSquare 1500 (repeat 0%Z 1024) paused in
  isPaused paused = true /\
  analyze JS.sqrtOfSquare 1500 (repeat 0%Z 1024) paused = paused /\
  handleVolumeUpdate JS.sqrtOfSquare 1500 0 paused = (paused, []) /\
  isPaused resumed = false /\
  AudioAnalyzer.isAnalyzing (audioAnalyzer resumed) = true.
Proof.
  cbv zeta.
  destruct (togglePause_freezes JS.sqrtOfSquare 1000 1500 0 []
              (repeat 0%Z 1024)
              (fst (Startup.firstVisit 900 "k3j9x2a7q"))
              ltac:(vm_compute; reflexivity))
    as (E & Hframe & Htick & Hp & Hi & _).
  split; [rewrite E; reflexivity|].
  split; [exact Hframe|]. split; [exact Htick|]. split; [exact Hp|].
  apply (proj1 (Hi ltac:(vm_compute; reflexivity))).
Defined.

(** X23.  A summary is shown once: whatever [showSessionSummary] did,
    calling it again finds no active session, returns nothing and
    changes neither the application nor its surroundings. *)
Theorem showSessionSummary_once (now1 now2 : Q) (app : t)
    (w : SessionTracker.World) :
  let '(_, app1, w1) := showSessionSummary now1 app w in
  showSessionSummary now2 app1 w1 = (None, app1, w1).
Proof.
  assert (Hstop : forall x, sessionTracker (stop x) = sessionTracker x)
    by (intros x; unfold stop; destruct (isRunning x); reflexivity).
  unfold showSessionSummary at 1.
  destruct (SessionTracker.isTracking (sessionTracker app)) eqn:Et;
    [destruct (SessionTracker.currentSession (sessionTracker app)) eqn:Es|].
  - rewrite (endSession_active now1 _ w _ Et Es).
    unfold showSessionSummary. rewrite Hstop. cbn [sessionTracker with_services].
    rewrite endSession_inactive by (left; reflexivity). reflexivity.
  - rewrite endSession_inactive by (right; exact Es).
    unfold showSessionSummary.
    rewrite endSession_inactive by (right; exact Es). reflexivity.
  - rewrite endSession_inactive by (left; exact Et).
    unfold showSessionSummary.
    rewrite endSession_inactive by (left; exact Et). reflexivity.
Qed.




End AppMore.

(** ** The thermometer *)

Section ThermometerMore.
Import EcoLogroApp.

Lemma clamp_monotone (lo hi x y : Q) :
  x <= y ->
  JS.Math_min hi (JS.Math_max lo x) <= JS.Math_min hi (JS.Math_max lo y).
Proof.
  intros H.
  destruct (Math_min_cases hi (JS.Math_max lo x)) as [[A1 A2]|[A1 A2]];
    destruct (Math_min_cases hi (JS.Math_max lo y)) as [[B1 B2]|[B1 B2]];
    destruct (Math_max_cases lo x) as [[C1 C2]|[C1 C2]];
    destruct (Math_max_cases lo y) as [[D1 D2]|[D1 D2]];
    rewrite A2, B2; rewrite ?C2, ?D2 in *; lra.
Qed.

Lemma div_monotone (c x y : Q) : 0 < c -> x <= y -> x / c <= y / c.
Proof.
  intros Hc H. unfold Qdiv. apply Qmult_le_compat_r; [exact H|].
  apply Qlt_le_weak, Qinv_lt_0_compat, Hc.
Qed.

Lemma div_self (c : Q) : 0 < c -> c / c == 1.
Proof. intros Hc. unfold Qdiv. apply Qmult_inv_r. lra. Qed.

Lemma div_zero (c : Q) : 0 / c == 0.
Proof. unfold Qdiv. ring. Qed.

Lemma Math_max_1 (c : Q) : 1 <= c -> JS.Math_max 1 c == c /\ 0 < JS.Math_max 1 c.
Proof.
  intros H. destruct (Math_max_cases 1 c) as [[A1 A2]|[A1 A2]];
    rewrite A2; split; lra.
Qed.

(** The height before its final clamp, as [visualHeight] computes it. *)
Lemma visualHeight_pieces (v : Q) (l u : Z) :
  (0 < l < u)%Z -> (u < 100)%Z ->
  exists g,
    visualHeight v (Some l) (Some u) = JS.Math_min 100 (JS.Math_max 0 g) /\
    (v <= inject_Z l ->
       g == v / JS.Math_max 1 (inject_Z l) * (333 # 10)) /\
    (inject_Z l < v <= inject_Z u ->
       g == (333 # 10)
            + (v - inject_Z l) / JS.Math_max 1 (inject_Z u - inject_Z l)
              * (517 # 10)) /\
    (inject_Z u < v ->
       g == 85 + (v - inject_Z u) / JS.Math_max 1 (100 - inject_Z u) * 15).
Proof.
  intros Hl Hu. unfold visualHeight, parsedOr.
  destruct (Z.eqb_spec l 0); [lia|]. destruct (Z.eqb_spec u 0); [lia|].
  cbv zeta.
  assert (inject_Z l < inject_Z u) by (rewrite <- Zlt_Qlt; lia).
  eexists. split; [reflexivity|].
  destruct (leb_spec v (inject_Z l)); [|destruct (leb_spec v (inject_Z u))];
    repeat split; intros; first [reflexivity | lra].
Qed.

(** X25.  The height of the thermometer fill is a percentage in
    [0,100].  With sliders at integers [0 < lower < upper < 100] it is 0
    for a shown value of 0, 33.3 at the lower threshold, 85 at the upper
    threshold and 100 at 100, and it never falls when the shown value
    rises. *)
Theorem visualHeight_scale (v1 v2 : Q) (lowerValue upperValue : option Z)
    (l u : Z) :
  0 <= visualHeight v1 lowerValue upperValue <= 100 /\
  ((0 < l < u)%Z -> (u < 100)%Z ->
     visualHeight 0 (Some l) (Some u) == 0 /\
     visualHeight (inject_Z l) (Some l) (Some u) == 333 # 10 /\
     visualHeight (inject_Z u) (Some l) (Some u) == 85 /\
     visualHeight 100 (Some l) (Some u) == 100 /\
     (v1 <= v2 ->
        visualHeight v1 (Some l) (Some u)
        <= visualHeight v2 (Some l) (Some u))).
Proof.
  split.
  { unfold visualHeight. cbv zeta.
    match goal with |- context [JS.Math_max 0 ?g] =>
      destruct (Math_min_cases 100 (JS.Math_max 0 g)) as [[A1 A2]|[A1 A2]];
      destruct (Math_max_cases 0 g) as [[B1 B2]|[B1 B2]];
      rewrite A2; rewrite ?B2 in *; split; lra
    end. }
  intros Hl Hu.
  assert (L1 : 1 <= inject_Z l)
    by (change 1 with (inject_Z 1); rewrite <- Zle_Qle; lia).
  assert (LU : 1 <= inject_Z u - inject_Z l).
  { assert (inject_Z l + 1 <= inject_Z u); [|lra].
    change 1 with (inject_Z 1). rewrite <- inject_Z_plus, <- Zle_Qle. lia. }
  assert (U1 : 1 <= 100 - inject_Z u).
  { assert (inject_Z u + 1 <= 100); [|lra].
    change 1 with (inject_Z 1). change 100 with (inject_Z 100).
    rewrite <- inject_Z_plus, <- Zle_Qle. lia. }
  destruct (Math_max_1 _ L1) as [ML PL].
  destruct (Math_max_1 _ LU) as [MLU PLU].
  destruct (Math_max_1 _ U1) as [MU PU].
  (* the unclamped height on each piece, and its range there *)
  assert (P1 : forall v g, v <= inject_Z l ->
            g == v / JS.Math_max 1 (inject_Z l) * (333 # 10) ->
            g <= 333 # 10).
  { intros v g Hv ->.
    pose proof (div_monotone _ v (JS.Math_max 1 (inject_Z l)) PL
                  ltac:(lra)) as D.
    rewrite (div_self _ PL) in D. lra. }
  assert (P2 : forall v g, inject_Z l < v <= inject_Z u ->
            g == (333 # 10)
                 + (v - inject_Z l) / JS.Math_max 1 (inject_Z u - inject_Z l)
                   * (517 # 10) ->
            333 # 10 <= g <= 85).
  { intros v g Hv ->.
    pose proof (div_monotone _ 0 (v - inject_Z l) PLU ltac:(lra)) as D0.
    pose proof (div_monotone _ (v - inject_Z l)
                  (JS.Math_max 1 (inject_Z u - inject_Z l)) PLU
                  ltac:(lra)) as D1.
    rewrite div_zero in D0. rewrite (div_self _ PLU) in D1. split; lra. }
  assert (P3 : forall v g, inject_Z u < v ->
            g == 85 + (v - inject_Z u) / JS.Math_max 1 (100 - inject_Z u) * 15 ->
            85 <= g).
  { intros v g Hv ->.
    pose proof (div_monotone _ 0 (v - inject_Z u) PU ltac:(lra)) as D0.
    rewrite div_zero in D0. lra. }
  assert (Hclamp : forall g, 0 <= g <= 100 ->
            JS.Math_min 100 (JS.Math_max 0 g) == g).
  { intros g [G0 G1].
    destruct (Math_min_cases 100 (JS.Math_max 0 g)) as [[A1 A2]|[A1 A2]];
      destruct (Math_max_cases 0 g) as [[B1 B2]|[B1 B2]];
      rewrite A2; rewrite ?B2 in *; lra. }
  split; [|split; [|split; [|split]]].
  - destruct (visualHeight_pieces 0 l u Hl Hu) as (g & -> & G1 & _).
    rewrite (G1 ltac:(lra)), div_zero.
    rewrite Hclamp by lra. ring.
  - destruct (visualHeight_pieces (inject_Z l) l u Hl Hu) as (g & -> & G1 & _).
    rewrite (G1 ltac:(lra)).
    assert (E : inject_Z l / JS.Math_max 1 (inject_Z l) == 1).
    { rewrite <- ML at 1. apply div_self, PL. }
    rewrite E. rewrite Hclamp by lra. ring.
  - destruct (visualHeight_pieces (inject_Z u) l u Hl Hu) as (g & -> & _ & G2 & _).
    rewrite (G2 ltac:(lra)).
    assert (E : (inject_Z u - inject_Z l)
                / JS.Math_max 1 (inject_Z u - inject_Z l) == 1).
    { rewrite <- MLU at 1. apply div_self, PLU. }
    rewrite E. rewrite Hclamp by lra. ring.
  - destruct (visualHeight_pieces 100 l u Hl Hu) as (g & -> & _ & _ & G3).
    rewrite (G3 ltac:(lra)).
    assert (E : (100 - inject_Z u) / JS.Math_max 1 (100 - inject_Z u) == 1).
    { rewrite <- MU at 1. apply div_self, PU. }
    rewrite E. rewrite Hclamp by lra. ring.
  - intros Hle.
    destruct (visualHeight_pieces v1 l u Hl Hu) as (g1 & -> & A1 & A2 & A3).
    destruct (visualHeight_pieces v2 l u Hl Hu) as (g2 & -> & B1 & B2 & B3).
    apply clamp_monotone.
    destruct (Qlt_le_dec (inject_Z l) v1) as [Hv1|Hv1];
      [destruct (Qlt_le_dec (inject_Z u) v1) as [Hv1'|Hv1']|];
      (destruct (Qlt_le_dec (inject_Z l) v2) as [Hv2|Hv2];
       [destruct (Qlt_le_dec (inject_Z u) v2) as [Hv2'|Hv2']|]);
      try lra.
    + rewrite (A3 Hv1'), (B3 Hv2').
      pose proof (div_monotone _ (v1 - inject_Z u) (v2 - inject_Z u) PU
                    ltac:(lra)). lra.
    + pose proof (P2 v1 g1 ltac:(lra) (A2 ltac:(lra))).
      pose proof (P3 v2 g2 Hv2' (B3 Hv2')). lra.
    + rewrite (A2 ltac:(lra)), (B2 ltac:(lra)).
      pose proof (div_monotone _ (v1 - inject_Z l) (v2 - inject_Z l) PLU
                    ltac:(lra)). lra.
    + pose proof (P1 v1 g1 Hv1 (A1 Hv1)).
      pose proof (P3 v2 g2 Hv2' (B3 Hv2')). lra.
    + pose proof (P1 v1 g1 Hv1 (A1 Hv1)).
      pose proof (P2 v2 g2 ltac:(lra) (B2 ltac:(lra))). lra.
    + rewrite (A1 Hv1), (B1 Hv2).
      pose proof (div_monotone _ v1 v2 PL Hle). lra.
Qed.

(** X26.  Colour and state agree except on the lower threshold.  When
    the sliders hold the thresholds of the configuration (integers,
    [0 < lower <= upper], [upper >= 3]), the fill is black
    ([fill-high]) exactly when the state is DANGER, and a green fill
    ([fill-optimal]) on a value of 3 or more means OPTIMAL; but a value
    equal to the lower threshold, 3 or more, is OPTIMAL with a red fill
    ([fill-low]). *)
Theorem fillClass_state (v : Q) (l u : Z) (sm : StateManager.t) :
  (0 < l <= u)%Z -> (3 <= u)%Z ->
  StateManager.lowerThreshold (StateManager.config sm) = inject_Z l ->
  StateManager.upperThreshold (StateManager.config sm) = inject_Z u ->
  (fillClass v (Some l) (Some u) = "fill-high" <->
     StateManager.determineState v sm = States.DANGER) /\
  (fillClass v (Some l) (Some u) = "fill-optimal" -> 3 <= v ->
     StateManager.determineState v sm = States.OPTIMAL) /\
  (v == inject_Z l -> 3 <= v ->
     fillClass v (Some l) (Some u) = "fill-low" /\
     StateManager.determineState v sm = States.OPTIMAL).
Proof.
  intros Hl Hu El Eu.
  rewrite determineState_unfold, El, Eu.
  unfold fillClass, parsedOr.
  destruct (Z.eqb_spec l 0); [lia|]. destruct (Z.eqb_spec u 0); [lia|].
  cbv zeta.
  assert (inject_Z l <= inject_Z u) by (rewrite <- Zle_Qle; lia).
  assert (3 <= inject_Z u)
    by (change 3 with (inject_Z 3); rewrite <- Zle_Qle; lia).
  destruct (gtb_spec v (inject_Z u)); destruct (gtb_spec v (inject_Z l));
    destruct (ltb_spec v 3); destruct (ltb_spec v (inject_Z l));
    destruct (leb_spec v (inject_Z u)); try lra;
    (split; [split; intros E; first [reflexivity | discriminate E]|]);
    (split; [intros E ?; first [reflexivity | discriminate E | lra]|]);
    intros ? ?; first [lra | split; reflexivity].
Qed.

Lemma fillClass_state_witness :
  (fillClass 25 (Some 25%Z) (Some 75%Z) = "fill-high" <->
     StateManager.determineState 25 StateManager.constructor = States.DANGER) /\
  (fillClass 25 (Some 25%Z) (Some 75%Z) = "fill-optimal" -> 3 <= 25 ->
     StateManager.determineState 25 StateManager.constructor = States.OPTIMAL) /\
  (25 == inject_Z 25 -> 3 <= 25 ->
     fillClass 25 (Some 25%Z) (Some 75%Z) = "fill-low" /\
     StateManager.determineState 25 StateManager.constructor = States.OPTIMAL).
Proof.
  apply (fillClass_state 25 25 75 StateManager.constructor);
    first [reflexivity | lia].
Defined.

End ThermometerMore.
